(** * aiIntergrator: the audio helper, the Model Garden command and the SecLM client

    A shallow embedding of the three Python sources of the repository:

    - [process_audio.py]: reads an audio file and sends it to the speech
      recognition service;
    - [list_deployment_config.py]: the [gcloud ai model-garden models
      list-deployment-config] command;
    - [seclm_v1_client.py]: the generated client of the SecLM API.

    Python code that can raise is a computation in a state-and-exception
    monad; everything outside the three files (the recognition service, the
    file system, the standard output, the Model Garden client, apitools'
    base classes) is an explicit parameter of the embedding. *)

From Stdlib Require Import Strings.String Strings.Ascii Strings.Byte.
From Stdlib Require Import Lists.List NArith.NArith ZArith.ZArith Bool.Bool Lia.
Import ListNotations.

Local Open Scope string_scope.
Local Open Scope list_scope.

(** ** The character data of Python

    The properties of code points that [str.isspace], [str.isupper] and
    [str.lower] consult, for the whole code space, as CPython 3.11 has them
    (Unicode 14.0.0). *)

Module Unicode.

(** The code points [c] with [chr(c).isspace()], as closed ranges. *)
Definition space : list (N * N) :=
  [(9, 13); (28, 32); (133, 133); (160, 160); (5760, 5760); (8192, 8202);
   (8232, 8233); (8239, 8239); (8287, 8287); (12288, 12288)]%N.

(** The code points with [chr(c).isupper()]. *)
Definition upper : list (N * N) :=
  [(65, 90); (192, 214); (216, 222); (256, 256); (258, 258); (260, 260);
   (262, 262); (264, 264); (266, 266); (268, 268); (270, 270); (272, 272);
   (274, 274); (276, 276); (278, 278); (280, 280); (282, 282); (284, 284);
   (286, 286); (288, 288); (290, 290); (292, 292); (294, 294); (296, 296);
   (298, 298); (300, 300); (302, 302); (304, 304); (306, 306); (308, 308);
   (310, 310); (313, 313); (315, 315); (317, 317); (319, 319); (321, 321);
   (323, 323); (325, 325); (327, 327); (330, 330); (332, 332); (334, 334);
   (336, 336); (338, 338); (340, 340); (342, 342); (344, 344); (346, 346);
   (348, 348); (350, 350); (352, 352); (354, 354); (356, 356); (358, 358);
   (360, 360); (362, 362); (364, 364); (366, 366); (368, 368); (370, 370);
   (372, 372); (374, 374); (376, 377); (379, 379); (381, 381); (385, 386);
   (388, 388); (390, 391); (393, 395); (398, 401); (403, 404); (406, 408);
   (412, 413); (415, 416); (418, 418); (420, 420); (422, 423); (425, 425);
   (428, 428); (430, 431); (433, 435); (437, 437); (439, 440); (444, 444);
   (452, 452); (455, 455); (458, 458); (461, 461); (463, 463); (465, 465);
   (467, 467); (469, 469); (471, 471); (473, 473); (475, 475); (478, 478);
   (480, 480); (482, 482); (484, 484); (486, 486); (488, 488); (490, 490);
   (492, 492); (494, 494); (497, 497); (500, 500); (502, 504); (506, 506);
   (508, 508); (510, 510); (512, 512); (514, 514); (516, 516); (518, 518);
   (520, 520); (522, 522); (524, 524); (526, 526); (528, 528); (530, 530);
   (532, 532); (534, 534); (536, 536); (538, 538); (540, 540); (542, 542);
   (544, 544); (546, 546); (548, 548); (550, 550); (552, 552); (554, 554);
   (556, 556); (558, 558); (560, 560); (562, 562); (570, 571); (573, 574);
   (577, 577); (579, 582); (584, 584); (586, 586); (588, 588); (590, 590);
   (880, 880); (882, 882); (886, 886); (895, 895); (902, 902); (904, 906);
   (908, 908); (910, 911); (913, 929); (931, 939); (975, 975); (978, 980);
   (984, 984); (986, 986); (988, 988); (990, 990); (992, 992); (994, 994);
   (996, 996); (998, 998); (1000, 1000); (1002, 1002); (1004, 1004); (1006,
   1006); (1012, 1012); (1015, 1015); (1017, 1018); (1021, 1071); (1120,
   1120); (1122, 1122); (1124, 1124); (1126, 1126); (1128, 1128); (1130,
   1130); (1132, 1132); (1134, 1134); (1136, 1136); (1138, 1138); (1140,
   1140); (1142, 1142); (1144, 1144); (1146, 1146); (1148, 1148); (1150,
   1150); (1152, 1152); (1162, 1162); (1164, 1164); (1166, 1166); (1168,
   1168); (1170, 1170); (1172, 1172); (1174, 1174); (1176, 1176); (1178,
   1178); (1180, 1180); (1182, 1182); (1184, 1184); (1186, 1186); (1188,
   1188); (1190, 1190); (1192, 1192); (1194, 1194); (1196, 1196); (1198,
   1198); (1200, 1200); (1202, 1202); (1204, 1204); (1206, 1206); (1208,
   1208); (1210, 1210); (1212, 1212); (1214, 1214); (1216, 1217); (1219,
   1219); (1221, 1221); (1223, 1223); (1225, 1225); (1227, 1227); (1229,
   1229); (1232, 1232); (1234, 1234); (1236, 1236); (1238, 1238); (1240,
   1240); (1242, 1242); (1244, 1244); (1246, 1246); (1248, 1248); (1250,
   1250); (1252, 1252); (1254, 1254); (1256, 1256); (1258, 1258); (1260,
   1260); (1262, 1262); (1264, 1264); (1266, 1266); (1268, 1268); (1270,
   1270); (1272, 1272); (1274, 1274); (1276, 1276); (1278, 1278); (1280,
   1280); (1282, 1282); (1284, 1284); (1286, 1286); (1288, 1288); (1290,
   1290); (1292, 1292); (1294, 1294); (1296, 1296); (1298, 1298); (1300,
   1300); (1302, 1302); (1304, 1304); (1306, 1306); (1308, 1308); (1310,
   1310); (1312, 1312); (1314, 1314); (1316, 1316); (1318, 1318); (1320,
   1320); (1322, 1322); (1324, 1324); (1326, 1326); (1329, 1366); (4256,
   4293); (4295, 4295); (4301, 4301); (5024, 5109); (7312, 7354); (7357,
   7359); (7680, 7680); (7682, 7682); (7684, 7684); (7686, 7686); (7688,
   7688); (7690, 7690); (7692, 7692); (7694, 7694); (7696, 7696); (7698,
   7698); (7700, 7700); (7702, 7702); (7704, 7704); (7706, 7706); (7708,
   7708); (7710, 7710); (7712, 7712); (7714, 7714); (7716, 7716); (7718,
   7718); (7720, 7720); (7722, 7722); (7724, 7724); (7726, 7726); (7728,
   7728); (7730, 7730); (7732, 7732); (7734, 7734); (7736, 7736); (7738,
   7738); (7740, 7740); (7742, 7742); (7744, 7744); (7746, 7746); (7748,
   7748); (7750, 7750); (7752, 7752); (7754, 7754); (7756, 7756); (7758,
   7758); (7760, 7760); (7762, 7762); (7764, 7764); (7766, 7766); (7768,
   7768); (7770, 7770); (7772, 7772); (7774, 7774); (7776, 7776); (7778,
   7778); (7780, 7780); (7782, 7782); (7784, 7784); (7786, 7786); (7788,
   7788); (7790, 7790); (7792, 7792); (7794, 7794); (7796, 7796); (7798,
   7798); (7800, 7800); (7802, 7802); (7804, 7804); (7806, 7806); (7808,
   7808); (7810, 7810); (7812, 7812); (7814, 7814); (7816, 7816); (7818,
   7818); (7820, 7820); (7822, 7822); (7824, 7824); (7826, 7826); (7828,
   7828); (7838, 7838); (7840, 7840); (7842, 7842); (7844, 7844); (7846,
   7846); (7848, 7848); (7850, 7850); (7852, 7852); (7854, 7854); (7856,
   7856); (7858, 7858); (7860, 7860); (7862, 7862); (7864, 7864); (7866,
   7866); (7868, 7868); (7870, 7870); (7872, 7872); (7874, 7874); (7876,
   7876); (7878, 7878); (7880, 7880); (7882, 7882); (7884, 7884); (7886,
   7886); (7888, 7888); (7890, 7890); (7892, 7892); (7894, 7894); (7896,
   7896); (7898, 7898); (7900, 7900); (7902, 7902); (7904, 7904); (7906,
   7906); (7908, 7908); (7910, 7910); (7912, 7912); (7914, 7914); (7916,
   7916); (7918, 7918); (7920, 7920); (7922, 7922); (7924, 7924); (7926,
   7926); (7928, 7928); (7930, 7930); (7932, 7932); (7934, 7934); (7944,
   7951); (7960, 7965); (7976, 7983); (7992, 7999); (8008, 8013); (8025,
   8025); (8027, 8027); (8029, 8029); (8031, 8031); (8040, 8047); (8120,
   8123); (8136, 8139); (8152, 8155); (8168, 8172); (8184, 8187); (8450,
   8450); (8455, 8455); (8459, 8461); (8464, 8466); (8469, 8469); (8473,
   8477); (8484, 8484); (8486, 8486); (8488, 8488); (8490, 8493); (8496,
   8499); (8510, 8511); (8517, 8517); (8544, 8559); (8579, 8579); (9398,
   9423); (11264, 11311); (11360, 11360); (11362, 11364); (11367, 11367);
   (11369, 11369); (11371, 11371); (11373, 11376); (11378, 11378); (11381,
   11381); (11390, 11392); (11394, 11394); (11396, 11396); (11398, 11398);
   (11400, 11400); (11402, 11402); (11404, 11404); (11406, 11406); (11408,
   11408); (11410, 11410); (11412, 11412); (11414, 11414); (11416, 11416);
   (11418, 11418); (11420, 11420); (11422, 11422); (11424, 11424); (11426,
   11426); (11428, 11428); (11430, 11430); (11432, 11432); (11434, 11434);
   (11436, 11436); (11438, 11438); (11440, 11440); (11442, 11442); (11444,
   11444); (11446, 11446); (11448, 11448); (11450, 11450); (11452, 11452);
   (11454, 11454); (11456, 11456); (11458, 11458); (11460, 11460); (11462,
   11462); (11464, 11464); (11466, 11466); (11468, 11468); (11470, 11470);
   (11472, 11472); (11474, 11474); (11476, 11476); (11478, 11478); (11480,
   11480); (11482, 11482); (11484, 11484); (11486, 11486); (11488, 11488);
   (11490, 11490); (11499, 11499); (11501, 11501); (11506, 11506); (42560,
   42560); (42562, 42562); (42564, 42564); (42566, 42566); (42568, 42568);
   (42570, 42570); (42572, 42572); (42574, 42574); (42576, 42576); (42578,
   42578); (42580, 42580); (42582, 42582); (42584, 42584); (42586, 42586);
   (42588, 42588); (42590, 42590); (42592, 42592); (42594, 42594); (42596,
   42596); (42598, 42598); (42600, 42600); (42602, 42602); (42604, 42604);
   (42624, 42624); (42626, 42626); (42628, 42628); (42630, 42630); (42632,
   42632); (42634, 42634); (42636, 42636); (42638, 42638); (42640, 42640);
   (42642, 42642); (42644, 42644); (42646, 42646); (42648, 42648); (42650,
   42650); (42786, 42786); (42788, 42788); (42790, 42790); (42792, 42792);
   (42794, 42794); (42796, 42796); (42798, 42798); (42802, 42802); (42804,
   42804); (42806, 42806); (42808, 42808); (42810, 42810); (42812, 42812);
   (42814, 42814); (42816, 42816); (42818, 42818); (42820, 42820); (42822,
   42822); (42824, 42824); (42826, 42826); (42828, 42828); (42830, 42830);
   (42832, 42832); (42834, 42834); (42836, 42836); (42838, 42838); (42840,
   42840); (42842, 42842); (42844, 42844); (42846, 42846); (42848, 42848);
   (42850, 42850); (42852, 42852); (42854, 42854); (42856, 42856); (42858,
   42858); (42860, 42860); (42862, 42862); (42873, 42873); (42875, 42875);
   (42877, 42878); (42880, 42880); (42882, 42882); (42884, 42884); (42886,
   42886); (42891, 42891); (42893, 42893); (42896, 42896); (42898, 42898);
   (42902, 42902); (42904, 42904); (42906, 42906); (42908, 42908); (42910,
   42910); (42912, 42912); (42914, 42914); (42916, 42916); (42918, 42918);
   (42920, 42920); (42922, 42926); (42928, 42932); (42934, 42934); (42936,
   42936); (42938, 42938); (42940, 42940); (42942, 42942); (42944, 42944);
   (42946, 42946); (42948, 42951); (42953, 42953); (42960, 42960); (42966,
   42966); (42968, 42968); (42997, 42997); (65313, 65338); (66560, 66599);
   (66736, 66771); (66928, 66938); (66940, 66954); (66956, 66962); (66964,
   66965); (68736, 68786); (71840, 71871); (93760, 93791); (119808, 119833);
   (119860, 119885); (119912, 119937); (119964, 119964); (119966, 119967);
   (119970, 119970); (119973, 119974); (119977, 119980); (119982, 119989);
   (120016, 120041); (120068, 120069); (120071, 120074); (120077, 120084);
   (120086, 120092); (120120, 120121); (120123, 120126); (120128, 120132);
   (120134, 120134); (120138, 120144); (120172, 120197); (120224, 120249);
   (120276, 120301); (120328, 120353); (120380, 120405); (120432, 120457);
   (120488, 120512); (120546, 120570); (120604, 120628); (120662, 120686);
   (120720, 120744); (120778, 120778); (125184, 125217); (127280, 127305);
   (127312, 127337); (127344, 127369)]%N.

(** The code points with the property Cased: [islower()], [isupper()] or
    [istitle()]. *)
Definition cased : list (N * N) :=
  [(65, 90); (97, 122); (170, 170); (181, 181); (186, 186); (192, 214);
   (216, 246); (248, 442); (444, 447); (452, 659); (661, 696); (704, 705);
   (736, 740); (837, 837); (880, 883); (886, 887); (890, 893); (895, 895);
   (902, 902); (904, 906); (908, 908); (910, 929); (931, 1013); (1015,
   1153); (1162, 1327); (1329, 1366); (1376, 1416); (4256, 4293); (4295,
   4295); (4301, 4301); (4304, 4346); (4349, 4351); (5024, 5109); (5112,
   5117); (7296, 7304); (7312, 7354); (7357, 7359); (7424, 7615); (7680,
   7957); (7960, 7965); (7968, 8005); (8008, 8013); (8016, 8023); (8025,
   8025); (8027, 8027); (8029, 8029); (8031, 8061); (8064, 8116); (8118,
   8124); (8126, 8126); (8130, 8132); (8134, 8140); (8144, 8147); (8150,
   8155); (8160, 8172); (8178, 8180); (8182, 8188); (8305, 8305); (8319,
   8319); (8336, 8348); (8450, 8450); (8455, 8455); (8458, 8467); (8469,
   8469); (8473, 8477); (8484, 8484); (8486, 8486); (8488, 8488); (8490,
   8493); (8495, 8500); (8505, 8505); (8508, 8511); (8517, 8521); (8526,
   8526); (8544, 8575); (8579, 8580); (9398, 9449); (11264, 11492); (11499,
   11502); (11506, 11507); (11520, 11557); (11559, 11559); (11565, 11565);
   (42560, 42605); (42624, 42653); (42786, 42887); (42891, 42894); (42896,
   42954); (42960, 42961); (42963, 42963); (42965, 42969); (42997, 42998);
   (43000, 43002); (43824, 43866); (43868, 43880); (43888, 43967); (64256,
   64262); (64275, 64279); (65313, 65338); (65345, 65370); (66560, 66639);
   (66736, 66771); (66776, 66811); (66928, 66938); (66940, 66954); (66956,
   66962); (66964, 66965); (66967, 66977); (66979, 66993); (66995, 67001);
   (67003, 67004); (67456, 67456); (67459, 67461); (67463, 67504); (67506,
   67514); (68736, 68786); (68800, 68850); (71840, 71903); (93760, 93823);
   (119808, 119892); (119894, 119964); (119966, 119967); (119970, 119970);
   (119973, 119974); (119977, 119980); (119982, 119993); (119995, 119995);
   (119997, 120003); (120005, 120069); (120071, 120074); (120077, 120084);
   (120086, 120092); (120094, 120121); (120123, 120126); (120128, 120132);
   (120134, 120134); (120138, 120144); (120146, 120485); (120488, 120512);
   (120514, 120538); (120540, 120570); (120572, 120596); (120598, 120628);
   (120630, 120654); (120656, 120686); (120688, 120712); (120714, 120744);
   (120746, 120770); (120772, 120779); (122624, 122633); (122635, 122654);
   (125184, 125251); (127280, 127305); (127312, 127337); (127344, 127369)]%N.

(** The code points with the property Case_Ignorable. *)
Definition case_ignorable : list (N * N) :=
  [(39, 39); (46, 46); (58, 58); (94, 94); (96, 96); (168, 168); (173, 173);
   (175, 175); (180, 180); (183, 184); (688, 879); (884, 885); (890, 890);
   (900, 901); (903, 903); (1155, 1161); (1369, 1369); (1375, 1375); (1425,
   1469); (1471, 1471); (1473, 1474); (1476, 1477); (1479, 1479); (1524,
   1524); (1536, 1541); (1552, 1562); (1564, 1564); (1600, 1600); (1611,
   1631); (1648, 1648); (1750, 1757); (1759, 1768); (1770, 1773); (1807,
   1807); (1809, 1809); (1840, 1866); (1958, 1968); (2027, 2037); (2042,
   2042); (2045, 2045); (2070, 2093); (2137, 2139); (2184, 2184); (2192,
   2193); (2200, 2207); (2249, 2306); (2362, 2362); (2364, 2364); (2369,
   2376); (2381, 2381); (2385, 2391); (2402, 2403); (2417, 2417); (2433,
   2433); (2492, 2492); (2497, 2500); (2509, 2509); (2530, 2531); (2558,
   2558); (2561, 2562); (2620, 2620); (2625, 2626); (2631, 2632); (2635,
   2637); (2641, 2641); (2672, 2673); (2677, 2677); (2689, 2690); (2748,
   2748); (2753, 2757); (2759, 2760); (2765, 2765); (2786, 2787); (2810,
   2815); (2817, 2817); (2876, 2876); (2879, 2879); (2881, 2884); (2893,
   2893); (2901, 2902); (2914, 2915); (2946, 2946); (3008, 3008); (3021,
   3021); (3072, 3072); (3076, 3076); (3132, 3132); (3134, 3136); (3142,
   3144); (3146, 3149); (3157, 3158); (3170, 3171); (3201, 3201); (3260,
   3260); (3263, 3263); (3270, 3270); (3276, 3277); (3298, 3299); (3328,
   3329); (3387, 3388); (3393, 3396); (3405, 3405); (3426, 3427); (3457,
   3457); (3530, 3530); (3538, 3540); (3542, 3542); (3633, 3633); (3636,
   3642); (3654, 3662); (3761, 3761); (3764, 3772); (3782, 3782); (3784,
   3789); (3864, 3865); (3893, 3893); (3895, 3895); (3897, 3897); (3953,
   3966); (3968, 3972); (3974, 3975); (3981, 3991); (3993, 4028); (4038,
   4038); (4141, 4144); (4146, 4151); (4153, 4154); (4157, 4158); (4184,
   4185); (4190, 4192); (4209, 4212); (4226, 4226); (4229, 4230); (4237,
   4237); (4253, 4253); (4348, 4348); (4957, 4959); (5906, 5908); (5938,
   5939); (5970, 5971); (6002, 6003); (6068, 6069); (6071, 6077); (6086,
   6086); (6089, 6099); (6103, 6103); (6109, 6109); (6155, 6159); (6211,
   6211); (6277, 6278); (6313, 6313); (6432, 6434); (6439, 6440); (6450,
   6450); (6457, 6459); (6679, 6680); (6683, 6683); (6742, 6742); (6744,
   6750); (6752, 6752); (6754, 6754); (6757, 6764); (6771, 6780); (6783,
   6783); (6823, 6823); (6832, 6862); (6912, 6915); (6964, 6964); (6966,
   6970); (6972, 6972); (6978, 6978); (7019, 7027); (7040, 7041); (7074,
   7077); (7080, 7081); (7083, 7085); (7142, 7142); (7144, 7145); (7149,
   7149); (7151, 7153); (7212, 7219); (7222, 7223); (7288, 7293); (7376,
   7378); (7380, 7392); (7394, 7400); (7405, 7405); (7412, 7412); (7416,
   7417); (7468, 7530); (7544, 7544); (7579, 7679); (8125, 8125); (8127,
   8129); (8141, 8143); (8157, 8159); (8173, 8175); (8189, 8190); (8203,
   8207); (8216, 8217); (8228, 8228); (8231, 8231); (8234, 8238); (8288,
   8292); (8294, 8303); (8305, 8305); (8319, 8319); (8336, 8348); (8400,
   8432); (11388, 11389); (11503, 11505); (11631, 11631); (11647, 11647);
   (11744, 11775); (11823, 11823); (12293, 12293); (12330, 12333); (12337,
   12341); (12347, 12347); (12441, 12446); (12540, 12542); (40981, 40981);
   (42232, 42237); (42508, 42508); (42607, 42610); (42612, 42621); (42623,
   42623); (42652, 42655); (42736, 42737); (42752, 42785); (42864, 42864);
   (42888, 42890); (42994, 42996); (43000, 43001); (43010, 43010); (43014,
   43014); (43019, 43019); (43045, 43046); (43052, 43052); (43204, 43205);
   (43232, 43249); (43263, 43263); (43302, 43309); (43335, 43345); (43392,
   43394); (43443, 43443); (43446, 43449); (43452, 43453); (43471, 43471);
   (43493, 43494); (43561, 43566); (43569, 43570); (43573, 43574); (43587,
   43587); (43596, 43596); (43632, 43632); (43644, 43644); (43696, 43696);
   (43698, 43700); (43703, 43704); (43710, 43711); (43713, 43713); (43741,
   43741); (43756, 43757); (43763, 43764); (43766, 43766); (43867, 43871);
   (43881, 43883); (44005, 44005); (44008, 44008); (44013, 44013); (64286,
   64286); (64434, 64450); (65024, 65039); (65043, 65043); (65056, 65071);
   (65106, 65106); (65109, 65109); (65279, 65279); (65287, 65287); (65294,
   65294); (65306, 65306); (65342, 65342); (65344, 65344); (65392, 65392);
   (65438, 65439); (65507, 65507); (65529, 65531); (66045, 66045); (66272,
   66272); (66422, 66426); (67456, 67461); (67463, 67504); (67506, 67514);
   (68097, 68099); (68101, 68102); (68108, 68111); (68152, 68154); (68159,
   68159); (68325, 68326); (68900, 68903); (69291, 69292); (69446, 69456);
   (69506, 69509); (69633, 69633); (69688, 69702); (69744, 69744); (69747,
   69748); (69759, 69761); (69811, 69814); (69817, 69818); (69821, 69821);
   (69826, 69826); (69837, 69837); (69888, 69890); (69927, 69931); (69933,
   69940); (70003, 70003); (70016, 70017); (70070, 70078); (70089, 70092);
   (70095, 70095); (70191, 70193); (70196, 70196); (70198, 70199); (70206,
   70206); (70367, 70367); (70371, 70378); (70400, 70401); (70459, 70460);
   (70464, 70464); (70502, 70508); (70512, 70516); (70712, 70719); (70722,
   70724); (70726, 70726); (70750, 70750); (70835, 70840); (70842, 70842);
   (70847, 70848); (70850, 70851); (71090, 71093); (71100, 71101); (71103,
   71104); (71132, 71133); (71219, 71226); (71229, 71229); (71231, 71232);
   (71339, 71339); (71341, 71341); (71344, 71349); (71351, 71351); (71453,
   71455); (71458, 71461); (71463, 71467); (71727, 71735); (71737, 71738);
   (71995, 71996); (71998, 71998); (72003, 72003); (72148, 72151); (72154,
   72155); (72160, 72160); (72193, 72202); (72243, 72248); (72251, 72254);
   (72263, 72263); (72273, 72278); (72281, 72283); (72330, 72342); (72344,
   72345); (72752, 72758); (72760, 72765); (72767, 72767); (72850, 72871);
   (72874, 72880); (72882, 72883); (72885, 72886); (73009, 73014); (73018,
   73018); (73020, 73021); (73023, 73029); (73031, 73031); (73104, 73105);
   (73109, 73109); (73111, 73111); (73459, 73460); (78896, 78904); (92912,
   92916); (92976, 92982); (92992, 92995); (94031, 94031); (94095, 94111);
   (94176, 94177); (94179, 94180); (110576, 110579); (110581, 110587);
   (110589, 110590); (113821, 113822); (113824, 113827); (118528, 118573);
   (118576, 118598); (119143, 119145); (119155, 119170); (119173, 119179);
   (119210, 119213); (119362, 119364); (121344, 121398); (121403, 121452);
   (121461, 121461); (121476, 121476); (121499, 121503); (121505, 121519);
   (122880, 122886); (122888, 122904); (122907, 122913); (122915, 122916);
   (122918, 122922); (123184, 123197); (123566, 123566); (123628, 123631);
   (125136, 125142); (125252, 125259); (127995, 127999); (917505, 917505);
   (917536, 917631); (917760, 917999)]%N.

(** The code points that [chr(c).lower()] changes into one other code point,
    each with that code point. *)
Definition lower_pairs : list (N * N) :=
  [(65, 97); (66, 98); (67, 99); (68, 100); (69, 101); (70, 102); (71, 103);
   (72, 104); (73, 105); (74, 106); (75, 107); (76, 108); (77, 109); (78,
   110); (79, 111); (80, 112); (81, 113); (82, 114); (83, 115); (84, 116);
   (85, 117); (86, 118); (87, 119); (88, 120); (89, 121); (90, 122); (192,
   224); (193, 225); (194, 226); (195, 227); (196, 228); (197, 229); (198,
   230); (199, 231); (200, 232); (201, 233); (202, 234); (203, 235); (204,
   236); (205, 237); (206, 238); (207, 239); (208, 240); (209, 241); (210,
   242); (211, 243); (212, 244); (213, 245); (214, 246); (216, 248); (217,
   249); (218, 250); (219, 251); (220, 252); (221, 253); (222, 254); (256,
   257); (258, 259); (260, 261); (262, 263); (264, 265); (266, 267); (268,
   269); (270, 271); (272, 273); (274, 275); (276, 277); (278, 279); (280,
   281); (282, 283); (284, 285); (286, 287); (288, 289); (290, 291); (292,
   293); (294, 295); (296, 297); (298, 299); (300, 301); (302, 303); (306,
   307); (308, 309); (310, 311); (313, 314); (315, 316); (317, 318); (319,
   320); (321, 322); (323, 324); (325, 326); (327, 328); (330, 331); (332,
   333); (334, 335); (336, 337); (338, 339); (340, 341); (342, 343); (344,
   345); (346, 347); (348, 349); (350, 351); (352, 353); (354, 355); (356,
   357); (358, 359); (360, 361); (362, 363); (364, 365); (366, 367); (368,
   369); (370, 371); (372, 373); (374, 375); (376, 255); (377, 378); (379,
   380); (381, 382); (385, 595); (386, 387); (388, 389); (390, 596); (391,
   392); (393, 598); (394, 599); (395, 396); (398, 477); (399, 601); (400,
   603); (401, 402); (403, 608); (404, 611); (406, 617); (407, 616); (408,
   409); (412, 623); (413, 626); (415, 629); (416, 417); (418, 419); (420,
   421); (422, 640); (423, 424); (425, 643); (428, 429); (430, 648); (431,
   432); (433, 650); (434, 651); (435, 436); (437, 438); (439, 658); (440,
   441); (444, 445); (452, 454); (453, 454); (455, 457); (456, 457); (458,
   460); (459, 460); (461, 462); (463, 464); (465, 466); (467, 468); (469,
   470); (471, 472); (473, 474); (475, 476); (478, 479); (480, 481); (482,
   483); (484, 485); (486, 487); (488, 489); (490, 491); (492, 493); (494,
   495); (497, 499); (498, 499); (500, 501); (502, 405); (503, 447); (504,
   505); (506, 507); (508, 509); (510, 511); (512, 513); (514, 515); (516,
   517); (518, 519); (520, 521); (522, 523); (524, 525); (526, 527); (528,
   529); (530, 531); (532, 533); (534, 535); (536, 537); (538, 539); (540,
   541); (542, 543); (544, 414); (546, 547); (548, 549); (550, 551); (552,
   553); (554, 555); (556, 557); (558, 559); (560, 561); (562, 563); (570,
   11365); (571, 572); (573, 410); (574, 11366); (577, 578); (579, 384);
   (580, 649); (581, 652); (582, 583); (584, 585); (586, 587); (588, 589);
   (590, 591); (880, 881); (882, 883); (886, 887); (895, 1011); (902, 940);
   (904, 941); (905, 942); (906, 943); (908, 972); (910, 973); (911, 974);
   (913, 945); (914, 946); (915, 947); (916, 948); (917, 949); (918, 950);
   (919, 951); (920, 952); (921, 953); (922, 954); (923, 955); (924, 956);
   (925, 957); (926, 958); (927, 959); (928, 960); (929, 961); (931, 963);
   (932, 964); (933, 965); (934, 966); (935, 967); (936, 968); (937, 969);
   (938, 970); (939, 971); (975, 983); (984, 985); (986, 987); (988, 989);
   (990, 991); (992, 993); (994, 995); (996, 997); (998, 999); (1000, 1001);
   (1002, 1003); (1004, 1005); (1006, 1007); (1012, 952); (1015, 1016);
   (1017, 1010); (1018, 1019); (1021, 891); (1022, 892); (1023, 893); (1024,
   1104); (1025, 1105); (1026, 1106); (1027, 1107); (1028, 1108); (1029,
   1109); (1030, 1110); (1031, 1111); (1032, 1112); (1033, 1113); (1034,
   1114); (1035, 1115); (1036, 1116); (1037, 1117); (1038, 1118); (1039,
   1119); (1040, 1072); (1041, 1073); (1042, 1074); (1043, 1075); (1044,
   1076); (1045, 1077); (1046, 1078); (1047, 1079); (1048, 1080); (1049,
   1081); (1050, 1082); (1051, 1083); (1052, 1084); (1053, 1085); (1054,
   1086); (1055, 1087); (1056, 1088); (1057, 1089); (1058, 1090); (1059,
   1091); (1060, 1092); (1061, 1093); (1062, 1094); (1063, 1095); (1064,
   1096); (1065, 1097); (1066, 1098); (1067, 1099); (1068, 1100); (1069,
   1101); (1070, 1102); (1071, 1103); (1120, 1121); (1122, 1123); (1124,
   1125); (1126, 1127); (1128, 1129); (1130, 1131); (1132, 1133); (1134,
   1135); (1136, 1137); (1138, 1139); (1140, 1141); (1142, 1143); (1144,
   1145); (1146, 1147); (1148, 1149); (1150, 1151); (1152, 1153); (1162,
   1163); (1164, 1165); (1166, 1167); (1168, 1169); (1170, 1171); (1172,
   1173); (1174, 1175); (1176, 1177); (1178, 1179); (1180, 1181); (1182,
   1183); (1184, 1185); (1186, 1187); (1188, 1189); (1190, 1191); (1192,
   1193); (1194, 1195); (1196, 1197); (1198, 1199); (1200, 1201); (1202,
   1203); (1204, 1205); (1206, 1207); (1208, 1209); (1210, 1211); (1212,
   1213); (1214, 1215); (1216, 1231); (1217, 1218); (1219, 1220); (1221,
   1222); (1223, 1224); (1225, 1226); (1227, 1228); (1229, 1230); (1232,
   1233); (1234, 1235); (1236, 1237); (1238, 1239); (1240, 1241); (1242,
   1243); (1244, 1245); (1246, 1247); (1248, 1249); (1250, 1251); (1252,
   1253); (1254, 1255); (1256, 1257); (1258, 1259); (1260, 1261); (1262,
   1263); (1264, 1265); (1266, 1267); (1268, 1269); (1270, 1271); (1272,
   1273); (1274, 1275); (1276, 1277); (1278, 1279); (1280, 1281); (1282,
   1283); (1284, 1285); (1286, 1287); (1288, 1289); (1290, 1291); (1292,
   1293); (1294, 1295); (1296, 1297); (1298, 1299); (1300, 1301); (1302,
   1303); (1304, 1305); (1306, 1307); (1308, 1309); (1310, 1311); (1312,
   1313); (1314, 1315); (1316, 1317); (1318, 1319); (1320, 1321); (1322,
   1323); (1324, 1325); (1326, 1327); (1329, 1377); (1330, 1378); (1331,
   1379); (1332, 1380); (1333, 1381); (1334, 1382); (1335, 1383); (1336,
   1384); (1337, 1385); (1338, 1386); (1339, 1387); (1340, 1388); (1341,
   1389); (1342, 1390); (1343, 1391); (1344, 1392); (1345, 1393); (1346,
   1394); (1347, 1395); (1348, 1396); (1349, 1397); (1350, 1398); (1351,
   1399); (1352, 1400); (1353, 1401); (1354, 1402); (1355, 1403); (1356,
   1404); (1357, 1405); (1358, 1406); (1359, 1407); (1360, 1408); (1361,
   1409); (1362, 1410); (1363, 1411); (1364, 1412); (1365, 1413); (1366,
   1414); (4256, 11520); (4257, 11521); (4258, 11522); (4259, 11523); (4260,
   11524); (4261, 11525); (4262, 11526); (4263, 11527); (4264, 11528);
   (4265, 11529); (4266, 11530); (4267, 11531); (4268, 11532); (4269,
   11533); (4270, 11534); (4271, 11535); (4272, 11536); (4273, 11537);
   (4274, 11538); (4275, 11539); (4276, 11540); (4277, 11541); (4278,
   11542); (4279, 11543); (4280, 11544); (4281, 11545); (4282, 11546);
   (4283, 11547); (4284, 11548); (4285, 11549); (4286, 11550); (4287,
   11551); (4288, 11552); (4289, 11553); (4290, 11554); (4291, 11555);
   (4292, 11556); (4293, 11557); (4295, 11559); (4301, 11565); (5024,
   43888); (5025, 43889); (5026, 43890); (5027, 43891); (5028, 43892);
   (5029, 43893); (5030, 43894); (5031, 43895); (5032, 43896); (5033,
   43897); (5034, 43898); (5035, 43899); (5036, 43900); (5037, 43901);
   (5038, 43902); (5039, 43903); (5040, 43904); (5041, 43905); (5042,
   43906); (5043, 43907); (5044, 43908); (5045, 43909); (5046, 43910);
   (5047, 43911); (5048, 43912); (5049, 43913); (5050, 43914); (5051,
   43915); (5052, 43916); (5053, 43917); (5054, 43918); (5055, 43919);
   (5056, 43920); (5057, 43921); (5058, 43922); (5059, 43923); (5060,
   43924); (5061, 43925); (5062, 43926); (5063, 43927); (5064, 43928);
   (5065, 43929); (5066, 43930); (5067, 43931); (5068, 43932); (5069,
   43933); (5070, 43934); (5071, 43935); (5072, 43936); (5073, 43937);
   (5074, 43938); (5075, 43939); (5076, 43940); (5077, 43941); (5078,
   43942); (5079, 43943); (5080, 43944); (5081, 43945); (5082, 43946);
   (5083, 43947); (5084, 43948); (5085, 43949); (5086, 43950); (5087,
   43951); (5088, 43952); (5089, 43953); (5090, 43954); (5091, 43955);
   (5092, 43956); (5093, 43957); (5094, 43958); (5095, 43959); (5096,
   43960); (5097, 43961); (5098, 43962); (5099, 43963); (5100, 43964);
   (5101, 43965); (5102, 43966); (5103, 43967); (5104, 5112); (5105, 5113);
   (5106, 5114); (5107, 5115); (5108, 5116); (5109, 5117); (7312, 4304);
   (7313, 4305); (7314, 4306); (7315, 4307); (7316, 4308); (7317, 4309);
   (7318, 4310); (7319, 4311); (7320, 4312); (7321, 4313); (7322, 4314);
   (7323, 4315); (7324, 4316); (7325, 4317); (7326, 4318); (7327, 4319);
   (7328, 4320); (7329, 4321); (7330, 4322); (7331, 4323); (7332, 4324);
   (7333, 4325); (7334, 4326); (7335, 4327); (7336, 4328); (7337, 4329);
   (7338, 4330); (7339, 4331); (7340, 4332); (7341, 4333); (7342, 4334);
   (7343, 4335); (7344, 4336); (7345, 4337); (7346, 4338); (7347, 4339);
   (7348, 4340); (7349, 4341); (7350, 4342); (7351, 4343); (7352, 4344);
   (7353, 4345); (7354, 4346); (7357, 4349); (7358, 4350); (7359, 4351);
   (7680, 7681); (7682, 7683); (7684, 7685); (7686, 7687); (7688, 7689);
   (7690, 7691); (7692, 7693); (7694, 7695); (7696, 7697); (7698, 7699);
   (7700, 7701); (7702, 7703); (7704, 7705); (7706, 7707); (7708, 7709);
   (7710, 7711); (7712, 7713); (7714, 7715); (7716, 7717); (7718, 7719);
   (7720, 7721); (7722, 7723); (7724, 7725); (7726, 7727); (7728, 7729);
   (7730, 7731); (7732, 7733); (7734, 7735); (7736, 7737); (7738, 7739);
   (7740, 7741); (7742, 7743); (7744, 7745); (7746, 7747); (7748, 7749);
   (7750, 7751); (7752, 7753); (7754, 7755); (7756, 7757); (7758, 7759);
   (7760, 7761); (7762, 7763); (7764, 7765); (7766, 7767); (7768, 7769);
   (7770, 7771); (7772, 7773); (7774, 7775); (7776, 7777); (7778, 7779);
   (7780, 7781); (7782, 7783); (7784, 7785); (7786, 7787); (7788, 7789);
   (7790, 7791); (7792, 7793); (7794, 7795); (7796, 7797); (7798, 7799);
   (7800, 7801); (7802, 7803); (7804, 7805); (7806, 7807); (7808, 7809);
   (7810, 7811); (7812, 7813); (7814, 7815); (7816, 7817); (7818, 7819);
   (7820, 7821); (7822, 7823); (7824, 7825); (7826, 7827); (7828, 7829);
   (7838, 223); (7840, 7841); (7842, 7843); (7844, 7845); (7846, 7847);
   (7848, 7849); (7850, 7851); (7852, 7853); (7854, 7855); (7856, 7857);
   (7858, 7859); (7860, 7861); (7862, 7863); (7864, 7865); (7866, 7867);
   (7868, 7869); (7870, 7871); (7872, 7873); (7874, 7875); (7876, 7877);
   (7878, 7879); (7880, 7881); (7882, 7883); (7884, 7885); (7886, 7887);
   (7888, 7889); (7890, 7891); (7892, 7893); (7894, 7895); (7896, 7897);
   (7898, 7899); (7900, 7901); (7902, 7903); (7904, 7905); (7906, 7907);
   (7908, 7909); (7910, 7911); (7912, 7913); (7914, 7915); (7916, 7917);
   (7918, 7919); (7920, 7921); (7922, 7923); (7924, 7925); (7926, 7927);
   (7928, 7929); (7930, 7931); (7932, 7933); (7934, 7935); (7944, 7936);
   (7945, 7937); (7946, 7938); (7947, 7939); (7948, 7940); (7949, 7941);
   (7950, 7942); (7951, 7943); (7960, 7952); (7961, 7953); (7962, 7954);
   (7963, 7955); (7964, 7956); (7965, 7957); (7976, 7968); (7977, 7969);
   (7978, 7970); (7979, 7971); (7980, 7972); (7981, 7973); (7982, 7974);
   (7983, 7975); (7992, 7984); (7993, 7985); (7994, 7986); (7995, 7987);
   (7996, 7988); (7997, 7989); (7998, 7990); (7999, 7991); (8008, 8000);
   (8009, 8001); (8010, 8002); (8011, 8003); (8012, 8004); (8013, 8005);
   (8025, 8017); (8027, 8019); (8029, 8021); (8031, 8023); (8040, 8032);
   (8041, 8033); (8042, 8034); (8043, 8035); (8044, 8036); (8045, 8037);
   (8046, 8038); (8047, 8039); (8072, 8064); (8073, 8065); (8074, 8066);
   (8075, 8067); (8076, 8068); (8077, 8069); (8078, 8070); (8079, 8071);
   (8088, 8080); (8089, 8081); (8090, 8082); (8091, 8083); (8092, 8084);
   (8093, 8085); (8094, 8086); (8095, 8087); (8104, 8096); (8105, 8097);
   (8106, 8098); (8107, 8099); (8108, 8100); (8109, 8101); (8110, 8102);
   (8111, 8103); (8120, 8112); (8121, 8113); (8122, 8048); (8123, 8049);
   (8124, 8115); (8136, 8050); (8137, 8051); (8138, 8052); (8139, 8053);
   (8140, 8131); (8152, 8144); (8153, 8145); (8154, 8054); (8155, 8055);
   (8168, 8160); (8169, 8161); (8170, 8058); (8171, 8059); (8172, 8165);
   (8184, 8056); (8185, 8057); (8186, 8060); (8187, 8061); (8188, 8179);
   (8486, 969); (8490, 107); (8491, 229); (8498, 8526); (8544, 8560); (8545,
   8561); (8546, 8562); (8547, 8563); (8548, 8564); (8549, 8565); (8550,
   8566); (8551, 8567); (8552, 8568); (8553, 8569); (8554, 8570); (8555,
   8571); (8556, 8572); (8557, 8573); (8558, 8574); (8559, 8575); (8579,
   8580); (9398, 9424); (9399, 9425); (9400, 9426); (9401, 9427); (9402,
   9428); (9403, 9429); (9404, 9430); (9405, 9431); (9406, 9432); (9407,
   9433); (9408, 9434); (9409, 9435); (9410, 9436); (9411, 9437); (9412,
   9438); (9413, 9439); (9414, 9440); (9415, 9441); (9416, 9442); (9417,
   9443); (9418, 9444); (9419, 9445); (9420, 9446); (9421, 9447); (9422,
   9448); (9423, 9449); (11264, 11312); (11265, 11313); (11266, 11314);
   (11267, 11315); (11268, 11316); (11269, 11317); (11270, 11318); (11271,
   11319); (11272, 11320); (11273, 11321); (11274, 11322); (11275, 11323);
   (11276, 11324); (11277, 11325); (11278, 11326); (11279, 11327); (11280,
   11328); (11281, 11329); (11282, 11330); (11283, 11331); (11284, 11332);
   (11285, 11333); (11286, 11334); (11287, 11335); (11288, 11336); (11289,
   11337); (11290, 11338); (11291, 11339); (11292, 11340); (11293, 11341);
   (11294, 11342); (11295, 11343); (11296, 11344); (11297, 11345); (11298,
   11346); (11299, 11347); (11300, 11348); (11301, 11349); (11302, 11350);
   (11303, 11351); (11304, 11352); (11305, 11353); (11306, 11354); (11307,
   11355); (11308, 11356); (11309, 11357); (11310, 11358); (11311, 11359);
   (11360, 11361); (11362, 619); (11363, 7549); (11364, 637); (11367,
   11368); (11369, 11370); (11371, 11372); (11373, 593); (11374, 625);
   (11375, 592); (11376, 594); (11378, 11379); (11381, 11382); (11390, 575);
   (11391, 576); (11392, 11393); (11394, 11395); (11396, 11397); (11398,
   11399); (11400, 11401); (11402, 11403); (11404, 11405); (11406, 11407);
   (11408, 11409); (11410, 11411); (11412, 11413); (11414, 11415); (11416,
   11417); (11418, 11419); (11420, 11421); (11422, 11423); (11424, 11425);
   (11426, 11427); (11428, 11429); (11430, 11431); (11432, 11433); (11434,
   11435); (11436, 11437); (11438, 11439); (11440, 11441); (11442, 11443);
   (11444, 11445); (11446, 11447); (11448, 11449); (11450, 11451); (11452,
   11453); (11454, 11455); (11456, 11457); (11458, 11459); (11460, 11461);
   (11462, 11463); (11464, 11465); (11466, 11467); (11468, 11469); (11470,
   11471); (11472, 11473); (11474, 11475); (11476, 11477); (11478, 11479);
   (11480, 11481); (11482, 11483); (11484, 11485); (11486, 11487); (11488,
   11489); (11490, 11491); (11499, 11500); (11501, 11502); (11506, 11507);
   (42560, 42561); (42562, 42563); (42564, 42565); (42566, 42567); (42568,
   42569); (42570, 42571); (42572, 42573); (42574, 42575); (42576, 42577);
   (42578, 42579); (42580, 42581); (42582, 42583); (42584, 42585); (42586,
   42587); (42588, 42589); (42590, 42591); (42592, 42593); (42594, 42595);
   (42596, 42597); (42598, 42599); (42600, 42601); (42602, 42603); (42604,
   42605); (42624, 42625); (42626, 42627); (42628, 42629); (42630, 42631);
   (42632, 42633); (42634, 42635); (42636, 42637); (42638, 42639); (42640,
   42641); (42642, 42643); (42644, 42645); (42646, 42647); (42648, 42649);
   (42650, 42651); (42786, 42787); (42788, 42789); (42790, 42791); (42792,
   42793); (42794, 42795); (42796, 42797); (42798, 42799); (42802, 42803);
   (42804, 42805); (42806, 42807); (42808, 42809); (42810, 42811); (42812,
   42813); (42814, 42815); (42816, 42817); (42818, 42819); (42820, 42821);
   (42822, 42823); (42824, 42825); (42826, 42827); (42828, 42829); (42830,
   42831); (42832, 42833); (42834, 42835); (42836, 42837); (42838, 42839);
   (42840, 42841); (42842, 42843); (42844, 42845); (42846, 42847); (42848,
   42849); (42850, 42851); (42852, 42853); (42854, 42855); (42856, 42857);
   (42858, 42859); (42860, 42861); (42862, 42863); (42873, 42874); (42875,
   42876); (42877, 7545); (42878, 42879); (42880, 42881); (42882, 42883);
   (42884, 42885); (42886, 42887); (42891, 42892); (42893, 613); (42896,
   42897); (42898, 42899); (42902, 42903); (42904, 42905); (42906, 42907);
   (42908, 42909); (42910, 42911); (42912, 42913); (42914, 42915); (42916,
   42917); (42918, 42919); (42920, 42921); (42922, 614); (42923, 604);
   (42924, 609); (42925, 620); (42926, 618); (42928, 670); (42929, 647);
   (42930, 669); (42931, 43859); (42932, 42933); (42934, 42935); (42936,
   42937); (42938, 42939); (42940, 42941); (42942, 42943); (42944, 42945);
   (42946, 42947); (42948, 42900); (42949, 642); (42950, 7566); (42951,
   42952); (42953, 42954); (42960, 42961); (42966, 42967); (42968, 42969);
   (42997, 42998); (65313, 65345); (65314, 65346); (65315, 65347); (65316,
   65348); (65317, 65349); (65318, 65350); (65319, 65351); (65320, 65352);
   (65321, 65353); (65322, 65354); (65323, 65355); (65324, 65356); (65325,
   65357); (65326, 65358); (65327, 65359); (65328, 65360); (65329, 65361);
   (65330, 65362); (65331, 65363); (65332, 65364); (65333, 65365); (65334,
   65366); (65335, 65367); (65336, 65368); (65337, 65369); (65338, 65370);
   (66560, 66600); (66561, 66601); (66562, 66602); (66563, 66603); (66564,
   66604); (66565, 66605); (66566, 66606); (66567, 66607); (66568, 66608);
   (66569, 66609); (66570, 66610); (66571, 66611); (66572, 66612); (66573,
   66613); (66574, 66614); (66575, 66615); (66576, 66616); (66577, 66617);
   (66578, 66618); (66579, 66619); (66580, 66620); (66581, 66621); (66582,
   66622); (66583, 66623); (66584, 66624); (66585, 66625); (66586, 66626);
   (66587, 66627); (66588, 66628); (66589, 66629); (66590, 66630); (66591,
   66631); (66592, 66632); (66593, 66633); (66594, 66634); (66595, 66635);
   (66596, 66636); (66597, 66637); (66598, 66638); (66599, 66639); (66736,
   66776); (66737, 66777); (66738, 66778); (66739, 66779); (66740, 66780);
   (66741, 66781); (66742, 66782); (66743, 66783); (66744, 66784); (66745,
   66785); (66746, 66786); (66747, 66787); (66748, 66788); (66749, 66789);
   (66750, 66790); (66751, 66791); (66752, 66792); (66753, 66793); (66754,
   66794); (66755, 66795); (66756, 66796); (66757, 66797); (66758, 66798);
   (66759, 66799); (66760, 66800); (66761, 66801); (66762, 66802); (66763,
   66803); (66764, 66804); (66765, 66805); (66766, 66806); (66767, 66807);
   (66768, 66808); (66769, 66809); (66770, 66810); (66771, 66811); (66928,
   66967); (66929, 66968); (66930, 66969); (66931, 66970); (66932, 66971);
   (66933, 66972); (66934, 66973); (66935, 66974); (66936, 66975); (66937,
   66976); (66938, 66977); (66940, 66979); (66941, 66980); (66942, 66981);
   (66943, 66982); (66944, 66983); (66945, 66984); (66946, 66985); (66947,
   66986); (66948, 66987); (66949, 66988); (66950, 66989); (66951, 66990);
   (66952, 66991); (66953, 66992); (66954, 66993); (66956, 66995); (66957,
   66996); (66958, 66997); (66959, 66998); (66960, 66999); (66961, 67000);
   (66962, 67001); (66964, 67003); (66965, 67004); (68736, 68800); (68737,
   68801); (68738, 68802); (68739, 68803); (68740, 68804); (68741, 68805);
   (68742, 68806); (68743, 68807); (68744, 68808); (68745, 68809); (68746,
   68810); (68747, 68811); (68748, 68812); (68749, 68813); (68750, 68814);
   (68751, 68815); (68752, 68816); (68753, 68817); (68754, 68818); (68755,
   68819); (68756, 68820); (68757, 68821); (68758, 68822); (68759, 68823);
   (68760, 68824); (68761, 68825); (68762, 68826); (68763, 68827); (68764,
   68828); (68765, 68829); (68766, 68830); (68767, 68831); (68768, 68832);
   (68769, 68833); (68770, 68834); (68771, 68835); (68772, 68836); (68773,
   68837); (68774, 68838); (68775, 68839); (68776, 68840); (68777, 68841);
   (68778, 68842); (68779, 68843); (68780, 68844); (68781, 68845); (68782,
   68846); (68783, 68847); (68784, 68848); (68785, 68849); (68786, 68850);
   (71840, 71872); (71841, 71873); (71842, 71874); (71843, 71875); (71844,
   71876); (71845, 71877); (71846, 71878); (71847, 71879); (71848, 71880);
   (71849, 71881); (71850, 71882); (71851, 71883); (71852, 71884); (71853,
   71885); (71854, 71886); (71855, 71887); (71856, 71888); (71857, 71889);
   (71858, 71890); (71859, 71891); (71860, 71892); (71861, 71893); (71862,
   71894); (71863, 71895); (71864, 71896); (71865, 71897); (71866, 71898);
   (71867, 71899); (71868, 71900); (71869, 71901); (71870, 71902); (71871,
   71903); (93760, 93792); (93761, 93793); (93762, 93794); (93763, 93795);
   (93764, 93796); (93765, 93797); (93766, 93798); (93767, 93799); (93768,
   93800); (93769, 93801); (93770, 93802); (93771, 93803); (93772, 93804);
   (93773, 93805); (93774, 93806); (93775, 93807); (93776, 93808); (93777,
   93809); (93778, 93810); (93779, 93811); (93780, 93812); (93781, 93813);
   (93782, 93814); (93783, 93815); (93784, 93816); (93785, 93817); (93786,
   93818); (93787, 93819); (93788, 93820); (93789, 93821); (93790, 93822);
   (93791, 93823); (125184, 125218); (125185, 125219); (125186, 125220);
   (125187, 125221); (125188, 125222); (125189, 125223); (125190, 125224);
   (125191, 125225); (125192, 125226); (125193, 125227); (125194, 125228);
   (125195, 125229); (125196, 125230); (125197, 125231); (125198, 125232);
   (125199, 125233); (125200, 125234); (125201, 125235); (125202, 125236);
   (125203, 125237); (125204, 125238); (125205, 125239); (125206, 125240);
   (125207, 125241); (125208, 125242); (125209, 125243); (125210, 125244);
   (125211, 125245); (125212, 125246); (125213, 125247); (125214, 125248);
   (125215, 125249); (125216, 125250); (125217, 125251)]%N.
End Unicode.

(** ** Python values and control *)

Module Py.

(** A [str] is a sequence of code points. *)
Definition str := list N.

(** The [str] a literal of ASCII characters stands for. *)
Definition u (s : string) : str := map N_of_ascii (list_ascii_of_string s).

Definition in_ranges (ranges : list (N * N)) (c : N) : bool :=
  existsb (fun r => (fst r <=? c) && (c <=? snd r))%N ranges.

(** [c.isspace()], [c.isupper()] and the two properties the lower-casing of
    a capital sigma looks at. *)
Definition isspace (c : N) : bool := in_ranges Unicode.space c.

Definition isupper (c : N) : bool := in_ranges Unicode.upper c.

Definition cased (c : N) : bool := in_ranges Unicode.cased c.

Definition case_ignorable (c : N) : bool := in_ranges Unicode.case_ignorable c.

(** The lower case form of one code point: the full mapping gives two code
    points for U+0130 and one for every other. *)
Definition lower_simple (c : N) : N :=
  match find (fun p => fst p =? c)%N Unicode.lower_pairs with
  | Some p => snd p
  | None => c
  end.

Definition lower_full (c : N) : str :=
  if (c =? 304)%N then [105; 775]%N else [lower_simple c].

(** Whether the first code point of [s] that is not case-ignorable is
    cased. *)
Fixpoint cased_next (s : str) : bool :=
  match s with
  | [] => false
  | c :: s' => if case_ignorable c then cased_next s' else cased c
  end.

(** What [s.lower()] puts for the code point [c] of [s], where
    [after_cased] tells whether the last code point before [c] that is not
    case-ignorable is cased, and [rest] is what follows [c].  A capital
    sigma (U+03A3) becomes the final sigma (U+03C2) when it follows a cased
    letter and no cased letter follows it, case-ignorable code points
    aside, and the small sigma (U+03C3) otherwise. *)
Definition lower_at (after_cased : bool) (c : N) (rest : str) : str :=
  if (c =? 931)%N
  then [if after_cased && negb (cased_next rest) then 962 else 963]%N
  else lower_full c.

Fixpoint lower_from (after_cased : bool) (s : str) : str :=
  match s with
  | [] => []
  | c :: s' =>
      lower_at after_cased c s'
      ++ lower_from (if case_ignorable c then after_cased else cased c) s'
  end.

(** [s.lower()] *)
Definition lower (s : str) : str := lower_from false s.

(** [lower()] leaves the code point [c] as it is, wherever it stands. *)
Definition unchanged (c : N) : bool :=
  (negb (c =? 931) && negb (c =? 304) && (lower_simple c =? c))%N.

Fixpoint all_unchanged (s : str) : bool :=
  match s with
  | [] => true
  | c :: s' => unchanged c && all_unchanged s'
  end.

(** [lower()] neither makes nor removes the code point [x]. *)
Definition untouched (x : N) : bool :=
  (forallb (fun p => negb (fst p =? x) && negb (snd p =? x)) Unicode.lower_pairs
   && negb (x =? 931) && negb (x =? 962) && negb (x =? 963)
   && negb (x =? 304) && negb (x =? 105) && negb (x =? 775))%N.

(** No character of [s] is an upper case letter. *)
Fixpoint no_upper (s : str) : bool :=
  match s with
  | [] => true
  | c :: s' => negb (isupper c) && no_upper s'
  end.

(** An upper case letter without lower case form: [isupper()] is true of
    it and [lower()] leaves it as it is (U+2102, for one). *)
Definition stubborn (c : N) : bool := isupper c && unchanged c.

(** [sep in s] for a one-character [sep]. *)
Fixpoint contains (sep : N) (s : str) : bool :=
  match s with
  | [] => false
  | c :: s' => (c =? sep)%N || contains sep s'
  end.

(** [s.split(sep)] for a one-character separator: every occurrence of [sep]
    ends a piece, so [n] separators give [n + 1] pieces. *)
Fixpoint split (sep : N) (s : str) : list str :=
  match s with
  | [] => [[]]
  | c :: s' =>
      if (c =? sep)%N then [] :: split sep s'
      else match split sep s' with
           | piece :: pieces => (c :: piece) :: pieces
           | [] => [[c]]
           end
  end.

(** [s.lstrip()], [s.rstrip()] and [s.strip()] without argument. *)
Fixpoint lstrip (s : str) : str :=
  match s with
  | [] => []
  | c :: s' => if isspace c then lstrip s' else s
  end.

Fixpoint rstrip (s : str) : str :=
  match s with
  | [] => []
  | c :: s' =>
      match rstrip s' with
      | [] => if isspace c then [] else [c]
      | r => c :: r
      end
  end.

Definition strip (s : str) : str := rstrip (lstrip s).

(** Every character of [s] is white space. *)
Fixpoint all_space (s : str) : bool :=
  match s with
  | [] => true
  | c :: s' => isspace c && all_space s'
  end.

(** The first and the last character of a string, when it has one. *)
Definition first_char (s : str) : option N :=
  match s with
  | [] => None
  | c :: _ => Some c
  end.

Fixpoint last_char (s : str) : option N :=
  match s with
  | [] => None
  | [c] => Some c
  | _ :: s' => last_char s'
  end.

Definition is_space_opt (o : option N) : bool :=
  match o with
  | Some c => isspace c
  | None => false
  end.

(** [s.startswith(p)] *)
Fixpoint startswith (s p : str) : bool :=
  match p, s with
  | [], _ => true
  | c :: p', d :: s' => (c =? d)%N && startswith s' p'
  | _ :: _, [] => false
  end.

(** [a == b] *)
Fixpoint str_eqb (a b : str) : bool :=
  match a, b with
  | [], [] => true
  | c :: a', d :: b' => (c =? d)%N && str_eqb a' b'
  | _, _ => false
  end.

(** *** Exceptions

    The classes the three files name or can meet, with their place in the
    hierarchy; [Subclass] stands for any class defined elsewhere (the
    service's own errors, for one). *)
Inductive exn_class : Type :=
| BaseException
| Exception
| KeyboardInterrupt
| SystemExit
| AttributeError
| IndexError
| ValueError
| KeyError
| OSError
| Error                 (* googlecloudsdk.core.exceptions.Error *)
| Subclass (name : string) (parent : exn_class).

Fixpoint exn_class_eqb (c d : exn_class) : bool :=
  match c, d with
  | BaseException, BaseException
  | Exception, Exception
  | KeyboardInterrupt, KeyboardInterrupt
  | SystemExit, SystemExit
  | AttributeError, AttributeError
  | IndexError, IndexError
  | ValueError, ValueError
  | KeyError, KeyError
  | OSError, OSError
  | Error, Error => true
  | Subclass n p, Subclass m q => String.eqb n m && exn_class_eqb p q
  | _, _ => false
  end.

(** The class and its ancestors, most specific first. *)
Fixpoint mro (c : exn_class) : list exn_class :=
  match c with
  | BaseException => [BaseException]
  | Exception => [Exception; BaseException]
  | KeyboardInterrupt => [KeyboardInterrupt; BaseException]
  | SystemExit => [SystemExit; BaseException]
  | AttributeError => [AttributeError; Exception; BaseException]
  | IndexError => [IndexError; Exception; BaseException]
  | ValueError => [ValueError; Exception; BaseException]
  | KeyError => [KeyError; Exception; BaseException]
  | OSError => [OSError; Exception; BaseException]
  | Error => [Error; Exception; BaseException]
  | Subclass _ p => c :: mro p
  end.

Definition issubclass (c d : exn_class) : bool :=
  existsb (exn_class_eqb d) (mro c).

(** A raised exception: its class and the text it carries, which is what
    [str(e)] gives when [str(e)] returns. *)
Record exn : Type := mkExn { exn_type : exn_class; exn_str : str }.

Definition isinstance (e : exn) (c : exn_class) : bool :=
  issubclass (exn_type e) c.

(** *** Computations

    A call either returns or raises. *)
Inductive outcome (A : Type) : Type :=
| Ok (a : A)
| Raise (e : exn).

Arguments Ok {A} a.
Arguments Raise {A} e.

(** A statement runs from a state to an outcome and a state. *)
Definition M (S A : Type) : Type := S -> outcome A * S.

Definition ret {S A} (a : A) : M S A := fun s => (Ok a, s).

Definition raise {S A} (e : exn) : M S A := fun s => (Raise e, s).

Definition bind {S A B} (m : M S A) (k : A -> M S B) : M S B :=
  fun s =>
    match m s with
    | (Ok a, s') => k a s'
    | (Raise e, s') => (Raise e, s')
    end.

(** The result of an external call becomes the result of the statement. *)
Definition lift {S A} (r : outcome A) : M S A := fun s => (r, s).

(** [try: body / except cls as e: handler]: only an instance of [cls] is
    handled; any other exception goes on to the caller, and so does an
    exception of the handler. *)
Definition try_except {S A} (body : M S A) (cls : exn_class)
    (handler : exn -> M S A) : M S A :=
  fun s =>
    match body s with
    | (Ok a, s') => (Ok a, s')
    | (Raise e, s') =>
        if isinstance e cls then handler e s' else (Raise e, s')
    end.

(** Code that runs when the body is left, whether it returned or raised
    (the exit of a [with] statement that lets exceptions through). *)
Definition finally {S A} (body : M S A) (cleanup : S -> S) : M S A :=
  fun s => let '(r, s') := body s in (r, cleanup s').

(** A step that only records an event. *)
Definition emit {E} (ev : E) : M (list E) unit :=
  fun s => (Ok tt, s ++ [ev]).

(** [s.count(sep)] for a one-character [sep]. *)
Fixpoint count (sep : N) (s : str) : nat :=
  match s with
  | [] => 0
  | c :: s' => (if (c =? sep)%N then 1 else 0) + count sep s'
  end.

(** [sep.join(pieces)] *)
Fixpoint join (sep : str) (pieces : list str) : str :=
  match pieces with
  | [] => []
  | [piece] => piece
  | piece :: pieces' => piece ++ sep ++ join sep pieces'
  end.

(** The code points of the characters the sources split and search on. *)
Notation "'SLASH'" := 47%N (only parsing).
Notation "'AT'" := 64%N (only parsing).
Notation "'UNDERSCORE'" := 95%N (only parsing).
Notation "'DOT'" := 46%N (only parsing).

(** A run starts with nothing recorded; it has a result and a trace. *)
Definition result {E A} (m : M (list E) A) : outcome A := fst (m []).

Definition trace {E A} (m : M (list E) A) : list E := snd (m []).

End Py.

Declare Scope py_scope.
Delimit Scope py_scope with py.
Notation "x <- m ;; k" := (Py.bind m (fun x => k))
  (at level 61, m at next level, right associativity) : py_scope.
Notation "m ;;; k" := (Py.bind m (fun _ => k))
  (at level 61, right associativity) : py_scope.

Local Open Scope py_scope.

(** ** process_audio.py *)

Module Speech.
Import Py.

(** The part of the [speech_v1] messages the helper builds or reads. *)
Inductive AudioEncoding : Type :=
| ENCODING_UNSPECIFIED
| LINEAR16
| FLAC
| MULAW.

Record RecognitionConfig : Type := {
  encoding : AudioEncoding;
  sample_rate_hertz : Z;
  language_code : str;
  enable_automatic_punctuation : bool
}.

Record RecognitionAudio : Type := { content : list byte }.

Record SpeechRecognitionAlternative : Type := { transcript : str }.

Record SpeechRecognitionResult : Type := {
  alternatives : list SpeechRecognitionAlternative
}.

Record RecognizeResponse : Type := {
  results : list SpeechRecognitionResult
}.

(** What lies outside the file: the client library, the service behind it,
    the file system, the exception objects and the standard output.  Each
    call returns or raises. *)
Record SpeechClient : Type := {
  recognize : RecognitionConfig -> RecognitionAudio -> outcome RecognizeResponse
}.

Record BinaryFile : Type := { read : outcome (list byte) }.

Record World : Type := {
  new_SpeechClient : outcome SpeechClient;   (* speech_v1.SpeechClient() *)
  open_rb : str -> outcome BinaryFile;       (* open(path, 'rb') *)
  (* the exception [str(e)] raises, for an exception whose [__str__] fails *)
  broken_str : exn -> option exn;
  print : str -> outcome unit                (* print(line), on sys.stdout *)
}.

(** What a run does to the outside, in order. *)
Inductive event : Type :=
| EvSpeechClient
| EvOpen (path : str)
| EvRead (path : str)
| EvClose (path : str)
| EvRecognize (config : RecognitionConfig) (audio : RecognitionAudio)
| EvPrint (line : str).   (* a line that [print] has written *)

Definition Stmt := M (list event).

(** [with open(audio_file_path, 'rb') as audio_file: content = audio_file.read()]:
    the file is closed when the block is left, also by an exception. *)
Definition read_whole_file (w : World) (audio_file_path : str)
  : Stmt (list byte) :=
  emit (EvOpen audio_file_path) ;;;
  audio_file <- lift (open_rb w audio_file_path) ;;
  finally
    (emit (EvRead audio_file_path) ;;;
     lift (read audio_file))
    (fun s => (s ++ [EvClose audio_file_path])%list).

(** [result.alternatives[0]] *)
Definition first_alternative (result : SpeechRecognitionResult)
  : outcome SpeechRecognitionAlternative :=
  match alternatives result with
  | alternative :: _ => Ok alternative
  | [] => Raise (mkExn IndexError (u "list index out of range"))
  end.

(** The loop
    [for result in response.results:
        transcription += result.alternatives[0].transcript + " "],
    started with the value [transcription] has so far ([""] at first, the
    empty list of code points). *)
Fixpoint extract_text (rs : list SpeechRecognitionResult) (transcription : str)
  : outcome str :=
  match rs with
  | [] => Ok transcription
  | result :: rs' =>
      match first_alternative result with
      | Ok alternative =>
          extract_text rs' (transcription ++ (transcript alternative ++ u " "))
      | Raise e => Raise e
      end
  end.

Definition recognition_config : RecognitionConfig := {|
  encoding := LINEAR16;
  sample_rate_hertz := 44100;
  language_code := u "en-US";
  enable_automatic_punctuation := true
|}.

(** The body of the [try]. *)
Definition process_audio_body (w : World) (audio_file_path : str) : Stmt str :=
  emit EvSpeechClient ;;;
  client <- lift (new_SpeechClient w) ;;
  content <- read_whole_file w audio_file_path ;;
  let audio := {| content := content |} in
  let config := recognition_config in
  emit (EvRecognize config audio) ;;;
  response <- lift (recognize client config audio) ;;
  transcription <- lift (extract_text (results response) []) ;;
  ret (strip transcription).

(** [str(e)]: the text of [e], unless the [__str__] of [e] raises. *)
Definition str_of (w : World) (e : exn) : outcome str :=
  match broken_str w e with
  | Some e' => Raise e'
  | None => Ok (exn_str e)
  end.

(** [f"Error processing audio: {text}"] *)
Definition error_line (text : str) : str :=
  u "Error processing audio: " ++ text.

(** The handler [print(f"Error processing audio: {str(e)}"); return None].
    It stands outside the [try]: what [str(e)] or [print] raise leaves
    [process_audio]. *)
Definition report (w : World) (e : exn) : Stmt (option str) :=
  text <- lift (str_of w e) ;;
  lift (print w (error_line text)) ;;;
  emit (EvPrint (error_line text)) ;;;
  ret None.

(** How the handler ends, run for [e]. *)
Definition report_outcome (w : World) (e : exn) : outcome (option str) :=
  match str_of w e with
  | Raise e' => Raise e'
  | Ok text =>
      match print w (error_line text) with
      | Raise e' => Raise e'
      | Ok _ => Ok None
      end
  end.

(** [process_audio(audio_file_path)]: the transcription, or [None] after
    the handler of [except Exception as e] has printed the error. *)
Definition process_audio (w : World) (audio_file_path : str)
  : Stmt (option str) :=
  try_except
    (transcription <- process_audio_body w audio_file_path ;;
     ret (Some transcription))
    Exception
    (report w).

(** The events of a run that are calls of [client.recognize]. *)
Definition is_recognize (ev : event) : bool :=
  match ev with
  | EvRecognize _ _ => true
  | _ => false
  end.

Definition recognize_calls (s : list event) : list event :=
  filter is_recognize s.

Definition is_read (ev : event) : bool :=
  match ev with
  | EvRead _ => true
  | _ => false
  end.


(** The steps of the body that call something outside the function. *)
Inductive step : Type :=
| ClientConstruction
| FileRead
| RecognitionCall
| ResultExtraction.

(** [raises_at w path st e]: in world [w] the run on [path] reaches step
    [st], and that step raises [e]. *)
Definition raises_at (w : World) (path : str) (st : step) (e : exn) : Prop :=
  match st with
  | ClientConstruction => new_SpeechClient w = Raise e
  | FileRead =>
      exists client, new_SpeechClient w = Ok client /\
      (open_rb w path = Raise e \/
       exists f, open_rb w path = Ok f /\ read f = Raise e)
  | RecognitionCall =>
      exists client f bytes,
        new_SpeechClient w = Ok client /\ open_rb w path = Ok f /\
        read f = Ok bytes /\
        recognize client recognition_config {| content := bytes |} = Raise e
  | ResultExtraction =>
      exists client f bytes response,
        new_SpeechClient w = Ok client /\ open_rb w path = Ok f /\
        read f = Ok bytes /\
        recognize client recognition_config {| content := bytes |} = Ok response /\
        extract_text (results response) [] = Raise e
  end.

(** The handler, run for [e], raises [e']: [str(e)] does, or [print]
    does. *)
Definition report_raises (w : World) (e e' : exn) : Prop :=
  str_of w e = Raise e' \/
  exists text, str_of w e = Ok text /\ print w (error_line text) = Raise e'.

(** The handler, run for [e], prints its line. *)
Definition report_prints (w : World) (e : exn) : Prop :=
  str_of w e = Ok (exn_str e) /\ print w (error_line (exn_str e)) = Ok tt.

(** Two worlds whose handlers behave alike. *)
Definition same_report (w1 w2 : World) : Prop :=
  (forall e, broken_str w1 e = broken_str w2 e) /\
  (forall line, print w1 line = print w2 line).

(** The run reads the file as [bytes] and the service answers [response]. *)
Definition answers (w : World) (path : str) (bytes : list byte)
    (response : RecognizeResponse) : Prop :=
  exists client f,
    new_SpeechClient w = Ok client /\ open_rb w path = Ok f /\
    read f = Ok bytes /\
    recognize client recognition_config {| content := bytes |} = Ok response.

(** The events of a run on [path] up to the answer of the service. *)
Definition sent (path : str) (bytes : list byte) : list event :=
  [EvSpeechClient; EvOpen path; EvRead path; EvClose path;
   EvRecognize recognition_config {| content := bytes |}].

(** The text the results stand for: each first transcript followed by one
    space, in the order of the response. *)
Definition joined (ts : list str) : str :=
  concat (map (fun t => t ++ u " ") ts).

(** [t] is [r.alternatives[0].transcript]. *)
Definition first_transcript (r : SpeechRecognitionResult) (t : str) : Prop :=
  exists a rest, alternatives r = a :: rest /\ transcript a = t.

(** The first transcript of every result, when every result has one. *)
Fixpoint first_transcripts (rs : list SpeechRecognitionResult)
  : option (list str) :=
  match rs with
  | [] => Some []
  | r :: rs' =>
      match alternatives r, first_transcripts rs' with
      | a :: _, Some ts => Some (transcript a :: ts)
      | _, _ => None
      end
  end.

Definition is_open (ev : event) : bool :=
  match ev with
  | EvOpen _ => true
  | _ => false
  end.

Definition is_close (ev : event) : bool :=
  match ev with
  | EvClose _ => true
  | _ => false
  end.

(** [r.alternatives[0].transcript] when [r] has an alternative. *)
Definition first_transcript_opt (r : SpeechRecognitionResult) : option str :=
  match alternatives r with
  | a :: _ => Some (transcript a)
  | [] => None
  end.

End Speech.

(** ** list_deployment_config.py *)

Module ModelGarden.
Import Py.

(** The flags of the command: [--model] and [--hugging-face-model], each
    [None] when not given. *)
Record Args : Type := {
  model : option str;
  hugging_face_model : option str
}.

(** The columns of the table the command prints and the messages that lead
    to them; a message field that is not set reads as [None]. *)
Record MachineSpec : Type := {
  machineType : option str;
  acceleratorType : option str;
  acceleratorCount : option Z
}.

Record DedicatedResources : Type := { machineSpec : option MachineSpec }.

Record Deploy : Type := { dedicatedResources : option DedicatedResources }.

Record MultiDeployVertex : Type := { mdv_multiDeployVertex : list Deploy }.

Record SupportedActions : Type := {
  sa_multiDeployVertex : option MultiDeployVertex
}.

Record PublisherModel : Type := { supportedActions : option SupportedActions }.

(** [constants.BETA_VERSION] and its sibling. *)
Inductive version : Type := GA_VERSION | BETA_VERSION.

(** [client_mg.ModelGardenClient(version)] *)
Record ModelGardenClient : Type := { client_version : version }.

(** What lies outside the file: the validation of the flags, the
    constructor of the client, the entry of the endpoint override and the
    Model Garden service behind the client.  Each call returns or raises. *)
Record World : Type := {
  ValidateModelGardenModelArgs : Args -> outcome unit;
  (* client_mg.ModelGardenClient(version) *)
  ModelGardenClient_init : version -> outcome unit;
  (* entering endpoint_util.AiplatformEndpointOverrides(version, region=...) *)
  enter_overrides : version -> str -> outcome unit;
  GetPublisherModel :
    ModelGardenClient -> str -> option bool -> outcome PublisherModel
}.

(** What a run does to the outside, in order: the validation is called, the
    override is asked for, the override is left, the service is called. *)
Inductive event : Type :=
| EvValidate (args : Args)
| EvEnterEndpointOverrides (v : version) (region : str)
| EvExitEndpointOverrides
| EvGetPublisherModel (client : ModelGardenClient) (model_name : str)
    (is_hugging_face_model : option bool).

Definition Stmt := M (list event).

(** [x.lower()] when [x] may be [None]. *)
Definition call_lower (x : option str) : outcome str :=
  match x with
  | Some s => Ok (lower s)
  | None =>
      Raise (mkExn AttributeError (u "'NoneType' object has no attribute 'lower'"))
  end.

(** [a, b = pieces] and [a, b, c = pieces], with the text CPython 3 gives
    the [ValueError]. *)
Definition unpack2 (pieces : list str) : outcome (str * str) :=
  match pieces with
  | [a; b] => Ok (a, b)
  | [] | [_] =>
      Raise (mkExn ValueError (u "not enough values to unpack (expected 2, got 1)"))
  | _ => Raise (mkExn ValueError (u "too many values to unpack (expected 2)"))
  end.

Definition unpack3 (pieces : list str) : outcome (str * str * str) :=
  match pieces with
  | [a; b; c] => Ok (a, b, c)
  | [] | [_] =>
      Raise (mkExn ValueError (u "not enough values to unpack (expected 3, got 1)"))
  | [_; _] =>
      Raise (mkExn ValueError (u "not enough values to unpack (expected 3, got 2)"))
  | _ => Raise (mkExn ValueError (u "too many values to unpack (expected 3)"))
  end.

(** [publisher_model.supportedActions.multiDeployVertex.multiDeployVertex]:
    reading an attribute of [None] raises [AttributeError]. *)
Definition attribute_of_None (name : str) : exn :=
  mkExn AttributeError
    (u "'NoneType' object has no attribute '" ++ name ++ u "'").

Definition read_multi_deploy (publisher_model : PublisherModel)
  : outcome (list Deploy) :=
  match supportedActions publisher_model with
  | None => Raise (attribute_of_None (u "multiDeployVertex"))
  | Some actions =>
      match sa_multiDeployVertex actions with
      | None => Raise (attribute_of_None (u "multiDeployVertex"))
      | Some vertex => Ok (mdv_multiDeployVertex vertex)
      end
  end.

Definition not_deployable : exn :=
  mkExn Error
    (u "Model does not support deployment, please enter a deploy-able model"
     ++ u " instead. You can use the `gcloud ai model-garden models list`"
     ++ u " command to find out which ones are currently supported by the"
     ++ u " `deploy` command.").

Definition call_GetPublisherModel (w : World) (mg_client : ModelGardenClient)
    (model_name : str) (is_hugging_face_model : option bool)
  : Stmt PublisherModel :=
  emit (EvGetPublisherModel mg_client model_name is_hugging_face_model) ;;;
  lift (GetPublisherModel w mg_client model_name is_hugging_face_model).

(** [ListDeployMentConfig._GetMultiDeploy(self, args, version)] *)
Definition _GetMultiDeploy (w : World) (args : Args) (v : version)
  : Stmt (list Deploy) :=
  lift (ModelGardenClient_init w v) ;;;
  let mg_client := {| client_version := v |} in
  publisher_model <-
    match hugging_face_model args with
    | Some hf =>
        names <- lift (unpack2 (split SLASH (lower hf))) ;;
        let '(publisher_name, model_name) := names in
        call_GetPublisherModel w mg_client
          (u "publishers/" ++ publisher_name ++ u "/models/" ++ model_name)
          (Some true)
    | None =>
        lowered <- lift (call_lower (model args)) ;;
        names <- lift (unpack3 (split SLASH lowered)) ;;
        let '(publisher_name, model_name, model_version_name) := names in
        call_GetPublisherModel w mg_client
          (u "publishers/" ++ publisher_name ++ u "/models/" ++ model_name
           ++ u "@" ++ model_version_name)
          None
    end ;;
  try_except
    (lift (read_multi_deploy publisher_model))
    AttributeError
    (fun _ => raise not_deployable).

(** [with endpoint_util.AiplatformEndpointOverrides(version, region=...)]:
    when the entry raises, the block does not run and the override is not
    left; otherwise the override holds for the block and is left with it,
    which returns, and an exception of the block goes through. *)
Definition with_endpoint_overrides {A} (w : World) (v : version)
    (region : str) (block : Stmt A) : Stmt A :=
  emit (EvEnterEndpointOverrides v region) ;;;
  lift (enter_overrides w v region) ;;;
  finally block (fun s => s ++ [EvExitEndpointOverrides]).

(** [ListDeployMentConfig.Run(self, args)] *)
Definition Run (w : World) (args : Args) : Stmt (list Deploy) :=
  emit (EvValidate args) ;;;
  lift (ValidateModelGardenModelArgs w args) ;;;
  let v := BETA_VERSION in
  with_endpoint_overrides w v (u "us-central1") (_GetMultiDeploy w args v).

Definition is_GetPublisherModel (ev : event) : bool :=
  match ev with
  | EvGetPublisherModel _ _ _ => true
  | _ => false
  end.

(** The calls of [GetPublisherModel] among the events of a run. *)
Definition api_calls (s : list event) : list event :=
  filter is_GetPublisherModel s.

(** [s] has the form P/M, resp. P/M/V: pieces without a slash. *)
Definition form2 (s p m : str) : Prop :=
  s = p ++ u "/" ++ m /\ contains SLASH p = false /\ contains SLASH m = false.

Definition form3 (s p m v : str) : Prop :=
  s = p ++ u "/" ++ m ++ u "/" ++ v /\
  contains SLASH p = false /\ contains SLASH m = false /\
  contains SLASH v = false.

(** Arguments that passed the validation and have the form the help of the
    flags gives: one of the two flags, a Hugging Face model as P/M and a
    Model Garden model as P/M/V. *)
Definition validated (w : World) (args : Args) : Prop :=
  ValidateModelGardenModelArgs w args = Ok tt /\
  match hugging_face_model args, model args with
  | Some hf, _ => exists p m, form2 hf p m
  | None, Some md => exists p m v, form3 md p m v
  | None, None => False
  end.

(** The name and the flag the arguments are marshalled to, when they split
    into as many pieces as the code unpacks. *)
Definition request_of (args : Args) : option (str * option bool) :=
  match hugging_face_model args with
  | Some hf =>
      match split SLASH (lower hf) with
      | [p; m] => Some (u "publishers/" ++ p ++ u "/models/" ++ m, Some true)
      | _ => None
      end
  | None =>
      match model args with
      | Some md =>
          match split SLASH (lower md) with
          | [p; m; v] =>
              Some (u "publishers/" ++ p ++ u "/models/" ++ m ++ u "@" ++ v,
                    None)
          | _ => None
          end
      | None => None
      end
  end.

(** The name of the call, for a trace that consists of one call. *)
Definition call_name (evs : list event) : str :=
  match evs with
  | [EvGetPublisherModel _ name _] => name
  | _ => []
  end.

(** The client can be built and the endpoint override entered. *)
Definition reachable (w : World) (v : version) : Prop :=
  ModelGardenClient_init w v = Ok tt /\
  enter_overrides w v (u "us-central1") = Ok tt.

End ModelGarden.

(** ** seclm_v1_client.py *)

Module Seclm.
Import Py.

(** [base_api.ApiMethodInfo]: how one remote method is reached. *)
Record ApiMethodInfo : Type := {
  flat_path : str;
  http_method : str;
  method_id : str;
  ordered_params : list str;
  path_params : list str;
  query_params : list str;
  relative_path : str;
  request_field : str;
  request_type_name : str;
  response_type_name : str;
  supports_download : bool
}.

(** What a service class inherits from [base_api.BaseApiService], whose
    source is apitools': the lookup of a method's configuration and the
    function that performs a configured call.  [St] is the state the client
    library keeps, [Rq], [Gp] and [Rs] the request, global parameter and
    response messages. *)
Record BaseApiService (St Rq Gp Rs : Type) : Type := {
  GetMethodConfig : str -> M St ApiMethodInfo;
  _RunMethod : ApiMethodInfo -> Rq -> option Gp -> M St Rs
}.

Arguments GetMethodConfig {St Rq Gp Rs} _ _ _.
Arguments _RunMethod {St Rq Gp Rs} _ _ _ _ _.

(** The class attributes of [SeclmV1]. *)
Definition BASE_URL : str := u "https://seclm.googleapis.com/".
Definition MTLS_BASE_URL : str := u "https://seclm.mtls.googleapis.com/".
Definition _PACKAGE : str := u "seclm".
Definition _SCOPES : list str :=
  [u "https://www.googleapis.com/auth/cloud-platform"].
Definition _VERSION : str := u "v1".
Definition _CLIENT_ID : str := u "CLIENT_ID".
Definition _CLIENT_SECRET : str := u "CLIENT_SECRET".
Definition _USER_AGENT : str := u "google-cloud-sdk".
Definition _CLIENT_CLASS_NAME : str := u "SeclmV1".
Definition _URL_VERSION : str := u "v1".
Definition _API_KEY : option str := None.

(** The type of a method of a service class: [self], the request and the
    global parameters ([None] by default). *)
Definition method (St Rq Gp Rs : Type) : Type :=
  BaseApiService St Rq Gp Rs -> Rq -> option Gp -> M St Rs.

Module ProjectsLocationsOperationsService.

Definition _NAME : str := u "projects_locations_operations".

Definition Cancel {St Rq Gp Rs} : method St Rq Gp Rs :=
  fun self request global_params =>
    config <- GetMethodConfig self (u "Cancel") ;;
    _RunMethod self config request global_params.

Definition Cancel_method_config : ApiMethodInfo := {|
  flat_path := u "v1/projects/{projectsId}/locations/{locationsId}/operations/{operationsId}:cancel";
  http_method := u "POST";
  method_id := u "seclm.projects.locations.operations.cancel";
  ordered_params := [u "name"];
  path_params := [u "name"];
  query_params := [];
  relative_path := u "v1/{+name}:cancel";
  request_field := u "cancelOperationRequest";
  request_type_name := u "SeclmProjectsLocationsOperationsCancelRequest";
  response_type_name := u "Empty";
  supports_download := false
|}.

Definition Delete {St Rq Gp Rs} : method St Rq Gp Rs :=
  fun self request global_params =>
    config <- GetMethodConfig self (u "Delete") ;;
    _RunMethod self config request global_params.

Definition Delete_method_config : ApiMethodInfo := {|
  flat_path := u "v1/projects/{projectsId}/locations/{locationsId}/operations/{operationsId}";
  http_method := u "DELETE";
  method_id := u "seclm.projects.locations.operations.delete";
  ordered_params := [u "name"];
  path_params := [u "name"];
  query_params := [];
  relative_path := u "v1/{+name}";
  request_field := u "";
  request_type_name := u "SeclmProjectsLocationsOperationsDeleteRequest";
  response_type_name := u "Empty";
  supports_download := false
|}.

Definition Get {St Rq Gp Rs} : method St Rq Gp Rs :=
  fun self request global_params =>
    config <- GetMethodConfig self (u "Get") ;;
    _RunMethod self config request global_params.

Definition Get_method_config : ApiMethodInfo := {|
  flat_path := u "v1/projects/{projectsId}/locations/{locationsId}/operations/{operationsId}";
  http_method := u "GET";
  method_id := u "seclm.projects.locations.operations.get";
  ordered_params := [u "name"];
  path_params := [u "name"];
  query_params := [];
  relative_path := u "v1/{+name}";
  request_field := u "";
  request_type_name := u "SeclmProjectsLocationsOperationsGetRequest";
  response_type_name := u "Operation";
  supports_download := false
|}.

Definition List {St Rq Gp Rs} : method St Rq Gp Rs :=
  fun self request global_params =>
    config <- GetMethodConfig self (u "List") ;;
    _RunMethod self config request global_params.

Definition List_method_config : ApiMethodInfo := {|
  flat_path := u "v1/projects/{projectsId}/locations/{locationsId}/operations";
  http_method := u "GET";
  method_id := u "seclm.projects.locations.operations.list";
  ordered_params := [u "name"];
  path_params := [u "name"];
  query_params := [u "filter"; u "pageSize"; u "pageToken"];
  relative_path := u "v1/{+name}/operations";
  request_field := u "";
  request_type_name := u "SeclmProjectsLocationsOperationsListRequest";
  response_type_name := u "ListOperationsResponse";
  supports_download := false
|}.

End ProjectsLocationsOperationsService.

Module ProjectsLocationsWorkbenchesService.

Definition _NAME : str := u "projects_locations_workbenches".

Definition Create {St Rq Gp Rs} : method St Rq Gp Rs :=
  fun self request global_params =>
    config <- GetMethodConfig self (u "Create") ;;
    _RunMethod self config request global_params.

Definition Create_method_config : ApiMethodInfo := {|
  flat_path := u "v1/projects/{projectsId}/locations/{locationsId}/workbenches";
  http_method := u "POST";
  method_id := u "seclm.projects.locations.workbenches.create";
  ordered_params := [u "parent"];
  path_params := [u "parent"];
  query_params := [u "requestId"; u "workbenchId"];
  relative_path := u "v1/{+parent}/workbenches";
  request_field := u "workbench";
  request_type_name := u "SeclmProjectsLocationsWorkbenchesCreateRequest";
  response_type_name := u "Operation";
  supports_download := false
|}.

Definition Delete {St Rq Gp Rs} : method St Rq Gp Rs :=
  fun self request global_params =>
    config <- GetMethodConfig self (u "Delete") ;;
    _RunMethod self config request global_params.

Definition Delete_method_config : ApiMethodInfo := {|
  flat_path := u "v1/projects/{projectsId}/locations/{locationsId}/workbenches/{workbenchesId}";
  http_method := u "DELETE";
  method_id := u "seclm.projects.locations.workbenches.delete";
  ordered_params := [u "name"];
  path_params := [u "name"];
  query_params := [u "requestId"];
  relative_path := u "v1/{+name}";
  request_field := u "";
  request_type_name := u "SeclmProjectsLocationsWorkbenchesDeleteRequest";
  response_type_name := u "Operation";
  supports_download := false
|}.

Definition Get {St Rq Gp Rs} : method St Rq Gp Rs :=
  fun self request global_params =>
    config <- GetMethodConfig self (u "Get") ;;
    _RunMethod self config request global_params.

Definition Get_method_config : ApiMethodInfo := {|
  flat_path := u "v1/projects/{projectsId}/locations/{locationsId}/workbenches/{workbenchesId}";
  http_method := u "GET";
  method_id := u "seclm.projects.locations.workbenches.get";
  ordered_params := [u "name"];
  path_params := [u "name"];
  query_params := [];
  relative_path := u "v1/{+name}";
  request_field := u "";
  request_type_name := u "SeclmProjectsLocationsWorkbenchesGetRequest";
  response_type_name := u "Workbench";
  supports_download := false
|}.

Definition List {St Rq Gp Rs} : method St Rq Gp Rs :=
  fun self request global_params =>
    config <- GetMethodConfig self (u "List") ;;
    _RunMethod self config request global_params.

Definition List_method_config : ApiMethodInfo := {|
  flat_path := u "v1/projects/{projectsId}/locations/{locationsId}/workbenches";
  http_method := u "GET";
  method_id := u "seclm.projects.locations.workbenches.list";
  ordered_params := [u "parent"];
  path_params := [u "parent"];
  query_params := [u "filter"; u "orderBy"; u "pageSize"; u "pageToken"];
  relative_path := u "v1/{+parent}/workbenches";
  request_field := u "";
  request_type_name := u "SeclmProjectsLocationsWorkbenchesListRequest";
  response_type_name := u "ListWorkbenchesResponse";
  supports_download := false
|}.

Definition Patch {St Rq Gp Rs} : method St Rq Gp Rs :=
  fun self request global_params =>
    config <- GetMethodConfig self (u "Patch") ;;
    _RunMethod self config request global_params.

Definition Patch_method_config : ApiMethodInfo := {|
  flat_path := u "v1/projects/{projectsId}/locations/{locationsId}/workbenches/{workbenchesId}";
  http_method := u "PATCH";
  method_id := u "seclm.projects.locations.workbenches.patch";
  ordered_params := [u "name"];
  path_params := [u "name"];
  query_params := [u "requestId"; u "updateMask"];
  relative_path := u "v1/{+name}";
  request_field := u "workbench";
  request_type_name := u "SeclmProjectsLocationsWorkbenchesPatchRequest";
  response_type_name := u "Operation";
  supports_download := false
|}.

Definition Query {St Rq Gp Rs} : method St Rq Gp Rs :=
  fun self request global_params =>
    config <- GetMethodConfig self (u "Query") ;;
    _RunMethod self config request global_params.

Definition Query_method_config : ApiMethodInfo := {|
  flat_path := u "v1/projects/{projectsId}/locations/{locationsId}/workbenches/{workbenchesId}:query";
  http_method := u "POST";
  method_id := u "seclm.projects.locations.workbenches.query";
  ordered_params := [u "name"];
  path_params := [u "name"];
  query_params := [];
  relative_path := u "v1/{+name}:query";
  request_field := u "workbenchQueryRequest";
  request_type_name := u "SeclmProjectsLocationsWorkbenchesQueryRequest";
  response_type_name := u "WorkbenchQueryResponse";
  supports_download := false
|}.

End ProjectsLocationsWorkbenchesService.

Module ProjectsLocationsService.

Definition _NAME : str := u "projects_locations".

Definition Get {St Rq Gp Rs} : method St Rq Gp Rs :=
  fun self request global_params =>
    config <- GetMethodConfig self (u "Get") ;;
    _RunMethod self config request global_params.

Definition Get_method_config : ApiMethodInfo := {|
  flat_path := u "v1/projects/{projectsId}/locations/{locationsId}";
  http_method := u "GET";
  method_id := u "seclm.projects.locations.get";
  ordered_params := [u "name"];
  path_params := [u "name"];
  query_params := [];
  relative_path := u "v1/{+name}";
  request_field := u "";
  request_type_name := u "SeclmProjectsLocationsGetRequest";
  response_type_name := u "Location";
  supports_download := false
|}.

Definition List {St Rq Gp Rs} : method St Rq Gp Rs :=
  fun self request global_params =>
    config <- GetMethodConfig self (u "List") ;;
    _RunMethod self config request global_params.

Definition List_method_config : ApiMethodInfo := {|
  flat_path := u "v1/projects/{projectsId}/locations";
  http_method := u "GET";
  method_id := u "seclm.projects.locations.list";
  ordered_params := [u "name"];
  path_params := [u "name"];
  query_params := [u "filter"; u "pageSize"; u "pageToken"];
  relative_path := u "v1/{+name}/locations";
  request_field := u "";
  request_type_name := u "SeclmProjectsLocationsListRequest";
  response_type_name := u "ListLocationsResponse";
  supports_download := false
|}.

End ProjectsLocationsService.

Module ProjectsService.

Definition _NAME : str := u "projects".

End ProjectsService.

(** The service classes of [SeclmV1], as its [__init__] instantiates them. *)
Inductive service : Type :=
| projects_locations_operations
| projects_locations_workbenches
| projects_locations
| projects.

Definition service_name (s : service) : str :=
  match s with
  | projects_locations_operations => ProjectsLocationsOperationsService._NAME
  | projects_locations_workbenches => ProjectsLocationsWorkbenchesService._NAME
  | projects_locations => ProjectsLocationsService._NAME
  | projects => ProjectsService._NAME
  end.

(** The remote methods each class defines, in the order of the file. *)
Definition method_names (s : service) : list str :=
  match s with
  | projects_locations_operations => [u "Cancel"; u "Delete"; u "Get"; u "List"]
  | projects_locations_workbenches =>
      [u "Create"; u "Delete"; u "Get"; u "List"; u "Patch"; u "Query"]
  | projects_locations => [u "Get"; u "List"]
  | projects => []
  end.

(** [getattr(service, name)]: the method of that name, when the class has
    one. *)
Definition getattr {St Rq Gp Rs} (s : service) (name : str)
  : option (method St Rq Gp Rs) :=
  match s with
  | projects_locations_operations =>
      if str_eqb name (u "Cancel") then Some ProjectsLocationsOperationsService.Cancel
      else if str_eqb name (u "Delete") then Some ProjectsLocationsOperationsService.Delete
      else if str_eqb name (u "Get") then Some ProjectsLocationsOperationsService.Get
      else if str_eqb name (u "List") then Some ProjectsLocationsOperationsService.List
      else None
  | projects_locations_workbenches =>
      if str_eqb name (u "Create") then Some ProjectsLocationsWorkbenchesService.Create
      else if str_eqb name (u "Delete") then Some ProjectsLocationsWorkbenchesService.Delete
      else if str_eqb name (u "Get") then Some ProjectsLocationsWorkbenchesService.Get
      else if str_eqb name (u "List") then Some ProjectsLocationsWorkbenchesService.List
      else if str_eqb name (u "Patch") then Some ProjectsLocationsWorkbenchesService.Patch
      else if str_eqb name (u "Query") then Some ProjectsLocationsWorkbenchesService.Query
      else None
  | projects_locations =>
      if str_eqb name (u "Get") then Some ProjectsLocationsService.Get
      else if str_eqb name (u "List") then Some ProjectsLocationsService.List
      else None
  | projects => None
  end.

(** [getattr(service, name).method_config()] *)
Definition method_config (s : service) (name : str) : option ApiMethodInfo :=
  match s with
  | projects_locations_operations =>
      if str_eqb name (u "Cancel")
      then Some ProjectsLocationsOperationsService.Cancel_method_config
      else if str_eqb name (u "Delete")
      then Some ProjectsLocationsOperationsService.Delete_method_config
      else if str_eqb name (u "Get")
      then Some ProjectsLocationsOperationsService.Get_method_config
      else if str_eqb name (u "List")
      then Some ProjectsLocationsOperationsService.List_method_config
      else None
  | projects_locations_workbenches =>
      if str_eqb name (u "Create")
      then Some ProjectsLocationsWorkbenchesService.Create_method_config
      else if str_eqb name (u "Delete")
      then Some ProjectsLocationsWorkbenchesService.Delete_method_config
      else if str_eqb name (u "Get")
      then Some ProjectsLocationsWorkbenchesService.Get_method_config
      else if str_eqb name (u "List")
      then Some ProjectsLocationsWorkbenchesService.List_method_config
      else if str_eqb name (u "Patch")
      then Some ProjectsLocationsWorkbenchesService.Patch_method_config
      else if str_eqb name (u "Query")
      then Some ProjectsLocationsWorkbenchesService.Query_method_config
      else None
  | projects_locations =>
      if str_eqb name (u "Get")
      then Some ProjectsLocationsService.Get_method_config
      else if str_eqb name (u "List")
      then Some ProjectsLocationsService.List_method_config
      else None
  | projects => None
  end.

(** [self] is an instance of the class of [s]: its inherited
    [GetMethodConfig] gives, for the name of a method of the class, the
    configuration attached to that method. *)
Definition instance_of {St Rq Gp Rs} (self : BaseApiService St Rq Gp Rs)
    (s : service) : Prop :=
  forall name config, method_config s name = Some config ->
    forall st, fst (GetMethodConfig self name st) = Ok config.

(** [GetMethodConfig] leaves the state of the client library as it is. *)
Definition pure_lookup {St Rq Gp Rs} (self : BaseApiService St Rq Gp Rs)
  : Prop :=
  forall name st, snd (GetMethodConfig self name st) = st.

(** The services of the client, in the order [__init__] creates them. *)
Definition services : list service :=
  [projects_locations_operations; projects_locations_workbenches;
   projects_locations; projects].

(** The name of a service with its underscores turned into dots, as the
    method ids spell the resource. *)
Fixpoint dotted (s : str) : str :=
  match s with
  | [] => []
  | c :: s' => (if (c =? UNDERSCORE)%N then DOT else c) :: dotted s'
  end.

(** Every method of the client with its service and its configuration. *)
Definition method_table : list (service * str * ApiMethodInfo) :=
  flat_map
    (fun s =>
       flat_map
         (fun name =>
            match method_config s name with
            | Some config => [(s, name, config)]
            | None => []
            end)
         (method_names s))
    services.

End Seclm.

(** ** Concrete runs *)

Module Scenario.
Import Py.

(** *** The audio helper *)

Definition riff : list byte := [x52; x49; x46; x46; x24; x00].

Definition two_results : Speech.RecognizeResponse := {|
  Speech.results := [
    {| Speech.alternatives := [ {| Speech.transcript := u "Hello world." |};
                                {| Speech.transcript := u "Hollow word." |} ] |};
    {| Speech.alternatives := [ {| Speech.transcript := u " How are you? " |} ] |}
  ]
|}.

Definition answering_client (r : outcome Speech.RecognizeResponse)
  : Speech.SpeechClient :=
  {| Speech.recognize := fun _ _ => r |}.

(** The file is there, the service answers [r], and what is printed is
    written. *)
Definition world_of (r : outcome Speech.RecognizeResponse) : Speech.World := {|
  Speech.new_SpeechClient := Ok (answering_client r);
  Speech.open_rb := fun _ => Ok {| Speech.read := Ok riff |};
  Speech.broken_str := fun _ => None;
  Speech.print := fun _ => Ok tt
|}.

Definition heard_world : Speech.World := world_of (Ok two_results).



(** The service refuses the request. *)
Definition refused : exn :=
  mkExn (Subclass "InvalidArgument" (Subclass "GoogleAPICallError" Exception))
        (u "400 sample_rate_hertz does not match the WAV header").

Definition refusing_world : Speech.World := world_of (Raise refused).

(** The same bytes and the same answer, where the file is opened through
    another file system and the client is another object. *)
Definition other_heard_world : Speech.World := {|
  Speech.new_SpeechClient :=
    Ok {| Speech.recognize := fun config _ =>
            match Speech.encoding config with
            | Speech.LINEAR16 => Ok two_results
            | _ => Raise refused
            end |};
  Speech.open_rb := fun path =>
    if str_eqb path (u "speech.wav") then Ok {| Speech.read := Ok riff |}
    else Raise (mkExn (Subclass "FileNotFoundError" OSError)
                      (u "[Errno 2] No such file or directory"));
  Speech.broken_str := fun _ => None;
  Speech.print := fun _ => Ok tt
|}.

(** *** The command *)

Definition gemma : ModelGarden.Args := {|
  ModelGarden.model := Some (u "google/gemma2/gemma2-9b");
  ModelGarden.hugging_face_model := None
|}.

Definition llama : ModelGarden.Args := {|
  ModelGarden.model := None;
  ModelGarden.hugging_face_model := Some (u "meta-llama/Meta-Llama-3-8B")
|}.

Definition g2_standard_12 : ModelGarden.Deploy := {|
  ModelGarden.dedicatedResources := Some {|
    ModelGarden.machineSpec := Some {|
      ModelGarden.machineType := Some (u "g2-standard-12");
      ModelGarden.acceleratorType := Some (u "NVIDIA_L4");
      ModelGarden.acceleratorCount := Some 1%Z |} |}
|}.

Definition deployable : ModelGarden.PublisherModel := {|
  ModelGarden.supportedActions := Some {|
    ModelGarden.sa_multiDeployVertex := Some {|
      ModelGarden.mdv_multiDeployVertex := [g2_standard_12] |} |}
|}.

Definition not_deployable_model : ModelGarden.PublisherModel := {|
  ModelGarden.supportedActions := Some {|
    ModelGarden.sa_multiDeployVertex := None |}
|}.

Definition not_found : exn :=
  mkExn (Subclass "HttpNotFoundError" (Subclass "HttpError" Exception))
        (u "Publisher Model not found").

Definition bad_flag : exn :=
  mkExn (Subclass "InvalidArgumentException" Error)
        (u "Invalid value for [--model]").

(** A validation that accepts every flag, a client that can be built, and
    a catalogue that knows one Model Garden model as deployable and the
    Hugging Face models as not. *)
Definition catalogue : ModelGarden.World := {|
  ModelGarden.ValidateModelGardenModelArgs := fun _ => Ok tt;
  ModelGarden.ModelGardenClient_init := fun _ => Ok tt;
  ModelGarden.enter_overrides := fun _ _ => Ok tt;
  ModelGarden.GetPublisherModel := fun _ name flag =>
    match flag with
    | Some true => Ok not_deployable_model
    | _ =>
        if str_eqb name (u "publishers/google/models/gemma2@gemma2-9b")
        then Ok deployable
        else Raise not_found
    end
|}.

(** A validation that refuses every flag. *)
Definition strict_catalogue : ModelGarden.World := {|
  ModelGarden.ValidateModelGardenModelArgs := fun _ => Raise bad_flag;
  ModelGarden.ModelGardenClient_init := fun _ => Ok tt;
  ModelGarden.enter_overrides := fun _ _ => Ok tt;
  ModelGarden.GetPublisherModel := ModelGarden.GetPublisherModel catalogue
|}.

(** *** The client *)

(** A service object whose lookup is the table of its class and whose
    [_RunMethod] records the method it was asked to run. *)
Definition recording (s : Seclm.service)
  : Seclm.BaseApiService (list str) str unit str := {|
  Seclm.GetMethodConfig := fun name st =>
    match Seclm.method_config s name with
    | Some config => (Ok config, st)
    | None => (Raise (mkExn KeyError name), st)
    end;
  Seclm._RunMethod := fun config request _ st =>
    (Ok (Seclm.response_type_name config),
     st ++ [Seclm.method_id config ++ u " " ++ request])
|}.

(** The Hugging Face flag of [llama] in another case, beside a [--model]
    that the command does not look at. *)
Definition shouted_llama : ModelGarden.Args := {|
  ModelGarden.model := Some (u "not/looked/at");
  ModelGarden.hugging_face_model := Some (u "META-LLAMA/meta-llama-3-8b")
|}.

Definition nameless_llama : ModelGarden.Args := {|
  ModelGarden.model := None;
  ModelGarden.hugging_face_model := Some (u "Meta-Llama-3-8B")
|}.

Definition no_flag : ModelGarden.Args := {|
  ModelGarden.model := None;
  ModelGarden.hugging_face_model := None
|}.

(** A file that opens and then fails to read. *)
Definition torn : exn := mkExn OSError (u "[Errno 5] Input/output error").

Definition torn_world : Speech.World := {|
  Speech.new_SpeechClient := Ok (answering_client (Ok two_results));
  Speech.open_rb := fun _ => Ok {| Speech.read := Raise torn |};
  Speech.broken_str := fun _ => None;
  Speech.print := fun _ => Ok tt
|}.

(** The answer of [two_results] with other second choices. *)
Definition two_results_alone : Speech.RecognizeResponse := {|
  Speech.results := [
    {| Speech.alternatives := [ {| Speech.transcript := u "Hello world." |} ] |};
    {| Speech.alternatives := [ {| Speech.transcript := u " How are you? " |};
                                {| Speech.transcript := u "Who are you?" |} ] |}
  ]
|}.

(** An answer whose second result has no alternative. *)
Definition half_heard : Speech.RecognizeResponse := {|
  Speech.results := [
    {| Speech.alternatives := [ {| Speech.transcript := u "Hello world." |} ] |};
    {| Speech.alternatives := [] |}
  ]
|}.

(** An answer of silence. *)
Definition silence : Speech.RecognizeResponse := {|
  Speech.results := [
    {| Speech.alternatives := [ {| Speech.transcript := [] |} ] |};
    {| Speech.alternatives := [ {| Speech.transcript := u "  " |} ] |}
  ]
|}.

(** A service object whose lookup fails. *)
Definition unconfigured : Seclm.BaseApiService (list str) str unit str := {|
  Seclm.GetMethodConfig := fun name st =>
    (Raise (mkExn KeyError name), st ++ [u "lookup " ++ name]);
  Seclm._RunMethod := fun config request _ st =>
    (Ok (Seclm.response_type_name config), st ++ [u "run"])
|}.

(** The standard output is closed: the service refuses the request and
    the line of the handler cannot be written. *)
Definition closed_stdout : exn :=
  mkExn ValueError (u "I/O operation on closed file.").


(** The answer of [half_heard], where what the handler prints is lost. *)
Definition half_heard_closed_world : Speech.World := {|
  Speech.new_SpeechClient := Ok (answering_client (Ok half_heard));
  Speech.open_rb := fun _ => Ok {| Speech.read := Ok riff |};
  Speech.broken_str := fun _ => None;
  Speech.print := fun _ => Raise closed_stdout
|}.

(** The client cannot be built (no credentials, for one). *)
Definition no_credentials : exn :=
  mkExn (Subclass "NoCredentialsForAccountException" Error)
        (u "You do not currently have an active account selected.").

Definition offline_catalogue : ModelGarden.World := {|
  ModelGarden.ValidateModelGardenModelArgs := fun _ => Ok tt;
  ModelGarden.ModelGardenClient_init := fun _ => Raise no_credentials;
  ModelGarden.enter_overrides := fun _ _ => Ok tt;
  ModelGarden.GetPublisherModel := ModelGarden.GetPublisherModel catalogue
|}.

(** The endpoint override cannot be entered. *)
Definition no_region : exn :=
  mkExn (Subclass "InvalidArgumentException" Error)
        (u "Invalid value for [--region]").

Definition unreachable_catalogue : ModelGarden.World := {|
  ModelGarden.ValidateModelGardenModelArgs := fun _ => Ok tt;
  ModelGarden.ModelGardenClient_init := fun _ => Ok tt;
  ModelGarden.enter_overrides := fun _ _ => Raise no_region;
  ModelGarden.GetPublisherModel := ModelGarden.GetPublisherModel catalogue
|}.

(** A Hugging Face flag whose publisher holds U+2102, DOUBLE-STRUCK CAPITAL
    C: an upper case letter ([isupper()] is true of it) that has no lower
    case form ([lower()] leaves it as it is). *)
Definition double_struck_C : N := 8450.

Definition complex_llama : ModelGarden.Args := {|
  ModelGarden.model := None;
  ModelGarden.hugging_face_model :=
    Some (double_struck_C :: u "-Labs/Llama")
|}.

End Scenario.

(** * Properties *)

Import Py.

(** ** Characters and strings *)

Section Strings.

Lemma N_eqb_false_r (a b : N) : a <> b -> (a =? b)%N = false.
Proof. intros H; now apply N.eqb_neq. Qed.

Lemma lower_simple_cases (c : N) :
  lower_simple c = c \/
  (lower_simple c <> c /\ In (c, lower_simple c) Unicode.lower_pairs).
Proof.
  destruct (N.eq_dec (lower_simple c) c) as [E|E]; [now left|right].
  split; [exact E|].
  unfold lower_simple in *.
  destruct (find _ Unicode.lower_pairs) as [[a b]|] eqn:F; [|congruence].
  apply find_some in F as [Hin Ha]; simpl in *.
  apply N.eqb_eq in Ha; now subst.
Qed.

Lemma untouched_slash : untouched SLASH = true.
Proof. vm_compute; reflexivity. Qed.

Lemma untouched_at : untouched AT = true.
Proof. vm_compute; reflexivity. Qed.

Lemma lower_images_unchanged :
  forallb (fun p => unchanged (snd p)) Unicode.lower_pairs = true.
Proof. vm_compute; reflexivity. Qed.

Lemma lower_images_not_upper :
  forallb (fun p => negb (isupper (snd p))) Unicode.lower_pairs = true.
Proof. vm_compute; reflexivity. Qed.

(** What [untouched] says, fact by fact. *)
Lemma untouched_inv (x : N) :
  untouched x = true ->
  (forall c, (lower_simple c =? x)%N = (c =? x)%N) /\
  (x =? 931)%N = false /\ (x =? 962)%N = false /\ (x =? 963)%N = false /\
  (x =? 304)%N = false /\ (x =? 105)%N = false /\ (x =? 775)%N = false.
Proof.
  unfold untouched; intros H.
  do 6 (apply andb_prop in H as [H ?]).
  repeat match goal with
         | E : negb _ = true |- _ => apply negb_true_iff in E
         end.
  split; [|now repeat split].
  intros c; destruct (lower_simple_cases c) as [->|[_ Hin]]; [reflexivity|].
  rewrite forallb_forall in H; specialize (H _ Hin); simpl in H.
  apply andb_prop in H as [Hc Hd].
  apply negb_true_iff in Hc, Hd; now rewrite Hc, Hd.
Qed.

Lemma contains_app (sep : N) (a b : str) :
  contains sep (a ++ b) = contains sep a || contains sep b.
Proof.
  induction a as [|c a IH]; simpl; [reflexivity|].
  now rewrite IH, orb_assoc.
Qed.

Lemma lower_at_contains (x : N) (b : bool) (c : N) (rest : str) :
  untouched x = true ->
  contains x (lower_at b c rest) = (c =? x)%N.
Proof.
  intros Hx; destruct (untouched_inv x Hx) as (Hs & H1 & H2 & H3 & H4 & H5 & H6).
  rewrite (N.eqb_sym x) in H1, H2, H3, H4, H5, H6.
  unfold lower_at, lower_full.
  destruct (N.eqb_spec c 931) as [->|_].
  - destruct (b && negb (cased_next rest)); cbn [contains];
      now rewrite ?H2, ?H3, H1.
  - destruct (N.eqb_spec c 304) as [->|_]; cbn [contains].
    + now rewrite H5, H6, H4.
    + now rewrite Hs, orb_false_r.
Qed.

Lemma lower_at_count (x : N) (b : bool) (c : N) (rest : str) :
  untouched x = true ->
  count x (lower_at b c rest) = if (c =? x)%N then 1 else 0.
Proof.
  intros Hx; destruct (untouched_inv x Hx) as (Hs & H1 & H2 & H3 & H4 & H5 & H6).
  rewrite (N.eqb_sym x) in H1, H2, H3, H4, H5, H6.
  unfold lower_at, lower_full.
  destruct (N.eqb_spec c 931) as [->|_].
  - destruct (b && negb (cased_next rest)); cbn [count];
      now rewrite ?H2, ?H3, H1.
  - destruct (N.eqb_spec c 304) as [->|_]; cbn [count].
    + now rewrite H5, H6, H4.
    + rewrite Hs; now destruct (c =? x)%N.
Qed.

Lemma count_app (sep : N) (a b : str) :
  count sep (a ++ b) = count sep a + count sep b.
Proof.
  induction a as [|c a IH]; simpl; [reflexivity|].
  rewrite IH; lia.
Qed.

Lemma contains_lower_from (x : N) (s : str) :
  untouched x = true ->
  forall b, contains x (lower_from b s) = contains x s.
Proof.
  intros Hx; induction s as [|c s IH]; intros b; simpl; [reflexivity|].
  now rewrite contains_app, (lower_at_contains x _ _ _ Hx), IH.
Qed.

Lemma count_lower_from (x : N) (s : str) :
  untouched x = true ->
  forall b, count x (lower_from b s) = count x s.
Proof.
  intros Hx; induction s as [|c s IH]; intros b; simpl; [reflexivity|].
  now rewrite count_app, (lower_at_count x _ _ _ Hx), IH.
Qed.

Lemma contains_lower_slash (s : str) :
  contains SLASH (lower s) = contains SLASH s.
Proof. apply contains_lower_from, untouched_slash. Qed.

Lemma contains_lower_at (s : str) : contains AT (lower s) = contains AT s.
Proof. apply contains_lower_from, untouched_at. Qed.

Lemma count_lower_slash (s : str) : count SLASH (lower s) = count SLASH s.
Proof. apply count_lower_from, untouched_slash. Qed.

(** A slash ends the context a capital sigma looks at: it is neither cased
    nor case-ignorable. *)
Lemma cased_next_slash (p m : str) :
  cased_next (p ++ SLASH :: m) = cased_next p.
Proof.
  induction p as [|c p IH]; simpl; [reflexivity|].
  now rewrite IH.
Qed.

Lemma lower_from_slash (p m : str) :
  forall b, lower_from b (p ++ SLASH :: m) =
            lower_from b p ++ SLASH :: lower m.
Proof.
  induction p as [|c p IH]; intros b; simpl.
  - reflexivity.
  - rewrite IH, <- app_assoc.
    unfold lower_at; now rewrite cased_next_slash.
Qed.

(** Lower-casing goes piece by piece through the slashes of a flag. *)
Lemma lower_form2 (p m : str) :
  lower (p ++ u "/" ++ m) = lower p ++ u "/" ++ lower m.
Proof. apply lower_from_slash. Qed.

Lemma lower_form3 (p m v : str) :
  lower (p ++ u "/" ++ m ++ u "/" ++ v) =
  lower p ++ u "/" ++ lower m ++ u "/" ++ lower v.
Proof.
  change (p ++ u "/" ++ m ++ u "/" ++ v) with (p ++ SLASH :: (m ++ SLASH :: v)).
  unfold lower at 1; rewrite lower_from_slash.
  change (lower (m ++ SLASH :: v)) with (lower_from false (m ++ SLASH :: v)).
  now rewrite lower_from_slash.
Qed.

Lemma all_unchanged_app (a b : str) :
  all_unchanged (a ++ b) = all_unchanged a && all_unchanged b.
Proof.
  induction a as [|c a IH]; simpl; [reflexivity|].
  now rewrite IH, andb_assoc.
Qed.

Lemma lower_at_unchanged (b : bool) (c : N) (rest : str) :
  all_unchanged (lower_at b c rest) = true.
Proof.
  unfold lower_at, lower_full.
  destruct (N.eqb_spec c 931) as [->|H1].
  - now destruct (b && negb (cased_next rest)).
  - destruct (N.eqb_spec c 304) as [->|H2]; [reflexivity|]; simpl.
    rewrite andb_true_r.
    destruct (lower_simple_cases c) as [E|[_ Hin]].
    + unfold unchanged; rewrite E.
      now rewrite E, N.eqb_refl, (N_eqb_false_r _ _ H1), (N_eqb_false_r _ _ H2).
    + pose proof lower_images_unchanged as H.
      rewrite forallb_forall in H; exact (H _ Hin).
Qed.

Lemma all_unchanged_lower_from (s : str) :
  forall b, all_unchanged (lower_from b s) = true.
Proof.
  induction s as [|c s IH]; intros b; simpl; [reflexivity|].
  now rewrite all_unchanged_app, lower_at_unchanged, IH.
Qed.

(** A string whose code points [lower()] leaves alone is its own lower case
    form. *)
Lemma lower_from_fixed (s : str) :
  all_unchanged s = true -> forall b, lower_from b s = s.
Proof.
  induction s as [|c s IH]; simpl; [reflexivity|].
  intros H b; apply andb_prop in H as [Hc Hs].
  rewrite (IH Hs); unfold unchanged in Hc.
  apply andb_prop in Hc as [Hc H3]; apply andb_prop in Hc as [H1 H2].
  apply negb_true_iff in H1, H2; apply N.eqb_eq in H3.
  unfold lower_at, lower_full; now rewrite H1, H2, H3.
Qed.

Lemma lower_fixed (s : str) : all_unchanged s = true -> lower s = s.
Proof. intros H; now apply lower_from_fixed. Qed.

Lemma no_upper_app (a b : str) :
  no_upper (a ++ b) = no_upper a && no_upper b.
Proof.
  induction a as [|c a IH]; simpl; [reflexivity|].
  now rewrite IH, andb_assoc.
Qed.

Lemma lower_at_no_upper (b : bool) (c : N) (rest : str) :
  no_upper (lower_at b c rest) = negb (stubborn c).
Proof.
  unfold lower_at, lower_full, stubborn, unchanged.
  destruct (N.eqb_spec c 931) as [->|H1].
  - now destruct (b && negb (cased_next rest)).
  - destruct (N.eqb_spec c 304) as [->|H2]; [reflexivity|]; simpl.
    rewrite andb_true_r.
    destruct (lower_simple_cases c) as [E|[E Hin]].
    + now rewrite E, N.eqb_refl, andb_true_r.
    + rewrite (N_eqb_false_r _ _ E), andb_false_r.
      pose proof lower_images_not_upper as H.
      rewrite forallb_forall in H; exact (H _ Hin).
Qed.

(** The lower case form of a string has an upper case letter exactly when
    the string holds one that has no lower case form. *)
Lemma no_upper_lower_from (s : str) :
  forall b, no_upper (lower_from b s) = negb (existsb stubborn s).
Proof.
  induction s as [|c s IH]; intros b; simpl; [reflexivity|].
  now rewrite no_upper_app, lower_at_no_upper, IH, negb_orb.
Qed.

Lemma existsb_stubborn_app (a b : str) :
  existsb stubborn (a ++ b) = existsb stubborn a || existsb stubborn b.
Proof. apply existsb_app. Qed.

Lemma split_without (sep : N) (s : str) :
  contains sep s = false -> split sep s = [s].
Proof.
  induction s as [|c s IH]; simpl; [reflexivity|].
  intros H; apply orb_false_elim in H as [Hc Hs].
  now rewrite Hc, (IH Hs).
Qed.

Lemma split_at_first (sep : N) (p rest : str) :
  contains sep p = false ->
  split sep (p ++ sep :: rest) = p :: split sep rest.
Proof.
  induction p as [|c p IH]; simpl.
  - intros _; now rewrite N.eqb_refl.
  - intros H; apply orb_false_elim in H as [Hc Hp].
    now rewrite Hc, (IH Hp).
Qed.

Lemma split_form2 (p m : str) :
  contains SLASH p = false -> contains SLASH m = false ->
  split SLASH (lower (p ++ u "/" ++ m)) = [lower p; lower m].
Proof.
  intros Hp Hm.
  rewrite lower_form2.
  change (u "/" ++ lower m) with (SLASH :: lower m).
  rewrite split_at_first by now rewrite contains_lower_slash.
  now rewrite split_without by now rewrite contains_lower_slash.
Qed.

Lemma split_form3 (p m v : str) :
  contains SLASH p = false -> contains SLASH m = false ->
  contains SLASH v = false ->
  split SLASH (lower (p ++ u "/" ++ m ++ u "/" ++ v)) =
  [lower p; lower m; lower v].
Proof.
  intros Hp Hm Hv.
  rewrite lower_form3.
  change (u "/" ++ lower m ++ u "/" ++ lower v)
    with (SLASH :: lower m ++ SLASH :: lower v).
  rewrite !split_at_first by now rewrite contains_lower_slash.
  now rewrite split_without by now rewrite contains_lower_slash.
Qed.

Lemma str_eqb_spec (a b : str) : reflect (a = b) (str_eqb a b).
Proof.
  revert b; induction a as [|c a IH]; intros [|d b]; simpl;
    try (constructor; congruence).
  destruct (N.eqb_spec c d) as [->|H]; simpl.
  - destruct (IH b) as [->|H]; constructor; congruence.
  - constructor; congruence.
Qed.

End Strings.

Section Strip.

Lemma lstrip_prefix (s : str) :
  exists l, s = l ++ lstrip s /\ all_space l = true.
Proof.
  induction s as [|c s [l [Hs Hl]]]; simpl.
  - now exists [].
  - destruct (isspace c) eqn:Hc.
    + exists (c :: l); simpl; rewrite Hc, Hl; split; [|reflexivity].
      now rewrite <- Hs.
    + now exists [].
Qed.

Lemma rstrip_suffix (s : str) :
  exists r, s = rstrip s ++ r /\ all_space r = true.
Proof.
  induction s as [|c s [r [Hs Hr]]]; simpl.
  - now exists [].
  - destruct (rstrip s) as [|d t] eqn:E.
    + simpl in Hs; subst r.
      destruct (isspace c) eqn:Hc.
      * exists (c :: s); simpl; now rewrite Hc, Hr.
      * now exists s.
    + exists r; split; [|exact Hr].
      simpl; now rewrite Hs at 1.
Qed.

Lemma lstrip_first (s : str) : is_space_opt (first_char (lstrip s)) = false.
Proof.
  induction s as [|c s IH]; simpl; [reflexivity|].
  destruct (isspace c) eqn:Hc; [exact IH | simpl; exact Hc].
Qed.

Lemma rstrip_last (s : str) : is_space_opt (last_char (rstrip s)) = false.
Proof.
  induction s as [|c s IH]; simpl; [reflexivity|].
  destruct (rstrip s) as [|d t] eqn:E.
  - destruct (isspace c) eqn:Hc; simpl; [reflexivity | exact Hc].
  - exact IH.
Qed.

Lemma rstrip_first (s : str) :
  is_space_opt (first_char s) = false ->
  is_space_opt (first_char (rstrip s)) = false.
Proof.
  destruct s as [|c s]; simpl; [reflexivity|].
  intros Hc; destruct (rstrip s); [rewrite Hc|]; simpl; exact Hc.
Qed.

(** [strip] removes a run of white space at each end and nothing else, and
    what is left neither starts nor ends with white space. *)
Lemma strip_spec (s : str) :
  exists l r,
    s = l ++ strip s ++ r /\ all_space l = true /\ all_space r = true /\
    is_space_opt (first_char (strip s)) = false /\
    is_space_opt (last_char (strip s)) = false.
Proof.
  destruct (lstrip_prefix s) as [l [Hl Hls]].
  destruct (rstrip_suffix (lstrip s)) as [r [Hr Hrs]].
  exists l, r; unfold strip; repeat split; trivial.
  - now rewrite <- Hr.
  - apply rstrip_first, lstrip_first.
  - apply rstrip_last.
Qed.

End Strip.

(** ** The audio helper *)

Section SpeechFacts.
Import Speech.

Variable w : World.
Variable path : str.

Lemma joined_cons (t : str) (ts : list str) :
  joined (t :: ts) = t ++ u " " ++ joined ts.
Proof.
  unfold joined; simpl; now rewrite <- app_assoc.
Qed.

Lemma extract_text_joined (rs : list SpeechRecognitionResult) :
  forall (acc : str) (ts : list str),
    first_transcripts rs = Some ts ->
    extract_text rs acc = Ok (acc ++ joined ts).
Proof.
  induction rs as [|r rs IH]; simpl; intros acc ts H.
  - injection H as <-. now rewrite app_nil_r.
  - unfold first_alternative.
    destruct (alternatives r) as [|a alts]; [discriminate|].
    destruct (first_transcripts rs) as [ts'|]; [|discriminate].
    injection H as <-.
    rewrite (IH _ ts' eq_refl), joined_cons.
    now rewrite <- !app_assoc.
Qed.

Lemma extract_text_raises (rs : list SpeechRecognitionResult) :
  forall acc : str,
    first_transcripts rs = None ->
    extract_text rs acc =
    Raise (mkExn IndexError (u "list index out of range")).
Proof.
  induction rs as [|r rs IH]; simpl; intros acc H; [discriminate|].
  unfold first_alternative.
  destruct (alternatives r) as [|a alts]; [reflexivity|].
  destruct (first_transcripts rs) as [ts'|]; [discriminate|].
  now apply IH.
Qed.

(** The handler: it prints its line and returns [None], or raises what
    [str(e)] or [print] raise, and then nothing is printed. *)
Lemma report_unfold (e : exn) (s : list event) :
  report w e s =
  match str_of w e with
  | Raise e' => (Raise e', s)
  | Ok text =>
      match print w (error_line text) with
      | Raise e' => (Raise e', s)
      | Ok _ => (Ok None, s ++ [EvPrint (error_line text)])
      end
  end.
Proof.
  unfold report, bind, lift, emit, ret.
  destruct (str_of w e) as [text|e']; [|reflexivity].
  destruct (print w (error_line text)) as [[]|e']; reflexivity.
Qed.

Lemma report_result (e : exn) (s : list event) :
  fst (report w e s) = report_outcome w e.
Proof.
  rewrite report_unfold; unfold report_outcome.
  destruct (str_of w e) as [text|e']; [|reflexivity].
  destruct (print w (error_line text)) as [[]|e']; reflexivity.
Qed.

Lemma report_filter (e : exn) (s : list event) (keep : event -> bool) :
  (forall line, keep (EvPrint line) = false) ->
  filter keep (snd (report w e s)) = filter keep s.
Proof.
  intros Hk; rewrite report_unfold.
  destruct (str_of w e) as [text|e']; [|reflexivity].
  destruct (print w (error_line text)) as [[]|e']; [|reflexivity].
  simpl; rewrite filter_app; simpl; rewrite Hk.
  apply app_nil_r.
Qed.

(** The [try] statement around the body. *)
Lemma process_audio_unfold (s : list event) :
  process_audio w path s =
  match process_audio_body w path s with
  | (Ok t, s') => (Ok (Some t), s')
  | (Raise e, s') =>
      if isinstance e Exception then report w e s' else (Raise e, s')
  end.
Proof.
  unfold process_audio, try_except, bind, ret.
  destruct (process_audio_body w path s) as [[t|e] s']; reflexivity.
Qed.

Lemma body_answers (bytes : list byte) (response : RecognizeResponse) :
  answers w path bytes response ->
  process_audio_body w path [] =
  (match extract_text (results response) [] with
   | Ok t => Ok (strip t)
   | Raise e => Raise e
   end, sent path bytes).
Proof.
  intros (client & f & Hc & Ho & Hr & Ha).
  unfold process_audio_body, read_whole_file, finally, bind, lift, emit, ret.
  simpl; rewrite Hc, Ho, Hr; simpl; rewrite Ha.
  destruct (extract_text (results response) []); reflexivity.
Qed.



(** Whatever the outside does, the body calls the service at most once and
    reads the file at most once. *)
Lemma body_calls_once :
  (length (recognize_calls (snd (process_audio_body w path []))) <= 1)%nat /\
  (length (filter is_read (snd (process_audio_body w path []))) <= 1)%nat.
Proof.
  unfold process_audio_body, read_whole_file, finally, bind, lift, emit, ret.
  simpl.
  destruct (new_SpeechClient w) as [client|e0]; simpl; [|lia].
  destruct (open_rb w path) as [f|e0]; simpl; [|lia].
  destruct (read f) as [bytes|e0]; simpl; [|lia].
  destruct (recognize client _ _) as [response|e0]; simpl; [|lia].
  destruct (extract_text _ _) as [t|e0]; simpl; lia.
Qed.


End SpeechFacts.

Section SpeechClaims.
Import Speech.

Lemma first_transcripts_Forall2 (rs : list SpeechRecognitionResult)
    (ts : list str) :
  Forall2 first_transcript rs ts -> first_transcripts rs = Some ts.
Proof.
  induction 1 as [|r t rs ts (a & rest & Ha & Ht) _ IH]; simpl.
  - reflexivity.
  - now rewrite Ha, IH, Ht.
Qed.

Lemma trace_process_audio_filter (w : World) (path : str)
    (keep : event -> bool) :
  (forall line, keep (EvPrint line) = false) ->
  filter keep (trace (process_audio w path)) =
  filter keep (snd (process_audio_body w path [])).
Proof.
  intros Hk; unfold trace; rewrite process_audio_unfold.
  destruct (process_audio_body w path []) as [[t|e] s']; simpl; trivial.
  destruct (isinstance e Exception); simpl; trivial.
  now apply report_filter.
Qed.

(** C1.  [process_audio] passes the file through to the recognition service:
    in every run [client.recognize] is called at most once and the file is
    read at most once, and when the client is there and the file is read,
    the one call has the fixed configuration and an audio whose content is
    exactly the bytes read; this holds whether the call returns or raises,
    so that a failed call is not repeated. *)
Theorem process_audio_pass_through (w : World) (path : str) :
  (length (recognize_calls (trace (process_audio w path))) <= 1)%nat /\
  (length (filter is_read (trace (process_audio w path))) <= 1)%nat /\
  forall client f bytes,
    new_SpeechClient w = Ok client ->
    open_rb w path = Ok f ->
    read f = Ok bytes ->
    recognize_calls (trace (process_audio w path)) =
      [EvRecognize recognition_config {| content := bytes |}] /\
    filter is_read (trace (process_audio w path)) = [EvRead path].
Proof.
  unfold recognize_calls.
  rewrite !trace_process_audio_filter by reflexivity.
  destruct (body_calls_once w path) as [Hrec Hread].
  split; [exact Hrec | split; [exact Hread|]].
  intros client f bytes Hc Ho Hr.
  unfold process_audio_body, read_whole_file, finally, bind, lift, emit, ret.
  simpl; rewrite Hc, Ho, Hr; simpl.
  destruct (recognize client _ _) as [response|e]; simpl; [|now split].
  destruct (extract_text _ _); now split.
Qed.

Lemma process_audio_pass_through_witness :
  recognize_calls (trace (process_audio Scenario.heard_world (u "speech.wav"))) =
    [EvRecognize recognition_config {| content := Scenario.riff |}] /\
  filter is_read (trace (process_audio Scenario.heard_world (u "speech.wav"))) =
    [EvRead (u "speech.wav")].
Proof.
  exact (proj2 (proj2 (process_audio_pass_through Scenario.heard_world
                         (u "speech.wav")))
           _ _ Scenario.riff eq_refl eq_refl eq_refl).
Defined.




(** What [process_audio] returns once the service has answered. *)
Lemma process_audio_answered (w : World) (path : str) (bytes : list byte)
    (response : RecognizeResponse) :
  answers w path bytes response ->
  result (process_audio w path) =
  match extract_text (results response) [] with
  | Ok t => Ok (Some (strip t))
  | Raise e => if isinstance e Exception then report_outcome w e else Raise e
  end.
Proof.
  intros Ha; unfold result.
  rewrite process_audio_unfold, (body_answers w path bytes response Ha).
  destruct (extract_text (results response) []) as [t|e]; [reflexivity|].
  destruct (isinstance e Exception); [apply report_result | reflexivity].
Qed.

Lemma same_report_outcome (w1 w2 : World) (e : exn) :
  same_report w1 w2 -> report_outcome w1 e = report_outcome w2 e.
Proof.
  intros [Hstr Hprint]; unfold report_outcome, str_of.
  rewrite (Hstr e); destruct (broken_str w2 e); [reflexivity|].
  now rewrite Hprint.
Qed.

(** C7.  When the service answers with results r_1..r_n whose first
    alternatives have the transcripts t_1..t_n, [process_audio] returns the
    string made of each t_i followed by one space, in the order of the
    response, without the white space at its two ends: what is returned
    differs from that concatenation by a run of white space on the left and
    one on the right, and neither starts nor ends with white space.  With no
    results it returns the empty string, not [None]. *)
Theorem process_audio_transcription (w : World) (path : str)
    (bytes : list byte) (response : RecognizeResponse) (ts : list str) :
  answers w path bytes response ->
  Forall2 first_transcript (results response) ts ->
  result (process_audio w path) = Ok (Some (strip (joined ts))) /\
  (exists l r,
     joined ts = l ++ strip (joined ts) ++ r /\
     all_space l = true /\ all_space r = true /\
     is_space_opt (first_char (strip (joined ts))) = false /\
     is_space_opt (last_char (strip (joined ts))) = false) /\
  (results response = [] -> result (process_audio w path) = Ok (Some [])).
Proof.
  intros Ha Hts.
  assert (Hres : result (process_audio w path) = Ok (Some (strip (joined ts)))).
  { rewrite (process_audio_answered w path bytes response Ha).
    now rewrite (extract_text_joined _ [] ts (first_transcripts_Forall2 _ _ Hts)). }
  split; [exact Hres | split; [apply strip_spec|]].
  intros Hnil; rewrite Hnil in Hts.
  inversion Hts; subst; exact Hres.
Qed.

Lemma process_audio_transcription_witness :
  result (process_audio Scenario.heard_world (u "speech.wav")) =
  Ok (Some (u "Hello world.  How are you?")).
Proof.
  refine (proj1 (process_audio_transcription Scenario.heard_world
                   (u "speech.wav") Scenario.riff Scenario.two_results
                   [u "Hello world."; u " How are you? "] _ _)).
  - exists (Scenario.answering_client (Ok Scenario.two_results)).
    exists {| read := Ok Scenario.riff |}.
    repeat split.
  - repeat constructor; unfold first_transcript; simpl; eauto.
Defined.

(** C8.  Two runs of [process_audio] in which the file has the same bytes
    and the service gives the same response return the same transcription:
    one returns a string exactly when the other returns that string,
    whatever else differs between the two (the client object, the rest of
    the file system, the path, the standard output).  When the handlers of
    the two runs behave alike as well, the two runs end alike altogether. *)
Theorem process_audio_deterministic (w1 w2 : World) (path1 path2 : str)
    (bytes : list byte) (response : RecognizeResponse) :
  answers w1 path1 bytes response ->
  answers w2 path2 bytes response ->
  (forall t,
     result (process_audio w1 path1) = Ok (Some t) <->
     result (process_audio w2 path2) = Ok (Some t)) /\
  (same_report w1 w2 ->
   result (process_audio w1 path1) = result (process_audio w2 path2)).
Proof.
  intros H1 H2.
  rewrite (process_audio_answered w1 path1 bytes response H1).
  rewrite (process_audio_answered w2 path2 bytes response H2).
  destruct (extract_text (results response) []) as [text|e].
  - split; [reflexivity | reflexivity].
  - destruct (isinstance e Exception); [|split; reflexivity].
    split.
    + intros t; unfold report_outcome.
      destruct (str_of w1 e) as [x1|], (str_of w2 e) as [x2|];
        try destruct (print w1 _) as [[]|]; try destruct (print w2 _) as [[]|];
        split; discriminate.
    + intros Hsame; now apply same_report_outcome.
Qed.

Lemma process_audio_deterministic_witness :
  (result (process_audio Scenario.heard_world (u "recording.wav")) =
     Ok (Some (u "Hello world.  How are you?")) <->
   result (process_audio Scenario.other_heard_world (u "speech.wav")) =
     Ok (Some (u "Hello world.  How are you?"))) /\
  result (process_audio Scenario.heard_world (u "recording.wav")) =
  result (process_audio Scenario.other_heard_world (u "speech.wav")).
Proof.
  destruct (process_audio_deterministic Scenario.heard_world
              Scenario.other_heard_world (u "recording.wav") (u "speech.wav")
              Scenario.riff Scenario.two_results) as [Hstr Hall].
  - exists (Scenario.answering_client (Ok Scenario.two_results)).
    exists {| read := Ok Scenario.riff |}.
    repeat split.
  - eexists; eexists; repeat split.
  - split; [apply Hstr | apply Hall; now split].
Defined.

End SpeechClaims.

(** ** The command *)

Section ModelGardenFacts.
Import ModelGarden.

Variable w : World.
Variable args : Args.

Lemma read_multi_deploy_raises (pm : PublisherModel) (e : exn) :
  read_multi_deploy pm = Raise e -> isinstance e AttributeError = true.
Proof.
  unfold read_multi_deploy.
  destruct (supportedActions pm) as [actions|]; [|now intros [= <-]].
  destruct (sa_multiDeployVertex actions); [discriminate | now intros [= <-]].
Qed.

Lemma read_multi_deploy_returns (pm : PublisherModel) (value : list Deploy) :
  read_multi_deploy pm = Ok value <->
  exists actions vertex,
    supportedActions pm = Some actions /\
    sa_multiDeployVertex actions = Some vertex /\
    value = mdv_multiDeployVertex vertex.
Proof.
  unfold read_multi_deploy; split.
  - destruct (supportedActions pm) as [actions|]; [|discriminate].
    destruct (sa_multiDeployVertex actions) as [vertex|] eqn:Hv; [|discriminate].
    intros [= <-]; now exists actions, vertex.
  - intros (actions & vertex & Ha & Hv & ->); now rewrite Ha, Hv.
Qed.

(** Without a client nothing else happens. *)
Lemma GetMultiDeploy_no_client (v : version) (e : exn) (s : list event) :
  ModelGardenClient_init w v = Raise e ->
  _GetMultiDeploy w args v s = (Raise e, s).
Proof.
  intros H; unfold _GetMultiDeploy, bind, lift; now rewrite H.
Qed.

(** What the command makes of the answer to its call. *)
Lemma GetMultiDeploy_request (v : version) (s : list event)
    (name : str) (flag : option bool) :
  ModelGardenClient_init w v = Ok tt ->
  request_of args = Some (name, flag) ->
  _GetMultiDeploy w args v s =
  (match GetPublisherModel w {| client_version := v |} name flag with
   | Ok pm =>
       match read_multi_deploy pm with
       | Ok value => Ok value
       | Raise _ => Raise not_deployable
       end
   | Raise e => Raise e
   end,
   s ++ [EvGetPublisherModel {| client_version := v |} name flag]).
Proof.
  intros Hinit.
  unfold request_of, _GetMultiDeploy, call_GetPublisherModel, try_except,
    bind, lift, emit, raise.
  rewrite Hinit.
  destruct (hugging_face_model args) as [hf|].
  - destruct (split SLASH (lower hf)) as [|a [|b [|c l]]]; try discriminate.
    intros [= <- <-]; simpl.
    destruct (GetPublisherModel w _ _ _) as [pm|e]; [|reflexivity].
    destruct (read_multi_deploy pm) as [value|e] eqn:E; [reflexivity|].
    now rewrite (read_multi_deploy_raises _ _ E).
  - destruct (model args) as [md|]; [|discriminate]; simpl.
    destruct (split SLASH (lower md)) as [|a [|b [|c [|d l]]]];
      try discriminate.
    intros [= <- <-]; simpl.
    destruct (GetPublisherModel w _ _ _) as [pm|e]; [|reflexivity].
    destruct (read_multi_deploy pm) as [value|e] eqn:E; [reflexivity|].
    now rewrite (read_multi_deploy_raises _ _ E).
Qed.

(** Arguments that do not split as expected end the command before any
    call, with the exception of the failing statement. *)
Lemma GetMultiDeploy_no_request (v : version) :
  ModelGardenClient_init w v = Ok tt ->
  request_of args = None ->
  exists e,
    (forall s, _GetMultiDeploy w args v s = (Raise e, s)) /\
    (exn_type e = ValueError \/ exn_type e = AttributeError).
Proof.
  intros Hinit.
  unfold request_of, _GetMultiDeploy, call_GetPublisherModel, try_except,
    bind, lift, emit, raise.
  rewrite Hinit.
  destruct (hugging_face_model args) as [hf|].
  - destruct (split SLASH (lower hf)) as [|a [|b [|c l]]]; try discriminate;
      intros _; simpl; eauto.
  - destruct (model args) as [md|]; simpl; [|eauto].
    destruct (split SLASH (lower md)) as [|a [|b [|c [|d l]]]];
      try discriminate; intros _; simpl; eauto.
Qed.

Lemma Run_unfold :
  Run w args [] =
  match ValidateModelGardenModelArgs w args with
  | Ok _ =>
      match enter_overrides w BETA_VERSION (u "us-central1") with
      | Ok _ =>
          let '(r, s') :=
            _GetMultiDeploy w args BETA_VERSION
              [EvValidate args;
               EvEnterEndpointOverrides BETA_VERSION (u "us-central1")]
          in (r, s' ++ [EvExitEndpointOverrides])
      | Raise e =>
          (Raise e,
           [EvValidate args;
            EvEnterEndpointOverrides BETA_VERSION (u "us-central1")])
      end
  | Raise e => (Raise e, [EvValidate args])
  end.
Proof.
  unfold Run, with_endpoint_overrides, finally, bind, lift, emit.
  cbn [app].
  destruct (ValidateModelGardenModelArgs w args) as [x|e]; [|reflexivity].
  destruct (enter_overrides w BETA_VERSION (u "us-central1")) as [y|e];
    reflexivity.
Qed.

Lemma GetMultiDeploy_frame (v : version) (s : list event) :
  _GetMultiDeploy w args v s =
  (result (_GetMultiDeploy w args v), s ++ trace (_GetMultiDeploy w args v)).
Proof.
  unfold result, trace.
  destruct (ModelGardenClient_init w v) as [[]|e] eqn:Hinit.
  - destruct (request_of args) as [[name flag]|] eqn:R.
    + now rewrite !(GetMultiDeploy_request v _ name flag Hinit R).
    + destruct (GetMultiDeploy_no_request v Hinit R) as (e & He & _).
      rewrite !He; simpl; now rewrite app_nil_r.
  - rewrite !(GetMultiDeploy_no_client v e _ Hinit); simpl.
    now rewrite app_nil_r.
Qed.

Lemma Run_validated_run :
  ValidateModelGardenModelArgs w args = Ok tt ->
  enter_overrides w BETA_VERSION (u "us-central1") = Ok tt ->
  result (Run w args) = result (_GetMultiDeploy w args BETA_VERSION) /\
  api_calls (trace (Run w args)) =
  api_calls (trace (_GetMultiDeploy w args BETA_VERSION)).
Proof.
  intros Hv He; unfold result at 1, trace at 1.
  rewrite Run_unfold, Hv, He, GetMultiDeploy_frame; simpl.
  split; [reflexivity|].
  unfold api_calls; rewrite filter_app; simpl.
  now rewrite app_nil_r.
Qed.

Lemma request_of_form2 (hf p m : str) :
  hugging_face_model args = Some hf -> form2 hf p m ->
  request_of args =
  Some (u "publishers/" ++ lower p ++ u "/models/" ++ lower m, Some true).
Proof.
  intros Hhf (-> & Hp & Hm); unfold request_of.
  now rewrite Hhf, (split_form2 _ _ Hp Hm).
Qed.

Lemma request_of_form3 (md p m v : str) :
  hugging_face_model args = None -> model args = Some md -> form3 md p m v ->
  request_of args =
  Some (u "publishers/" ++ lower p ++ u "/models/" ++ lower m
        ++ u "@" ++ lower v, None).
Proof.
  intros Hhf Hmd (-> & Hp & Hm & Hv); unfold request_of.
  now rewrite Hhf, Hmd, (split_form3 _ _ _ Hp Hm Hv).
Qed.

Lemma validated_request :
  validated w args -> exists name flag, request_of args = Some (name, flag).
Proof.
  intros [_ Hform].
  destruct (hugging_face_model args) as [hf|] eqn:Hhf.
  - destruct Hform as (p & m & Hf).
    rewrite (request_of_form2 hf p m Hhf Hf); eauto.
  - destruct (model args) as [md|] eqn:Hmd; [|contradiction].
    destruct Hform as (p & m & v & Hf).
    rewrite (request_of_form3 md p m v Hhf Hmd Hf); eauto.
Qed.

Lemma trace_GetMultiDeploy_request (v : version)
    (name : str) (flag : option bool) :
  ModelGardenClient_init w v = Ok tt ->
  request_of args = Some (name, flag) ->
  trace (_GetMultiDeploy w args v) =
  [EvGetPublisherModel {| client_version := v |} name flag].
Proof.
  intros Hinit R; unfold trace.
  now rewrite (GetMultiDeploy_request v [] name flag Hinit R).
Qed.

(** When the client cannot be built or the override cannot be entered,
    [Run] ends with that exception and has made no call. *)
Lemma Run_unreachable (e : exn) :
  ValidateModelGardenModelArgs w args = Ok tt ->
  enter_overrides w BETA_VERSION (u "us-central1") = Raise e \/
  (enter_overrides w BETA_VERSION (u "us-central1") = Ok tt /\
   ModelGardenClient_init w BETA_VERSION = Raise e) ->
  result (Run w args) = Raise e /\ api_calls (trace (Run w args)) = [].
Proof.
  intros Hval [Henter | [Henter Hinit]]; unfold result, trace;
    rewrite Run_unfold, Hval, Henter; [now split|].
  now rewrite (GetMultiDeploy_no_client _ _ _ Hinit).
Qed.

End ModelGardenFacts.

Section ModelGardenClaims.
Import ModelGarden.

Lemma no_upper_name2 (p m : str) :
  no_upper (u "publishers/" ++ lower p ++ u "/models/" ++ lower m) =
  negb (existsb stubborn (p ++ u "/" ++ m)).
Proof.
  unfold lower.
  rewrite !no_upper_app, !no_upper_lower_from, !existsb_app.
  change (no_upper (u "publishers/")) with true.
  change (no_upper (u "/models/")) with true.
  change (existsb stubborn (u "/")) with false.
  now destruct (existsb stubborn p), (existsb stubborn m).
Qed.

Lemma no_upper_name3 (p m v : str) :
  no_upper (u "publishers/" ++ lower p ++ u "/models/" ++ lower m
            ++ u "@" ++ lower v) =
  negb (existsb stubborn (p ++ u "/" ++ m ++ u "/" ++ v)).
Proof.
  unfold lower.
  rewrite !no_upper_app, !no_upper_lower_from, !existsb_app.
  change (no_upper (u "publishers/")) with true.
  change (no_upper (u "/models/")) with true.
  change (no_upper (u "@")) with true.
  change (existsb stubborn (u "/")) with false.
  now destruct (existsb stubborn p), (existsb stubborn m),
    (existsb stubborn v).
Qed.

Lemma lower_name2 (p m : str) :
  lower (u "publishers/" ++ lower p ++ u "/models/" ++ lower m) =
  u "publishers/" ++ lower p ++ u "/models/" ++ lower m.
Proof.
  apply lower_fixed; unfold lower.
  now rewrite !all_unchanged_app, !all_unchanged_lower_from.
Qed.

Lemma lower_name3 (p m v : str) :
  lower (u "publishers/" ++ lower p ++ u "/models/" ++ lower m
         ++ u "@" ++ lower v) =
  u "publishers/" ++ lower p ++ u "/models/" ++ lower m ++ u "@" ++ lower v.
Proof.
  apply lower_fixed; unfold lower.
  now rewrite !all_unchanged_app, !all_unchanged_lower_from.
Qed.

(** C3, as the code has it.  On validated arguments, once the client is
    built and the endpoint override entered, [Run] makes exactly one call
    of [GetPublisherModel], and it returns a value exactly when that call
    returns a response whose [supportedActions] and [multiDeployVertex] are
    set; the value is then the [multiDeployVertex] field found there, as it
    is.  When the override cannot be entered or the client cannot be built,
    [Run] makes no call and ends with that exception. *)
Theorem Run_single_call (w : World) (args : Args) :
  validated w args ->
  (reachable w BETA_VERSION ->
   exists client name flag,
     api_calls (trace (Run w args)) = [EvGetPublisherModel client name flag] /\
     forall value,
       result (Run w args) = Ok value <->
       exists response actions vertex,
         GetPublisherModel w client name flag = Ok response /\
         supportedActions response = Some actions /\
         sa_multiDeployVertex actions = Some vertex /\
         value = mdv_multiDeployVertex vertex) /\
  (forall e,
     enter_overrides w BETA_VERSION (u "us-central1") = Raise e \/
     (enter_overrides w BETA_VERSION (u "us-central1") = Ok tt /\
      ModelGardenClient_init w BETA_VERSION = Raise e) ->
     result (Run w args) = Raise e /\ api_calls (trace (Run w args)) = []).
Proof.
  intros Hv; split.
  2:{ intros e; apply Run_unreachable, Hv. }
  intros [Hinit Henter].
  destruct (validated_request w args Hv) as (name & flag & R).
  destruct Hv as [Hval _].
  destruct (Run_validated_run w args Hval Henter) as [-> ->].
  exists {| client_version := BETA_VERSION |}, name, flag.
  rewrite (trace_GetMultiDeploy_request w args _ name flag Hinit R).
  split; [reflexivity|].
  intros value; unfold result.
  rewrite (GetMultiDeploy_request w args _ [] name flag Hinit R); simpl.
  destruct (GetPublisherModel w _ name flag) as [pm|e].
  - destruct (read_multi_deploy pm) as [value'|e] eqn:E; split.
    + intros [= <-].
      apply read_multi_deploy_returns in E as (actions & vertex & Hrest).
      now exists pm, actions, vertex.
    + intros (response & actions & vertex & [= <-] & Hrest).
      assert (read_multi_deploy pm = Ok value) as E'
        by (apply read_multi_deploy_returns; eauto).
      congruence.
    + discriminate.
    + intros (response & actions & vertex & [= <-] & Hrest).
      assert (read_multi_deploy pm = Ok value) as E'
        by (apply read_multi_deploy_returns; eauto).
      congruence.
  - split; [discriminate|].
    now intros (response & _ & _ & [=] & _).
Qed.

Lemma Run_single_call_witness :
  (exists client name flag,
     api_calls (trace (Run Scenario.catalogue Scenario.gemma)) =
       [EvGetPublisherModel client name flag] /\
     forall value,
       result (Run Scenario.catalogue Scenario.gemma) = Ok value <->
       exists response actions vertex,
         GetPublisherModel Scenario.catalogue client name flag = Ok response /\
         supportedActions response = Some actions /\
         sa_multiDeployVertex actions = Some vertex /\
         value = mdv_multiDeployVertex vertex) /\
  result (Run Scenario.unreachable_catalogue Scenario.gemma) =
    Raise Scenario.no_region.
Proof.
  assert (Hform : exists p m v,
             form3 (u "google/gemma2/gemma2-9b") p m v).
  { exists (u "google"), (u "gemma2"), (u "gemma2-9b"); repeat split. }
  split.
  - apply (proj1 (Run_single_call Scenario.catalogue Scenario.gemma
                    (conj eq_refl Hform))).
    split; reflexivity.
  - apply (proj2 (Run_single_call Scenario.unreachable_catalogue Scenario.gemma
                    (conj eq_refl Hform)) Scenario.no_region).
    now left.
Defined.

(** C3, counterexample to "for every invocation on validated arguments":
    with validated arguments and a client that cannot be built (the
    constructor of line 60 raises), [Run] makes no call of
    [GetPublisherModel]. *)
Lemma Run_without_client_makes_no_call :
  validated Scenario.offline_catalogue Scenario.gemma /\
  api_calls (trace (Run Scenario.offline_catalogue Scenario.gemma)) = [] /\
  result (Run Scenario.offline_catalogue Scenario.gemma) =
    Raise Scenario.no_credentials.
Proof.
  split; [|split; reflexivity].
  split; [reflexivity|].
  exists (u "google"), (u "gemma2"), (u "gemma2-9b"); repeat split.
Qed.

(** C4, as the code has it.  Once the validation has passed, the client is
    built and the override entered, the one call of the command has this
    name: for [--hugging-face-model] of the form P/M,
    'publishers/' + lower(P) + '/models/' + lower(M), passed with
    [is_hugging_face_model=True]; without that flag and for [--model] of the
    form P/M/V, 'publishers/' + lower(P) + '/models/' + lower(M) + '@' +
    lower(V), passed alone.  Either name is its own lower case form,
    whatever the case of the flag, and it has an upper case letter exactly
    when the flag holds an upper case letter that has no lower case
    form. *)
Theorem model_name_marshaling (w : World) (args : Args) :
  ValidateModelGardenModelArgs w args = Ok tt ->
  reachable w BETA_VERSION ->
  (forall hf P M,
     hugging_face_model args = Some hf -> form2 hf P M ->
     let name := u "publishers/" ++ lower P ++ u "/models/" ++ lower M in
     api_calls (trace (Run w args)) =
       [EvGetPublisherModel {| client_version := BETA_VERSION |} name (Some true)] /\
     lower name = name /\
     no_upper name = negb (existsb stubborn hf)) /\
  (forall md P M V,
     hugging_face_model args = None -> model args = Some md ->
     form3 md P M V ->
     let name :=
       u "publishers/" ++ lower P ++ u "/models/" ++ lower M
       ++ u "@" ++ lower V in
     api_calls (trace (Run w args)) =
       [EvGetPublisherModel {| client_version := BETA_VERSION |} name None] /\
     lower name = name /\
     no_upper name = negb (existsb stubborn md)).
Proof.
  intros Hval [Hinit Henter].
  destruct (Run_validated_run w args Hval Henter) as [_ ->].
  split.
  - intros hf P M Hhf Hf name.
    pose proof (request_of_form2 args hf P M Hhf Hf) as R.
    rewrite (trace_GetMultiDeploy_request w args _ _ _ Hinit R).
    destruct Hf as (-> & _ & _).
    repeat split; [apply lower_name2 | apply no_upper_name2].
  - intros md P M V Hhf Hmd Hf name.
    pose proof (request_of_form3 args md P M V Hhf Hmd Hf) as R.
    rewrite (trace_GetMultiDeploy_request w args _ _ _ Hinit R).
    destruct Hf as (-> & _ & _ & _).
    repeat split; [apply lower_name3 | apply no_upper_name3].
Qed.

Lemma model_name_marshaling_witness :
  api_calls (trace (Run Scenario.catalogue Scenario.llama)) =
    [EvGetPublisherModel {| client_version := BETA_VERSION |}
       (u "publishers/meta-llama/models/meta-llama-3-8b") (Some true)] /\
  no_upper (u "publishers/meta-llama/models/meta-llama-3-8b") = true /\
  api_calls (trace (Run Scenario.catalogue Scenario.gemma)) =
    [EvGetPublisherModel {| client_version := BETA_VERSION |}
       (u "publishers/google/models/gemma2@gemma2-9b") None].
Proof.
  pose proof (model_name_marshaling Scenario.catalogue Scenario.llama eq_refl
                (conj eq_refl eq_refl)) as [Hllama _].
  pose proof (model_name_marshaling Scenario.catalogue Scenario.gemma eq_refl
                (conj eq_refl eq_refl)) as [_ Hgemma].
  specialize (Hllama (u "meta-llama/Meta-Llama-3-8B") (u "meta-llama")
                (u "Meta-Llama-3-8B") eq_refl).
  specialize (Hgemma (u "google/gemma2/gemma2-9b") (u "google") (u "gemma2")
                (u "gemma2-9b") eq_refl eq_refl).
  split; [|split].
  - apply Hllama; repeat split.
  - apply Hllama; repeat split.
  - apply Hgemma; repeat split.
Defined.

(** C4, counterexample to "entirely lower case regardless of the case of
    the input": for the Hugging Face flag made of U+2102 and '-Labs/Llama',
    which has the form P/M and passes the validation, the name passed to
    [GetPublisherModel] holds U+2102, an upper case letter that [lower()]
    leaves as it is. *)
Lemma name_keeps_upper_case_letter :
  validated Scenario.catalogue Scenario.complex_llama /\
  reachable Scenario.catalogue BETA_VERSION /\
  api_calls (trace (Run Scenario.catalogue Scenario.complex_llama)) =
    [EvGetPublisherModel {| client_version := BETA_VERSION |}
       (u "publishers/" ++ [Scenario.double_struck_C]
        ++ u "-labs/models/llama") (Some true)] /\
  isupper Scenario.double_struck_C = true /\
  no_upper (u "publishers/" ++ [Scenario.double_struck_C]
            ++ u "-labs/models/llama") = false.
Proof.
  split; [|split; [|repeat split; vm_compute; reflexivity]].
  - split; [reflexivity|].
    exists (Scenario.double_struck_C :: u "-Labs"), (u "Llama").
    repeat split.
  - split; reflexivity.
Qed.



End ModelGardenClaims.

(** ** The generated client *)

Section SeclmClaims.
Import Seclm.

Context {St Rq Gp Rs : Type}.
Variable self : BaseApiService St Rq Gp Rs.

(** The shape every generated method has. *)
Lemma stub_runs (name : str) (config : ApiMethodInfo) (request : Rq)
    (global_params : option Gp) (st : St) :
  fst (GetMethodConfig self name st) = Ok config ->
  (c <- GetMethodConfig self name ;; _RunMethod self c request global_params) st =
  _RunMethod self config request global_params
    (snd (GetMethodConfig self name st)).
Proof.
  unfold bind.
  destruct (GetMethodConfig self name st) as [r st']; simpl.
  now intros ->.
Qed.

(** The classes have the methods listed for them and no other. *)
Lemma getattr_method_names (s : service) (name : str) :
  In name (method_names s) <->
  exists f : method St Rq Gp Rs, getattr s name = Some f.
Proof.
  split.
  - destruct s; simpl; intros H;
      repeat (destruct H as [<-|H]; [simpl; eauto|]); destruct H.
  - intros [f Hf]; destruct s; simpl in *;
      repeat match type of Hf with
             | (if str_eqb ?n ?lit then _ else _) = _ =>
                 destruct (str_eqb_spec n lit) as [->|_]; [now auto 10|]
             end; discriminate.
Qed.

Ltac method_case Hf Hself :=
  match type of Hf with
  | (if str_eqb ?n ?lit then _ else _) = _ =>
      destruct (str_eqb_spec n lit) as [->|_];
      [ injection Hf as <-;
        eexists; split; [reflexivity|];
        intros request global_params st;
        apply stub_runs, Hself; reflexivity
      | ]
  end.

Lemma getattr_runs (s : service) (name : str) (f : method St Rq Gp Rs) :
  instance_of self s ->
  getattr s name = Some f ->
  exists config,
    method_config s name = Some config /\
    forall request global_params st,
      f self request global_params st =
      _RunMethod self config request global_params
        (snd (GetMethodConfig self name st)).
Proof.
  intros Hself Hf.
  destruct s; simpl in Hf; repeat method_case Hf Hself; discriminate.
Qed.

(** C6.  The service classes of [SeclmV1] have the methods Cancel, Delete,
    Get, List (operations), Create, Delete, Get, List, Patch, Query
    (workbenches), Get, List (locations) and none on projects; each of them,
    on an instance of its class, is [self._RunMethod] applied to the
    configuration attached to the method, the request and the global
    parameters as given: the result and the final state are those of
    [_RunMethod], run in the state [GetMethodConfig] leaves, which is the
    state of the call when the lookup changes nothing. *)
Theorem service_methods_run_method (s : service) (name : str)
    (f : method St Rq Gp Rs) :
  instance_of self s ->
  getattr s name = Some f ->
  In name
    match s with
    | projects_locations_operations =>
        [u "Cancel"; u "Delete"; u "Get"; u "List"]
    | projects_locations_workbenches =>
        [u "Create"; u "Delete"; u "Get"; u "List"; u "Patch"; u "Query"]
    | projects_locations => [u "Get"; u "List"]
    | projects => []
    end /\
  (forall n, In n (method_names s) ->
     exists g : method St Rq Gp Rs, getattr s n = Some g) /\
  exists config,
    method_config s name = Some config /\
    (forall request global_params st,
       f self request global_params st =
       _RunMethod self config request global_params
         (snd (GetMethodConfig self name st))) /\
    (pure_lookup self ->
     forall request global_params st,
       f self request global_params st =
       _RunMethod self config request global_params st).
Proof.
  intros Hself Hf; split; [|split].
  - change (In name (method_names s)).
    apply getattr_method_names; eauto.
  - intros n; apply getattr_method_names.
  - destruct (getattr_runs s name f Hself Hf) as (config & Hc & Hrun).
    exists config; repeat split; trivial.
    intros Hpure request global_params st.
    now rewrite Hrun, Hpure.
Qed.

End SeclmClaims.

Lemma recording_instance (s : Seclm.service) :
  Seclm.instance_of (Scenario.recording s) s.
Proof.
  intros name config H st; simpl.
  now rewrite H.
Defined.

Lemma recording_pure (s : Seclm.service) :
  Seclm.pure_lookup (Scenario.recording s).
Proof.
  intros name st; simpl.
  now destruct (Seclm.method_config s name).
Defined.

Lemma service_methods_run_method_witness :
  Seclm.ProjectsLocationsWorkbenchesService.Query
    (Scenario.recording Seclm.projects_locations_workbenches)
    (u "workbenches/7") (Some tt) [] =
  Seclm._RunMethod (Scenario.recording Seclm.projects_locations_workbenches)
    Seclm.ProjectsLocationsWorkbenchesService.Query_method_config
    (u "workbenches/7") (Some tt) [].
Proof.
  destruct (service_methods_run_method
              (Scenario.recording Seclm.projects_locations_workbenches)
              Seclm.projects_locations_workbenches (u "Query")
              Seclm.ProjectsLocationsWorkbenchesService.Query
              (recording_instance _) eq_refl)
    as (_ & _ & config & Hc & _ & Hpure).
  injection Hc as <-.
  exact (Hpure (recording_pure _) (u "workbenches/7") (Some tt) []).
Defined.

(** * Further properties *)

(** ** More on strings *)

Section MoreStrings.

Lemma split_length (sep : N) (s : str) :
  length (split sep s) = S (count sep s).
Proof.
  induction s as [|c s IH]; simpl; [reflexivity|].
  destruct (c =? sep)%N; simpl; [now rewrite IH|].
  destruct (split sep s) as [|piece pieces]; [discriminate | exact IH].
Qed.

Lemma join_cons (sep p q : str) (qs : list str) :
  join sep (p :: q :: qs) = p ++ sep ++ join sep (q :: qs).
Proof. reflexivity. Qed.

Lemma join_split (sep : N) (s : str) : join [sep] (split sep s) = s.
Proof.
  induction s as [|c s IH]; simpl; [reflexivity|].
  pose proof (split_length sep s) as Hlen.
  destruct (N.eqb_spec c sep) as [->|_].
  - destruct (split sep s) as [|piece pieces]; [discriminate|].
    rewrite join_cons, IH; reflexivity.
  - destruct (split sep s) as [|piece [|piece' pieces]]; [discriminate| |].
    + simpl in IH |- *; now rewrite IH.
    + rewrite join_cons in IH |- *. rewrite <- IH; reflexivity.
Qed.

Lemma all_space_app (a b : str) :
  all_space (a ++ b) = all_space a && all_space b.
Proof.
  induction a as [|c a IH]; simpl; [reflexivity|].
  now rewrite IH, andb_assoc.
Qed.

Lemma lstrip_all_space (s : str) : all_space s = true -> lstrip s = [].
Proof.
  induction s as [|c s IH]; simpl; [reflexivity|].
  intros H; apply andb_prop in H as [-> Hs]; auto.
Qed.

Lemma rstrip_all_space (s : str) : all_space s = true -> rstrip s = [].
Proof.
  induction s as [|c s IH]; simpl; [reflexivity|].
  intros H; apply andb_prop in H as [Hc Hs].
  now rewrite (IH Hs), Hc.
Qed.

Lemma rstrip_app_space (s r : str) :
  all_space r = true -> rstrip (s ++ r) = rstrip s.
Proof.
  intros Hr; induction s as [|c s IH]; simpl.
  - now apply rstrip_all_space.
  - now rewrite IH.
Qed.

(** White space added at the right end does not change what [strip]
    gives. *)
Lemma strip_app_space (s r : str) :
  all_space r = true -> strip (s ++ r) = strip s.
Proof.
  intros Hr; unfold strip; induction s as [|c s IH]; simpl.
  - now rewrite (lstrip_all_space _ Hr).
  - destruct (isspace c); [exact IH|].
    change (c :: s ++ r) with ((c :: s) ++ r).
    now apply rstrip_app_space.
Qed.

Lemma strip_all_space (s : str) : all_space s = true -> strip s = [].
Proof.
  intros H; unfold strip; now rewrite (lstrip_all_space _ H).
Qed.

End MoreStrings.

(** ** More on the audio helper *)

Section SpeechExtras.
Import Speech.

(** The run of [process_audio], stage by stage. *)
Ltac stages w path :=
  unfold result, trace, process_audio, try_except, report, str_of,
    process_audio_body, read_whole_file, finally, bind, lift, emit, ret; simpl;
  repeat match goal with
    | |- context [new_SpeechClient w] =>
        destruct (new_SpeechClient w) as [?client|?e] eqn:?Hclient; simpl
    | |- context [open_rb w path] =>
        destruct (open_rb w path) as [?f|?e] eqn:?Hopen; simpl
    | |- context [read ?f] =>
        destruct (read f) as [?bytes|?e] eqn:?Hread; simpl
    | |- context [recognize ?c ?config ?audio] =>
        destruct (recognize c config audio) as [?response|?e] eqn:?Hanswer;
        simpl
    | |- context [extract_text ?rs ?acc] =>
        destruct (extract_text rs acc) as [?t|?e] eqn:?Htext; simpl
    | |- context [isinstance ?e Exception] =>
        destruct (isinstance e Exception) eqn:?Hcaught; simpl
    | |- context [broken_str w ?e] =>
        destruct (broken_str w e) as [?e|] eqn:?Hstr; simpl
    | |- context [print w ?line] =>
        destruct (print w line) as [[]|?e] eqn:?Hprint; simpl
    end.

(** X1.  The file does not stay open: once [open] has returned a file, the
    run closes it exactly once, whether [read], the service, the extraction
    or the handler then fail or not, and a run in which no file was opened
    closes none.  A run that calls the service has by then built the
    client, opened, read and closed the file, in this order. *)
Theorem file_closed_once (w : World) (path : str) :
  (forall client f,
     new_SpeechClient w = Ok client -> open_rb w path = Ok f ->
     filter is_close (trace (process_audio w path)) = [EvClose path]) /\
  ((exists e, new_SpeechClient w = Raise e) \/
   (exists e, open_rb w path = Raise e) ->
   filter is_close (trace (process_audio w path)) = []) /\
  (recognize_calls (trace (process_audio w path)) <> [] ->
   exists bytes rest,
     trace (process_audio w path) = sent path bytes ++ rest /\
     recognize_calls rest = []).
Proof.
  split; [|split].
  - intros client0 f0 Hc Ho.
    stages w path; congruence.
  - intros [[e He] | [e He]]; stages w path; congruence.
  - stages w path; intros Hcalls; try (now contradiction Hcalls);
      exists bytes; unfold sent; eexists; split; reflexivity.
Qed.

Lemma file_closed_once_witness :
  filter is_close (trace (process_audio Scenario.torn_world (u "speech.wav"))) =
    [EvClose (u "speech.wav")] /\
  exists bytes rest,
    trace (process_audio Scenario.refusing_world (u "speech.wav")) =
      sent (u "speech.wav") bytes ++ rest /\
    recognize_calls rest = [].
Proof.
  split.
  - exact (proj1 (file_closed_once Scenario.torn_world (u "speech.wav"))
             _ _ eq_refl eq_refl).
  - apply (proj2 (proj2 (file_closed_once Scenario.refusing_world
                           (u "speech.wav")))).
    discriminate.
Defined.



(** X3.  Nothing is sent without the audio: when the client cannot be built,
    or the file cannot be opened or read, the service is not called. *)
Theorem no_call_without_audio (w : World) (path : str) (st : step) (e : exn) :
  raises_at w path st e ->
  st = ClientConstruction \/ st = FileRead ->
  recognize_calls (trace (process_audio w path)) = [].
Proof.
  intros Hst [-> | ->]; simpl in Hst.
  - stages w path; congruence.
  - destruct Hst as (client0 & Hc & [Ho | (f0 & Ho & Hr)]);
      stages w path; congruence.
Qed.

Lemma no_call_without_audio_witness :
  recognize_calls
    (trace (process_audio Scenario.torn_world (u "speech.wav"))) = [].
Proof.
  apply (no_call_without_audio Scenario.torn_world (u "speech.wav") FileRead
           Scenario.torn).
  - simpl. eexists; split; [reflexivity|].
    right; eexists; split; reflexivity.
  - now right.
Defined.

Lemma extract_text_firsts (rs : list SpeechRecognitionResult) :
  forall (rs' : list SpeechRecognitionResult) (acc : str),
    map first_transcript_opt rs = map first_transcript_opt rs' ->
    extract_text rs acc = extract_text rs' acc.
Proof.
  induction rs as [|r rs IH]; intros [|r' rs'] acc; simpl;
    try discriminate; [reflexivity|].
  unfold first_transcript_opt, first_alternative.
  destruct (alternatives r) as [|a alts], (alternatives r') as [|a' alts'];
    try discriminate; [reflexivity|].
  intros [= Ht Hrest]; rewrite Ht; now apply IH.
Qed.

(** What the handler returns is never a string. *)
Lemma report_outcome_no_string (w : World) (e : exn) (t : str) :
  report_outcome w e <> Ok (Some t).
Proof.
  unfold report_outcome.
  destruct (str_of w e) as [text|e']; [|discriminate].
  destruct (print w (error_line text)) as [[]|e']; discriminate.
Qed.

(** X4.  Only the first alternative of each result counts: of two runs whose
    responses have the same first transcripts, result by result, one
    returns a string exactly when the other returns that string, whatever
    their other alternatives, their audio bytes and their paths are; when
    the handlers of the two runs behave alike, the two runs end alike
    altogether. *)
Theorem only_first_alternatives (w1 w2 : World) (path1 path2 : str)
    (bytes1 bytes2 : list byte) (response1 response2 : RecognizeResponse) :
  answers w1 path1 bytes1 response1 ->
  answers w2 path2 bytes2 response2 ->
  map first_transcript_opt (results response1) =
  map first_transcript_opt (results response2) ->
  (forall t,
     result (process_audio w1 path1) = Ok (Some t) <->
     result (process_audio w2 path2) = Ok (Some t)) /\
  (same_report w1 w2 ->
   result (process_audio w1 path1) = result (process_audio w2 path2)).
Proof.
  intros H1 H2 Hfirsts.
  rewrite (process_audio_answered w1 path1 bytes1 response1 H1).
  rewrite (process_audio_answered w2 path2 bytes2 response2 H2).
  rewrite (extract_text_firsts _ _ [] Hfirsts).
  destruct (extract_text (results response2) []) as [text|e].
  - split; reflexivity.
  - destruct (isinstance e Exception); [|split; reflexivity].
    split.
    + intros t; split; intros H; exfalso;
        exact (report_outcome_no_string _ _ _ H).
    + intros Hsame; now apply same_report_outcome.
Qed.

Lemma only_first_alternatives_witness :
  (result (process_audio Scenario.heard_world (u "speech.wav")) =
     Ok (Some (u "Hello world.  How are you?")) <->
   result (process_audio (Scenario.world_of (Ok Scenario.two_results_alone))
             (u "other.wav")) =
     Ok (Some (u "Hello world.  How are you?"))) /\
  result (process_audio Scenario.heard_world (u "speech.wav")) =
  result (process_audio (Scenario.world_of (Ok Scenario.two_results_alone))
            (u "other.wav")).
Proof.
  destruct (only_first_alternatives
              Scenario.heard_world
              (Scenario.world_of (Ok Scenario.two_results_alone))
              (u "speech.wav") (u "other.wav") Scenario.riff Scenario.riff
              Scenario.two_results Scenario.two_results_alone)
    as [Hstr Hall].
  - eexists; eexists; repeat split.
  - eexists; eexists; repeat split.
  - reflexivity.
  - split; [apply Hstr | apply Hall; now split].
Defined.

Lemma first_transcripts_missing (rs : list SpeechRecognitionResult) :
  Exists (fun r => alternatives r = []) rs -> first_transcripts rs = None.
Proof.
  induction 1 as [r rs Hr | r rs _ IH]; simpl.
  - now rewrite Hr.
  - rewrite IH; now destruct (alternatives r).
Qed.

(** X5.  All or nothing: when one result of the response has no
    alternative, no string comes back, also when the results before it had
    text.  The extraction raises an [IndexError], which the handler
    catches: [process_audio] returns [None] when the handler can print its
    line, and lets the exception of [str(e)] or of [print] through when it
    cannot. *)
Theorem no_partial_transcription (w : World) (path : str)
    (bytes : list byte) (response : RecognizeResponse) :
  answers w path bytes response ->
  Exists (fun r => alternatives r = []) (results response) ->
  (forall t, result (process_audio w path) <> Ok (Some t)) /\
  exists e,
    raises_at w path ResultExtraction e /\
    isinstance e IndexError = true /\
    (report_prints w e -> result (process_audio w path) = Ok None) /\
    (forall e', report_raises w e e' ->
                result (process_audio w path) = Raise e').
Proof.
  intros Ha Hmissing.
  pose proof (extract_text_raises _ [] (first_transcripts_missing _ Hmissing))
    as Hraise.
  rewrite (process_audio_answered w path bytes response Ha), Hraise.
  change (isinstance (mkExn IndexError (u "list index out of range"))
            Exception) with true; cbv iota.
  split; [intros t; apply report_outcome_no_string|].
  exists (mkExn IndexError (u "list index out of range")).
  split; [|split; [reflexivity | split]].
  - destruct Ha as (client & f & Hc & Ho & Hr & Hans).
    simpl; exists client, f, bytes, response; repeat split; assumption.
  - intros [Hstr Hprint]; unfold report_outcome.
    now rewrite Hstr, Hprint.
  - intros e' [Hstr | (text & Hstr & Hprint)]; unfold report_outcome;
      rewrite Hstr; [reflexivity | now rewrite Hprint].
Qed.

Lemma no_partial_transcription_witness :
  result (process_audio (Scenario.world_of (Ok Scenario.half_heard))
            (u "speech.wav")) = Ok None /\
  result (process_audio Scenario.half_heard_closed_world (u "speech.wav")) =
    Raise Scenario.closed_stdout.
Proof.
  split.
  - destruct (no_partial_transcription
                (Scenario.world_of (Ok Scenario.half_heard)) (u "speech.wav")
                Scenario.riff Scenario.half_heard)
      as (_ & e & _ & _ & Hprints & _).
    + eexists; eexists; repeat split.
    + apply Exists_cons_tl, Exists_cons_hd; reflexivity.
    + apply Hprints; split; reflexivity.
  - destruct (no_partial_transcription
                Scenario.half_heard_closed_world (u "speech.wav")
                Scenario.riff Scenario.half_heard)
      as (_ & e & _ & _ & _ & Hraises).
    + eexists; eexists; repeat split.
    + apply Exists_cons_tl, Exists_cons_hd; reflexivity.
    + apply Hraises; right; eexists; split; reflexivity.
Defined.

Lemma joined_all_space (ts : list str) :
  Forall (fun t => all_space t = true) ts -> all_space (joined ts) = true.
Proof.
  induction 1 as [|t ts Ht _ IH]; [reflexivity|].
  rewrite joined_cons, !all_space_app, Ht, IH; reflexivity.
Qed.

Lemma joined_join (t : str) (ts : list str) :
  joined (t :: ts) = join (u " ") (t :: ts) ++ u " ".
Proof.
  revert t; induction ts as [|t' ts IH]; intros t.
  - unfold joined; simpl; now rewrite app_nil_r.
  - rewrite joined_cons, IH, join_cons.
    now rewrite <- !app_assoc.
Qed.

(** X6.  Silence gives the empty string: when every first transcript is
    empty or white space, [process_audio] returns the empty string (not
    [None]), as it does for a response without results. *)
Theorem silence_is_empty (w : World) (path : str) (bytes : list byte)
    (response : RecognizeResponse) (ts : list str) :
  answers w path bytes response ->
  Forall2 first_transcript (results response) ts ->
  Forall (fun t => all_space t = true) ts ->
  result (process_audio w path) = Ok (Some []).
Proof.
  intros Ha Hts Hspace.
  rewrite (process_audio_answered w path bytes response Ha).
  rewrite (extract_text_joined _ [] ts (first_transcripts_Forall2 _ _ Hts)).
  simpl; now rewrite (strip_all_space _ (joined_all_space _ Hspace)).
Qed.

Lemma silence_is_empty_witness :
  result (process_audio (Scenario.world_of (Ok Scenario.silence))
            (u "speech.wav")) =
  Ok (Some []).
Proof.
  apply (silence_is_empty _ _ Scenario.riff Scenario.silence [[]; u "  "]).
  - eexists; eexists; repeat split.
  - repeat constructor; unfold first_transcript; simpl; eauto.
  - repeat constructor.
Defined.

(** X7.  What comes back is [' '.join(transcripts).strip()]: the first
    transcripts joined by single spaces, stripped; the space the loop puts
    after the last transcript never shows.  When the joined text has no
    white space at its ends, it is returned as it is. *)
Theorem transcription_is_stripped_join (w : World) (path : str)
    (bytes : list byte) (response : RecognizeResponse) (ts : list str) :
  answers w path bytes response ->
  Forall2 first_transcript (results response) ts ->
  result (process_audio w path) = Ok (Some (strip (join (u " ") ts))) /\
  (strip (join (u " ") ts) = join (u " ") ts ->
   result (process_audio w path) = Ok (Some (join (u " ") ts))).
Proof.
  intros Ha Hts.
  assert (H : result (process_audio w path) =
              Ok (Some (strip (join (u " ") ts)))).
  { rewrite (process_audio_answered w path bytes response Ha).
    rewrite (extract_text_joined _ [] ts (first_transcripts_Forall2 _ _ Hts)).
    simpl; destruct ts as [|t ts']; [reflexivity|].
    now rewrite joined_join, strip_app_space. }
  split; [exact H | now intros <-].
Qed.

Lemma transcription_is_stripped_join_witness :
  result (process_audio (Scenario.world_of (Ok Scenario.two_results_alone))
            (u "speech.wav")) =
  Ok (Some (strip (join (u " ") [u "Hello world."; u " How are you? "]))).
Proof.
  apply (transcription_is_stripped_join _ _ Scenario.riff
           Scenario.two_results_alone).
  - eexists; eexists; repeat split.
  - repeat constructor; unfold first_transcript; simpl; eauto.
Defined.

End SpeechExtras.

(** ** More on the command *)

Section ModelGardenExtras.
Import ModelGarden.

(** X8.  The flags are read without regard to case, and [--model] is not
    looked at when [--hugging-face-model] is given: two sets of arguments
    whose Hugging Face flags have the same lower case form (or that have
    none and whose models have the same lower case form) make
    [_GetMultiDeploy] do the same, call for call and result for result. *)
Theorem GetMultiDeploy_case_insensitive (w : World) (args args' : Args)
    (v : version) (s : list event) :
  option_map lower (hugging_face_model args) =
  option_map lower (hugging_face_model args') ->
  (hugging_face_model args = None ->
   option_map lower (model args) = option_map lower (model args')) ->
  _GetMultiDeploy w args v s = _GetMultiDeploy w args' v s.
Proof.
  intros Hhf Hmodel; unfold _GetMultiDeploy.
  destruct (hugging_face_model args) as [hf|],
           (hugging_face_model args') as [hf'|]; try discriminate.
  - injection Hhf as ->; reflexivity.
  - specialize (Hmodel eq_refl).
    destruct (model args) as [md|], (model args') as [md'|];
      try discriminate; [|reflexivity].
    injection Hmodel as Hmd; unfold call_lower; now rewrite Hmd.
Qed.

Lemma GetMultiDeploy_case_insensitive_witness :
  _GetMultiDeploy Scenario.catalogue Scenario.llama BETA_VERSION [] =
  _GetMultiDeploy Scenario.catalogue Scenario.shouted_llama BETA_VERSION [].
Proof.
  apply (GetMultiDeploy_case_insensitive Scenario.catalogue Scenario.llama
           Scenario.shouted_llama BETA_VERSION []).
  - reflexivity.
  - discriminate.
Defined.

(** X9.  Once the client is built, the number of slashes decides whether a
    call is made: a Hugging Face flag leads to one call when it has exactly
    one slash and to a [ValueError] before any call otherwise; a model flag
    likewise with exactly two slashes; with neither flag the command ends
    with the [AttributeError] of [None.lower()], which is not turned into
    the 'Model does not support deployment' error.  When the constructor of
    the client raises, the flags are not read: the command ends with that
    exception and no call, whatever the flags are. *)
Theorem GetMultiDeploy_slash_count (w : World) (args : Args) (v : version) :
  (ModelGardenClient_init w v = Ok tt ->
   (forall hf,
      hugging_face_model args = Some hf ->
      (count SLASH hf = 1 ->
       exists name,
         trace (_GetMultiDeploy w args v) =
         [EvGetPublisherModel {| client_version := v |} name (Some true)]) /\
      (count SLASH hf <> 1 ->
       exists e,
         _GetMultiDeploy w args v [] = (Raise e, []) /\
         exn_type e = ValueError)) /\
   (forall md,
      hugging_face_model args = None -> model args = Some md ->
      (count SLASH md = 2 ->
       exists name,
         trace (_GetMultiDeploy w args v) =
         [EvGetPublisherModel {| client_version := v |} name None]) /\
      (count SLASH md <> 2 ->
       exists e,
         _GetMultiDeploy w args v [] = (Raise e, []) /\
         exn_type e = ValueError)) /\
   (hugging_face_model args = None -> model args = None ->
    exists e,
      _GetMultiDeploy w args v [] = (Raise e, []) /\
      exn_type e = AttributeError /\ e <> not_deployable)) /\
  (forall e,
     ModelGardenClient_init w v = Raise e ->
     _GetMultiDeploy w args v [] = (Raise e, [])).
Proof.
  split; [|intros e He; now apply GetMultiDeploy_no_client].
  intros Hinit; split; [|split].
  - intros hf Hhf.
    pose proof (split_length SLASH (lower hf)) as Hlen.
    rewrite count_lower_slash in Hlen.
    split; intros Hcount.
    + destruct (split SLASH (lower hf)) as [|p [|m [|x l]]] eqn:E;
        simpl in Hlen; try lia.
      eexists; apply trace_GetMultiDeploy_request; [exact Hinit|].
      unfold request_of; rewrite Hhf, E; reflexivity.
    + unfold _GetMultiDeploy, bind, lift; rewrite Hinit, Hhf.
      destruct (split SLASH (lower hf)) as [|p [|m [|x l]]] eqn:E;
        simpl in Hlen; try lia; simpl; eauto.
  - intros md Hhf Hmd.
    pose proof (split_length SLASH (lower md)) as Hlen.
    rewrite count_lower_slash in Hlen.
    split; intros Hcount.
    + destruct (split SLASH (lower md)) as [|p [|m [|x [|y l]]]] eqn:E;
        simpl in Hlen; try lia.
      eexists; apply trace_GetMultiDeploy_request; [exact Hinit|].
      unfold request_of; rewrite Hhf, Hmd, E; reflexivity.
    + unfold _GetMultiDeploy, bind, lift; rewrite Hinit, Hhf, Hmd; simpl.
      destruct (split SLASH (lower md)) as [|p [|m [|x [|y l]]]] eqn:E;
        simpl in Hlen; try lia; simpl; eauto.
  - intros Hhf Hmd.
    unfold _GetMultiDeploy, bind, lift; rewrite Hinit, Hhf, Hmd; simpl.
    eexists; repeat split; discriminate.
Qed.

Lemma GetMultiDeploy_slash_count_witness :
  (exists e,
     _GetMultiDeploy Scenario.catalogue Scenario.nameless_llama BETA_VERSION [] =
       (Raise e, []) /\
     exn_type e = ValueError) /\
  (exists name,
     trace (_GetMultiDeploy Scenario.catalogue Scenario.gemma BETA_VERSION) =
     [EvGetPublisherModel {| client_version := BETA_VERSION |} name None]) /\
  (exists e,
     _GetMultiDeploy Scenario.catalogue Scenario.no_flag BETA_VERSION [] =
       (Raise e, []) /\
     exn_type e = AttributeError /\ e <> not_deployable) /\
  _GetMultiDeploy Scenario.offline_catalogue Scenario.no_flag BETA_VERSION [] =
    (Raise Scenario.no_credentials, []).
Proof.
  pose proof (proj1 (GetMultiDeploy_slash_count Scenario.catalogue
                       Scenario.nameless_llama BETA_VERSION) eq_refl)
    as (Hnameless & _ & _).
  pose proof (proj1 (GetMultiDeploy_slash_count Scenario.catalogue
                       Scenario.gemma BETA_VERSION) eq_refl)
    as (_ & Hgemma & _).
  pose proof (proj1 (GetMultiDeploy_slash_count Scenario.catalogue
                       Scenario.no_flag BETA_VERSION) eq_refl)
    as (_ & _ & Hnone).
  split; [|split; [|split]].
  - refine (proj2 (Hnameless (u "Meta-Llama-3-8B") eq_refl) _).
    discriminate.
  - exact (proj1 (Hgemma (u "google/gemma2/gemma2-9b") eq_refl eq_refl)
             eq_refl).
  - exact (Hnone eq_refl eq_refl).
  - exact (proj2 (GetMultiDeploy_slash_count Scenario.offline_catalogue
                    Scenario.no_flag BETA_VERSION)
             Scenario.no_credentials eq_refl).
Defined.

(** The pieces can be read back from a Hugging Face name. *)
Lemma split_name2 (p m : str) :
  contains SLASH p = false -> contains SLASH m = false ->
  split SLASH (u "publishers/" ++ p ++ u "/models/" ++ m) =
  [u "publishers"; p; u "models"; m].
Proof.
  intros Hp Hm.
  change (u "publishers/" ++ p ++ u "/models/" ++ m)
    with (u "publishers" ++ SLASH :: (p ++ SLASH :: (u "models" ++ SLASH :: m))).
  rewrite !split_at_first by (trivial; reflexivity).
  now rewrite (split_without _ _ Hm).
Qed.

Lemma split_name3 (p m v : str) :
  contains SLASH p = false -> contains SLASH m = false ->
  contains SLASH v = false ->
  split SLASH (u "publishers/" ++ p ++ u "/models/" ++ m ++ u "@" ++ v) =
  [u "publishers"; p; u "models"; m ++ u "@" ++ v].
Proof.
  intros Hp Hm Hv.
  change (u "publishers/" ++ p ++ u "/models/" ++ m ++ u "@" ++ v)
    with (u "publishers" ++
          SLASH :: (p ++ SLASH :: (u "models" ++ SLASH :: (m ++ u "@" ++ v)))).
  rewrite !split_at_first by (trivial; reflexivity).
  rewrite split_without; [reflexivity|].
  rewrite !contains_app, Hm, Hv; reflexivity.
Qed.

(** X10.  Different models are not mistaken for one another: where the
    client is built, two Hugging Face flags of the form P/M that lead to
    the same call have the same lower case form; so have two model flags of
    the form P/M/V, as long as the model names M hold no '@' (the sign the
    name puts between model and version). *)
Theorem marshaling_injective (w : World) (v : version) (args args' : Args) :
  ModelGardenClient_init w v = Ok tt ->
  trace (_GetMultiDeploy w args v) = trace (_GetMultiDeploy w args' v) ->
  (forall hf hf' P M P' M',
     hugging_face_model args = Some hf ->
     hugging_face_model args' = Some hf' ->
     form2 hf P M -> form2 hf' P' M' ->
     lower hf = lower hf') /\
  (forall md md' P M V P' M' V',
     hugging_face_model args = None -> model args = Some md ->
     hugging_face_model args' = None -> model args' = Some md' ->
     form3 md P M V -> form3 md' P' M' V' ->
     contains AT M = false -> contains AT M' = false ->
     lower md = lower md').
Proof.
  intros Hinit Htrace; split.
  - intros hf hf' P M P' M' Hhf Hhf' Hf Hf'.
    rewrite
      (trace_GetMultiDeploy_request w args v _ _ Hinit
         (request_of_form2 args hf P M Hhf Hf)),
      (trace_GetMultiDeploy_request w args' v _ _ Hinit
         (request_of_form2 args' hf' P' M' Hhf' Hf')) in Htrace.
    apply (f_equal call_name) in Htrace;
      cbv beta iota delta [call_name] in Htrace.
    rename Htrace into Hname.
    destruct Hf as (-> & HP & HM), Hf' as (-> & HP' & HM').
    apply (f_equal (split SLASH)) in Hname.
    rewrite !split_name2 in Hname
      by (rewrite contains_lower_slash; assumption).
    injection Hname as HeqP HeqM.
    now rewrite !lower_form2, HeqP, HeqM.
  - intros md md' P M V P' M' V' Hhf Hmd Hhf' Hmd' Hf Hf' Hat Hat'.
    rewrite
      (trace_GetMultiDeploy_request w args v _ _ Hinit
         (request_of_form3 args md P M V Hhf Hmd Hf)),
      (trace_GetMultiDeploy_request w args' v _ _ Hinit
         (request_of_form3 args' md' P' M' V' Hhf' Hmd' Hf')) in Htrace.
    apply (f_equal call_name) in Htrace;
      cbv beta iota delta [call_name] in Htrace.
    rename Htrace into Hname.
    destruct Hf as (-> & HP & HM & HV), Hf' as (-> & HP' & HM' & HV').
    apply (f_equal (split SLASH)) in Hname.
    rewrite !split_name3 in Hname
      by (rewrite contains_lower_slash; assumption).
    injection Hname as HeqP Hrest.
    pose proof (f_equal (split AT) Hrest) as Hsplit.
    change (u "@" ++ lower V) with (AT :: lower V) in Hsplit.
    change (u "@" ++ lower V') with (AT :: lower V') in Hsplit.
    rewrite !split_at_first in Hsplit
      by (rewrite contains_lower_at; assumption).
    injection Hsplit as HeqM _.
    rewrite HeqM in Hrest; apply app_inv_head in Hrest.
    injection Hrest as HeqV.
    now rewrite !lower_form3, HeqP, HeqM, HeqV.
Qed.

Lemma marshaling_injective_witness :
  lower (u "meta-llama/Meta-Llama-3-8B") =
  lower (u "META-LLAMA/meta-llama-3-8b").
Proof.
  refine (proj1 (marshaling_injective Scenario.catalogue BETA_VERSION
                   Scenario.llama Scenario.shouted_llama eq_refl eq_refl)
            _ _ (u "meta-llama") (u "Meta-Llama-3-8B")
            (u "META-LLAMA") (u "meta-llama-3-8b")
            eq_refl eq_refl _ _);
    repeat split.
Defined.

(** X11.  The call is made inside the endpoint override and the override
    always ends: after a validation that passed, the run enters the override
    for [BETA_VERSION] and the region 'us-central1'; once it is entered the
    run makes at most one call, with a client of [BETA_VERSION], and leaves
    the override as its last step, also when the constructor of the client,
    the unpacking or the call raised.  When the override cannot be entered,
    the run ends there, and after a validation that raised the override is
    not entered; in both cases no call is made. *)
Theorem Run_inside_overrides (w : World) (args : Args) :
  (ValidateModelGardenModelArgs w args = Ok tt ->
   enter_overrides w BETA_VERSION (u "us-central1") = Ok tt ->
   exists calls,
     trace (Run w args) =
       [EvValidate args;
        EvEnterEndpointOverrides BETA_VERSION (u "us-central1")]
       ++ calls ++ [EvExitEndpointOverrides] /\
     (calls = [] \/
      exists name flag,
        calls = [EvGetPublisherModel {| client_version := BETA_VERSION |}
                   name flag])) /\
  (forall e,
     ValidateModelGardenModelArgs w args = Ok tt ->
     enter_overrides w BETA_VERSION (u "us-central1") = Raise e ->
     trace (Run w args) =
       [EvValidate args;
        EvEnterEndpointOverrides BETA_VERSION (u "us-central1")]) /\
  (forall e,
     ValidateModelGardenModelArgs w args = Raise e ->
     trace (Run w args) = [EvValidate args]).
Proof.
  split; [|split].
  - intros Hval Henter; unfold trace.
    rewrite Run_unfold, Hval, Henter, GetMultiDeploy_frame.
    exists (trace (_GetMultiDeploy w args BETA_VERSION)).
    split; [now rewrite <- app_assoc|].
    destruct (ModelGardenClient_init w BETA_VERSION) as [[]|e] eqn:Hinit.
    + destruct (request_of args) as [[name flag]|] eqn:R.
      * right; exists name, flag; now apply trace_GetMultiDeploy_request.
      * left; destruct (GetMultiDeploy_no_request w args BETA_VERSION Hinit R)
          as (e & He & _).
        unfold trace; now rewrite He.
    + left; unfold trace.
      now rewrite (GetMultiDeploy_no_client w args _ _ [] Hinit).
  - intros e Hval Henter; unfold trace; now rewrite Run_unfold, Hval, Henter.
  - intros e He; unfold trace; now rewrite Run_unfold, He.
Qed.

Lemma Run_inside_overrides_witness :
  (exists calls,
     trace (Run Scenario.catalogue Scenario.nameless_llama) =
       [EvValidate Scenario.nameless_llama;
        EvEnterEndpointOverrides BETA_VERSION (u "us-central1")]
       ++ calls ++ [EvExitEndpointOverrides] /\
     (calls = [] \/
      exists name flag,
        calls = [EvGetPublisherModel {| client_version := BETA_VERSION |}
                   name flag])) /\
  trace (Run Scenario.unreachable_catalogue Scenario.gemma) =
    [EvValidate Scenario.gemma;
     EvEnterEndpointOverrides BETA_VERSION (u "us-central1")] /\
  trace (Run Scenario.strict_catalogue Scenario.gemma) =
    [EvValidate Scenario.gemma].
Proof.
  split; [|split].
  - exact (proj1 (Run_inside_overrides Scenario.catalogue
                    Scenario.nameless_llama) eq_refl eq_refl).
  - exact (proj1 (proj2 (Run_inside_overrides Scenario.unreachable_catalogue
                           Scenario.gemma))
             Scenario.no_region eq_refl eq_refl).
  - exact (proj2 (proj2 (Run_inside_overrides Scenario.strict_catalogue
                           Scenario.gemma))
             Scenario.bad_flag eq_refl).
Defined.

End ModelGardenExtras.

(** ** More on the generated client *)

Section SeclmExtras.
Import Seclm.

(** Every configuration of the client, by cases on the class and the name
    of the method. *)
Ltac each_config H tac :=
  match type of H with
  | method_config ?s _ = _ =>
      destruct s; simpl in H;
      repeat match type of H with
             | (if str_eqb ?n ?lit then _ else _) = _ =>
                 destruct (str_eqb_spec n lit) as [->|_];
                 [injection H as <-; solve [tac] | ]
             end;
      discriminate H
  end.

Lemma method_table_complete (s : service) (name : str)
    (config : ApiMethodInfo) :
  method_config s name = Some config -> In (s, name, config) method_table.
Proof.
  intros H; each_config H ltac:(unfold method_table; simpl; auto 20).
Qed.

Lemma str_eqb_eq (a b : str) : a = b -> str_eqb a b = true.
Proof.
  intros ->; now destruct (str_eqb_spec b b).
Qed.

(** X12.  The method ids follow one scheme and tell the methods apart: the
    id of a method is 'seclm.', the name of its service with dots for
    underscores, a dot and the lower case name of the method; hence two
    methods with the same id are the same method of the same service. *)
Theorem method_id_scheme (s : service) (name : str) (config : ApiMethodInfo) :
  method_config s name = Some config ->
  method_id config =
    u "seclm." ++ dotted (service_name s) ++ u "." ++ lower name /\
  forall s' name' config',
    method_config s' name' = Some config' ->
    method_id config = method_id config' ->
    s = s' /\ name = name'.
Proof.
  intros H; split.
  - each_config H ltac:(vm_compute; reflexivity).
  - intros s' name' config' H' Hid.
    apply str_eqb_eq in Hid.
    apply method_table_complete in H, H'.
    unfold method_table in H, H'; simpl in H, H'.
    repeat (destruct H as [H|H]; [injection H as <- <- <-|]);
      try contradiction;
      repeat (destruct H' as [H'|H']; [injection H' as <- <- <-|]);
      try contradiction;
      first [now split | vm_compute in Hid; discriminate Hid].
Qed.

Lemma method_id_scheme_witness :
  method_id ProjectsLocationsWorkbenchesService.Patch_method_config =
    u "seclm." ++ dotted (service_name projects_locations_workbenches)
    ++ u "." ++ lower (u "Patch").
Proof.
  exact (proj1 (method_id_scheme projects_locations_workbenches (u "Patch")
                  ProjectsLocationsWorkbenchesService.Patch_method_config
                  eq_refl)).
Defined.

(** X13.  Every configuration is of one make: a single path parameter,
    'name' or 'parent', which is also the one ordered parameter, is no
    query parameter and is the variable the relative path starts with after
    'v1/'; the flat path lies under 'v1/projects/{projectsId}/locations';
    no method supports download; the verb is GET, POST, DELETE or PATCH, and
    a request body field is set exactly for POST and PATCH. *)
Theorem method_config_well_formed (s : service) (name : str)
    (config : ApiMethodInfo) :
  method_config s name = Some config ->
  (exists p,
     (p = u "name" \/ p = u "parent") /\
     path_params config = [p] /\ ordered_params config = [p] /\
     ~ In p (query_params config) /\
     startswith (relative_path config) (u "v1/{+" ++ p ++ u "}") = true) /\
  startswith (flat_path config) (u "v1/projects/{projectsId}/locations") =
    true /\
  supports_download config = false /\
  In (http_method config) [u "GET"; u "POST"; u "DELETE"; u "PATCH"] /\
  (request_field config <> [] <->
   http_method config = u "POST" \/ http_method config = u "PATCH").
Proof.
  intros H.
  assert (Hparam :
            exists p,
              (p = u "name" \/ p = u "parent") /\
              path_params config = [p] /\ ordered_params config = [p] /\
              ~ In p (query_params config) /\
              startswith (relative_path config) (u "v1/{+" ++ p ++ u "}") =
                true).
  { each_config H
      ltac:((exists (u "name") + exists (u "parent"));
            repeat split; auto; vm_compute; intuition discriminate). }
  split; [exact Hparam|].
  clear Hparam.
  each_config H
    ltac:(vm_compute; repeat split; auto 6;
          try (intros [?|?]; discriminate);
          try (intros Hne; now contradiction Hne)).
Qed.

Lemma method_config_well_formed_witness :
  (exists p,
     (p = u "name" \/ p = u "parent") /\
     path_params ProjectsLocationsWorkbenchesService.Create_method_config = [p] /\
     ordered_params ProjectsLocationsWorkbenchesService.Create_method_config = [p] /\
     ~ In p (query_params ProjectsLocationsWorkbenchesService.Create_method_config) /\
     startswith
       (relative_path ProjectsLocationsWorkbenchesService.Create_method_config)
       (u "v1/{+" ++ p ++ u "}") = true).
Proof.
  exact (proj1 (method_config_well_formed projects_locations_workbenches
                  (u "Create")
                  ProjectsLocationsWorkbenchesService.Create_method_config
                  eq_refl)).
Defined.

Context {St Rq Gp Rs : Type}.
Variable self : BaseApiService St Rq Gp Rs.

(** X14.  A method whose configuration cannot be looked up does not run:
    when [GetMethodConfig] raises, the method raises the same exception in
    the state the lookup left, and [_RunMethod] has no part in the
    outcome. *)
Theorem lookup_failure_stops_method (s : service) (name : str)
    (f : method St Rq Gp Rs) (e : exn) (request : Rq)
    (global_params : option Gp) (st : St) :
  getattr s name = Some f ->
  fst (GetMethodConfig self name st) = Raise e ->
  f self request global_params st =
  (Raise e, snd (GetMethodConfig self name st)).
Proof.
  intros Hf He.
  assert (Hstub :
            forall n, fst (GetMethodConfig self n st) = Raise e ->
              (c <- GetMethodConfig self n ;;
               _RunMethod self c request global_params) st =
              (Raise e, snd (GetMethodConfig self n st))).
  { intros n Hn; unfold bind.
    destruct (GetMethodConfig self n st) as [r st']; simpl in *.
    now rewrite Hn. }
  destruct s; simpl in Hf;
    repeat match type of Hf with
           | (if str_eqb ?n ?lit then _ else _) = _ =>
               destruct (str_eqb_spec n lit) as [->|_];
               [injection Hf as <-; apply Hstub, He | ]
           end; discriminate.
Qed.

End SeclmExtras.

Lemma lookup_failure_stops_method_witness :
  Seclm.ProjectsLocationsService.Get Scenario.unconfigured (u "locations/x")
    None [] =
  (Raise (mkExn KeyError (u "Get")), [u "lookup Get"]).
Proof.
  exact (lookup_failure_stops_method Scenario.unconfigured
           Seclm.projects_locations (u "Get") Seclm.ProjectsLocationsService.Get
           (mkExn KeyError (u "Get")) (u "locations/x") None [] eq_refl eq_refl).
Defined.

(** ** Where a returned value comes from *)

Section Origins.

Lemma lstrip_fixed (s : str) :
  is_space_opt (first_char s) = false -> lstrip s = s.
Proof.
  destruct s as [|c s]; simpl; [reflexivity | now intros ->].
Qed.

Lemma rstrip_fixed (s : str) :
  is_space_opt (last_char s) = false -> rstrip s = s.
Proof.
  induction s as [|c s IH]; [reflexivity|].
  destruct s as [|d s'].
  - simpl; now intros ->.
  - intros H; change (last_char (c :: d :: s')) with (last_char (d :: s')) in H.
    change (rstrip (c :: d :: s'))
      with (match rstrip (d :: s') with
            | [] => if isspace c then [] else [c]
            | r => c :: r
            end).
    now rewrite (IH H).
Qed.

Lemma strip_idempotent (s : str) : strip (strip s) = strip s.
Proof.
  unfold strip.
  rewrite (lstrip_fixed (rstrip (lstrip s)))
    by apply rstrip_first, lstrip_first.
  apply rstrip_fixed, rstrip_last.
Qed.

Lemma first_transcripts_inv (rs : list Speech.SpeechRecognitionResult) :
  forall ts, Speech.first_transcripts rs = Some ts ->
             Forall2 Speech.first_transcript rs ts.
Proof.
  induction rs as [|r rs IH]; simpl; intros ts H.
  - injection H as <-; constructor.
  - destruct (Speech.alternatives r) as [|a alts] eqn:Ha; [discriminate|].
    destruct (Speech.first_transcripts rs) as [ts'|]; [|discriminate].
    injection H as <-; constructor; [|now apply IH].
    now exists a, alts.
Qed.

(** A body that returns has been answered. *)
Lemma body_returns (w : Speech.World) (path : str) (t : str)
    (evs : list Speech.event) :
  Speech.process_audio_body w path [] = (Ok t, evs) ->
  exists bytes response text,
    Speech.answers w path bytes response /\
    Speech.extract_text (Speech.results response) [] = Ok text /\
    t = strip text.
Proof.
  unfold Speech.process_audio_body, Speech.read_whole_file, finally, bind,
    lift, emit, ret; simpl.
  destruct (Speech.new_SpeechClient w) as [client|e] eqn:Hc; [|discriminate].
  destruct (Speech.open_rb w path) as [f|e] eqn:Ho; [|discriminate].
  destruct (Speech.read f) as [bytes|e] eqn:Hr; simpl; [|discriminate].
  destruct (Speech.recognize client _ _) as [response|e] eqn:Ha;
    [|discriminate].
  destruct (Speech.extract_text _ _) as [text|e] eqn:He; [|discriminate].
  intros [= <- _].
  exists bytes, response, text; repeat split; trivial.
  now exists client, f.
Qed.

(** X15.  A string comes back only from an answer: when [process_audio]
    returns a string, the client was built, the file was read, the service
    answered, every result had a first alternative, and the string is the
    stripped concatenation of their transcripts; stripping it again changes
    nothing. *)
Theorem string_only_from_answer (w : Speech.World) (path : str) (t : str) :
  result (Speech.process_audio w path) = Ok (Some t) ->
  (exists bytes response ts,
     Speech.answers w path bytes response /\
     Forall2 Speech.first_transcript (Speech.results response) ts /\
     t = strip (Speech.joined ts)) /\
  strip t = t.
Proof.
  intros H.
  assert (Horigin :
            exists bytes response ts,
              Speech.answers w path bytes response /\
              Forall2 Speech.first_transcript (Speech.results response) ts /\
              t = strip (Speech.joined ts)).
  { unfold result in H; rewrite process_audio_unfold in H.
    destruct (Speech.process_audio_body w path []) as [[t'|e] evs] eqn:B.
    - injection H as ->.
      destruct (body_returns w path t evs B)
        as (bytes & response & text & Ha & He & ->).
      destruct (Speech.first_transcripts (Speech.results response))
        as [ts|] eqn:Hts.
      + rewrite (extract_text_joined _ [] ts Hts) in He; injection He as <-.
        exists bytes, response, ts; repeat split; trivial.
        now apply first_transcripts_inv.
      + rewrite (extract_text_raises _ [] Hts) in He; discriminate.
    - destruct (isinstance e Exception); [|discriminate].
      rewrite report_result in H.
      now apply report_outcome_no_string in H. }
  split; [exact Horigin|].
  destruct Horigin as (_ & _ & ts & _ & _ & ->).
  apply strip_idempotent.
Qed.

Lemma string_only_from_answer_witness :
  (exists bytes response ts,
     Speech.answers Scenario.heard_world (u "speech.wav") bytes response /\
     Forall2 Speech.first_transcript (Speech.results response) ts /\
     u "Hello world.  How are you?" = strip (Speech.joined ts)) /\
  strip (u "Hello world.  How are you?") = u "Hello world.  How are you?".
Proof.
  exact (string_only_from_answer Scenario.heard_world (u "speech.wav")
           (u "Hello world.  How are you?") eq_refl).
Defined.

(** X16.  A value comes back only from a call: when [Run] returns a value,
    the validation passed, exactly one call was made, with a client of
    [BETA_VERSION], that call returned a response, and the value is what
    [supportedActions.multiDeployVertex.multiDeployVertex] gives on it. *)
Theorem value_only_from_call (w : ModelGarden.World) (args : ModelGarden.Args)
    (value : list ModelGarden.Deploy) :
  result (ModelGarden.Run w args) = Ok value ->
  ModelGarden.ValidateModelGardenModelArgs w args = Ok tt /\
  exists name flag response,
    ModelGarden.api_calls (trace (ModelGarden.Run w args)) =
      [ModelGarden.EvGetPublisherModel
         {| ModelGarden.client_version := ModelGarden.BETA_VERSION |} name flag] /\
    ModelGarden.GetPublisherModel w
      {| ModelGarden.client_version := ModelGarden.BETA_VERSION |} name flag =
      Ok response /\
    ModelGarden.read_multi_deploy response = Ok value.
Proof.
  intros H.
  destruct (ModelGarden.ValidateModelGardenModelArgs w args) as [[]|e] eqn:Hval.
  2:{ unfold result in H; rewrite Run_unfold, Hval in H; discriminate. }
  split; [reflexivity|].
  destruct (ModelGarden.enter_overrides w ModelGarden.BETA_VERSION
              (u "us-central1")) as [[]|e] eqn:Henter.
  2:{ unfold result in H; rewrite Run_unfold, Hval, Henter in H;
      discriminate. }
  destruct (Run_validated_run w args Hval Henter) as [Hres Hcalls].
  rewrite Hres in H; rewrite Hcalls.
  destruct (ModelGarden.ModelGardenClient_init w ModelGarden.BETA_VERSION)
    as [[]|e] eqn:Hinit.
  2:{ unfold result in H.
      rewrite (GetMultiDeploy_no_client w args _ _ [] Hinit) in H;
        discriminate. }
  destruct (ModelGarden.request_of args) as [[name flag]|] eqn:R.
  - exists name, flag.
    rewrite (trace_GetMultiDeploy_request w args _ name flag Hinit R).
    unfold result in H.
    rewrite (GetMultiDeploy_request w args _ [] name flag Hinit R) in H;
      simpl in H.
    destruct (ModelGarden.GetPublisherModel w _ name flag) as [response|e];
      [|discriminate].
    exists response; repeat split.
    destruct (ModelGarden.read_multi_deploy response); [exact H | discriminate].
  - destruct (GetMultiDeploy_no_request w args ModelGarden.BETA_VERSION Hinit R)
      as (e & He & _).
    unfold result in H; rewrite He in H; discriminate.
Qed.

Lemma value_only_from_call_witness :
  ModelGarden.ValidateModelGardenModelArgs Scenario.catalogue Scenario.gemma =
    Ok tt /\
  exists name flag response,
    ModelGarden.api_calls (trace (ModelGarden.Run Scenario.catalogue Scenario.gemma)) =
      [ModelGarden.EvGetPublisherModel
         {| ModelGarden.client_version := ModelGarden.BETA_VERSION |} name flag] /\
    ModelGarden.GetPublisherModel Scenario.catalogue
      {| ModelGarden.client_version := ModelGarden.BETA_VERSION |} name flag =
      Ok response /\
    ModelGarden.read_multi_deploy response = Ok [Scenario.g2_standard_12].
Proof.
  exact (value_only_from_call Scenario.catalogue Scenario.gemma
           [Scenario.g2_standard_12] eq_refl).
Defined.

End Origins.

(** ** Worked runs *)

Section Runs.

Example split_pieces :
  split SLASH (u "a/b//c") = [u "a"; u "b"; []; u "c"].
Proof. reflexivity. Qed.

Example lower_llama :
  lower (u "meta-llama/Meta-Llama-3-8B") = u "meta-llama/meta-llama-3-8b".
Proof. vm_compute; reflexivity. Qed.

(** A capital sigma at the end of a word becomes the final sigma, elsewhere
    the plain one: [lower()] of the Greek word for street. *)
Example lower_final_sigma :
  lower [927; 916; 927; 931]%N = [959; 948; 959; 962]%N /\
  lower [931; 927; 931]%N = [963; 959; 962]%N /\
  lower [931]%N = [963]%N.
Proof. repeat split; vm_compute; reflexivity. Qed.

(** The one code point whose lower case form has two code points. *)
Example lower_dotted_capital_I : lower [304]%N = [105; 775]%N.
Proof. vm_compute; reflexivity. Qed.

(** An upper case letter that [lower()] leaves as it is. *)
Example lower_double_struck_C :
  isupper Scenario.double_struck_C = true /\
  lower [Scenario.double_struck_C] = [Scenario.double_struck_C].
Proof. split; vm_compute; reflexivity. Qed.

(** White space beyond the 7-bit characters is stripped as well: the no-break
    space U+00A0 and the ideographic space U+3000. *)
Example strip_wide_space :
  strip ([160] ++ u "two  words" ++ [12288])%N = u "two  words".
Proof. vm_compute; reflexivity. Qed.

Example strip_both_ends : strip (u "  two  words ") = u "two  words".
Proof. vm_compute; reflexivity. Qed.

Example strip_only_space : strip (u "   ") = [].
Proof. vm_compute; reflexivity. Qed.

Example Exception_is_not_KeyboardInterrupt :
  issubclass KeyboardInterrupt Exception = false /\
  issubclass IndexError Exception = true /\
  issubclass (Subclass "FileNotFoundError" OSError) Exception = true.
Proof. repeat split. Qed.

(** The whole run on a file the service understands. *)
Example heard_run :
  Speech.process_audio Scenario.heard_world (u "speech.wav") [] =
  (Ok (Some (u "Hello world.  How are you?")),
   Speech.sent (u "speech.wav") Scenario.riff).
Proof. vm_compute; reflexivity. Qed.

(** A result without alternatives makes [result.alternatives[0]] raise
    [IndexError] inside the [try]: the error is printed and the function
    returns [None]. *)
Example no_alternative_run :
  Speech.process_audio
    (Scenario.world_of
       (Ok {| Speech.results := [ {| Speech.alternatives := [] |} ] |}))
    (u "speech.wav") [] =
  (Ok None,
   Speech.sent (u "speech.wav") Scenario.riff
   ++ [Speech.EvPrint (u "Error processing audio: list index out of range")]).
Proof. vm_compute; reflexivity. Qed.

(** The same answer where the standard output is closed: the [ValueError]
    of [print] leaves [process_audio], and [None] is not returned. *)
Example closed_stdout_run :
  Speech.process_audio Scenario.half_heard_closed_world (u "speech.wav") [] =
  (Raise Scenario.closed_stdout, Speech.sent (u "speech.wav") Scenario.riff).
Proof. vm_compute; reflexivity. Qed.

(** Two runs with the same bytes and the same answer end differently when
    only one of them can print. *)
Example handlers_may_differ :
  Speech.answers (Scenario.world_of (Ok Scenario.half_heard)) (u "speech.wav")
    Scenario.riff Scenario.half_heard /\
  Speech.answers Scenario.half_heard_closed_world (u "speech.wav")
    Scenario.riff Scenario.half_heard /\
  result (Speech.process_audio (Scenario.world_of (Ok Scenario.half_heard))
            (u "speech.wav")) <>
  result (Speech.process_audio Scenario.half_heard_closed_world
            (u "speech.wav")).
Proof.
  split; [|split]; [| |discriminate];
    eexists; eexists; repeat split.
Qed.

(** A flag with too few pieces stops the command at the unpacking, before
    any call. *)
Example short_model_flag :
  ModelGarden.Run Scenario.catalogue
    {| ModelGarden.model := Some (u "google/gemma2");
       ModelGarden.hugging_face_model := None |} [] =
  (Raise (mkExn ValueError
            (u "not enough values to unpack (expected 3, got 2)")),
   [ModelGarden.EvValidate
      {| ModelGarden.model := Some (u "google/gemma2");
         ModelGarden.hugging_face_model := None |};
    ModelGarden.EvEnterEndpointOverrides ModelGarden.BETA_VERSION
      (u "us-central1");
    ModelGarden.EvExitEndpointOverrides]).
Proof. vm_compute; reflexivity. Qed.

Example gemma_run :
  result (ModelGarden.Run Scenario.catalogue Scenario.gemma) =
  Ok [Scenario.g2_standard_12].
Proof. vm_compute; reflexivity. Qed.

(** Without a client the override is entered and left, and nothing is
    called in between. *)
Example offline_run :
  ModelGarden.Run Scenario.offline_catalogue Scenario.gemma [] =
  (Raise Scenario.no_credentials,
   [ModelGarden.EvValidate Scenario.gemma;
    ModelGarden.EvEnterEndpointOverrides ModelGarden.BETA_VERSION
      (u "us-central1");
    ModelGarden.EvExitEndpointOverrides]).
Proof. vm_compute; reflexivity. Qed.

Example cancel_run :
  Seclm.ProjectsLocationsOperationsService.Cancel
    (Scenario.recording Seclm.projects_locations_operations)
    (u "operations/42") None [] =
  (Ok (u "Empty"),
   [u "seclm.projects.locations.operations.cancel operations/42"]).
Proof. vm_compute; reflexivity. Qed.

End Runs.

Section MoreRuns.

(** Why the model names of X10 must hold no '@': these two flags lead to
    the same call. *)
Example at_sign_collision :
  trace (ModelGarden._GetMultiDeploy Scenario.catalogue
           {| ModelGarden.model := Some (u "google/a@b/c");
              ModelGarden.hugging_face_model := None |}
           ModelGarden.BETA_VERSION) =
  trace (ModelGarden._GetMultiDeploy Scenario.catalogue
           {| ModelGarden.model := Some (u "google/a/b@c");
              ModelGarden.hugging_face_model := None |}
           ModelGarden.BETA_VERSION).
Proof. vm_compute; reflexivity. Qed.

(** A file that cannot be read is still closed, and nothing is sent. *)
Example torn_run :
  Speech.process_audio Scenario.torn_world (u "speech.wav") [] =
  (Ok None,
   [Speech.EvSpeechClient; Speech.EvOpen (u "speech.wav");
    Speech.EvRead (u "speech.wav"); Speech.EvClose (u "speech.wav");
    Speech.EvPrint
      (u "Error processing audio: [Errno 5] Input/output error")]).
Proof. vm_compute; reflexivity. Qed.

Example join_of_split :
  join (u "/") (split SLASH (u "a//b/")) = u "a//b/".
Proof. vm_compute; reflexivity. Qed.

End MoreRuns.
